(** * Lotame Panorama ID submodule (modules/lotamePanoramaIdSystem.js)

    A shallow embedding of the identity cache of the Lotame Panorama ID
    user-id submodule of Prebid.js, and the properties of it that the
    design document states.

    Conventions of the embedding.
    - JavaScript values are the primitives that flow through the module
      (undefined, null, booleans, numbers, strings).  Numbers are the
      integer-valued doubles (timestamps) plus NaN; they are exact below
      2^53, which covers the whole range of valid Date time values.
    - [Date.now()] / [timestamp()] is the argument [now] of every entry
      point: one synchronous run happens at one instant.
    - The browser storage is passed explicitly; logging, network requests
      and exceptions live in the small monad [M]. *)

From Stdlib Require Import ZArith String Ascii Decimal DecimalString DecimalZ DecimalPos.
From stdpp Require Import base option gmap strings.

Local Open Scope string_scope.
Local Open Scope Z_scope.

(** ** JavaScript primitives *)

Inductive JsNumber : Type :=
  | NaN
  | Num (z : Z).

Inductive JsVal : Type :=
  | JUndefined
  | JNull
  | JBool (b : bool)
  | JNum (n : JsNumber)
  | JStr (s : string).

#[global] Instance JsNumber_eq_dec : EqDecision JsNumber.
Proof. solve_decision. Defined.

#[global] Instance JsVal_eq_dec : EqDecision JsVal.
Proof. solve_decision. Defined.

(** [a === b] on primitives; NaN is not equal to itself. *)
Definition strictEq (a b : JsVal) : bool :=
  match a, b with
  | JNum NaN, _ | _, JNum NaN => false
  | _, _ => bool_decide (a = b)
  end.

(** ToBoolean. *)
Definition truthy (v : JsVal) : bool :=
  match v with
  | JUndefined | JNull => false
  | JBool b => b
  | JNum NaN => false
  | JNum (Num z) => negb (z =? 0)
  | JStr s => negb (String.eqb s EmptyString)
  end.

(** [String(z)] for an integer-valued number. *)
Definition Z_to_string (z : Z) : string :=
  NilZero.string_of_int (Z.to_int z).

(** ToString, as used by template literals, [String(v)], cookie writes and
    [localStorage.setItem]. *)
Definition ToString (v : JsVal) : string :=
  match v with
  | JUndefined => "undefined"
  | JNull => "null"
  | JBool true => "true"
  | JBool false => "false"
  | JNum NaN => "NaN"
  | JNum (Num z) => Z_to_string z
  | JStr s => s
  end.

(** ToNumber on the non-string primitives ([new Date(v)] parses strings
    instead of converting them). *)
Definition ToNumber_prim (v : JsVal) : JsNumber :=
  match v with
  | JUndefined => NaN
  | JNull => Num 0
  | JBool true => Num 1
  | JBool false => Num 0
  | JNum n => n
  | JStr _ => NaN
  end.

Definition num_lt (a b : JsNumber) : bool :=
  match a, b with
  | Num x, Num y => x <? y
  | _, _ => false
  end.

Definition num_gt (a b : JsNumber) : bool := num_lt b a.

Definition num_sub (a b : JsNumber) : JsNumber :=
  match a, b with
  | Num x, Num y => Num (x - y)
  | _, _ => NaN
  end.

(** *** parseInt(s, 10) *)

Definition is_white_space (c : ascii) : bool :=
  match nat_of_ascii c with
  | 9%nat | 10%nat | 11%nat | 12%nat | 13%nat | 32%nat => true
  | _ => false
  end.

Fixpoint skip_white_space (s : string) : string :=
  match s with
  | String c r => if is_white_space c then skip_white_space r else s
  | EmptyString => s
  end.

(** The longest prefix of decimal digits. *)
Fixpoint take_digits (s : string) : uint :=
  match s with
  | EmptyString => Nil
  | String c r =>
      match uint_of_char c (Some (take_digits r)) with
      | Some d => d
      | None => Nil
      end
  end.

Definition parse_digits (negative : bool) (s : string) : JsNumber :=
  match take_digits s with
  | Nil => NaN
  | d => Num (if negative then - Z.of_uint d else Z.of_uint d)
  end.

Definition parseInt (s : string) : JsNumber :=
  match skip_white_space s with
  | String c r =>
      if Ascii.eqb c "-" then parse_digits true r
      else if Ascii.eqb c "+" then parse_digits false r
      else parse_digits false (String c r)
  | EmptyString => NaN
  end.

(** *** Date *)

Definition MAX_TIME_VALUE : Z := 8640000000000000.

(** TimeClip: a Date holds a time value in the valid range, or NaN. *)
Definition TimeClip (n : JsNumber) : JsNumber :=
  match n with
  | Num z => if Z.abs z <=? MAX_TIME_VALUE then Num z else NaN
  | NaN => NaN
  end.

(** The result of [Date.prototype.toUTCString]: a date at the resolution of
    one second (the milliseconds are not printed), or "Invalid Date". *)
Inductive UTCString : Type :=
  | InvalidDate
  | UTCSeconds (seconds : Z).

Definition toUTCString (timeValue : JsNumber) : UTCString :=
  match timeValue with
  | NaN => InvalidDate
  | Num t => UTCSeconds (t / 1000)
  end.

(** What the module needs from its environment and cannot compute itself:
    the implementation-defined [Date.parse], [JSON.parse] (which throws on
    a malformed body), the user agent string and the US-privacy string of
    the consent handler. *)
Inductive JsError : Type :=
  | SyntaxError (message : string)
  | URIError (message : string).

Inductive Outcome (A : Type) : Type :=
  | Returned (a : A)
  | Threw (e : JsError).
Arguments Returned {A} a.
Arguments Threw {A} e.

(** The fields the module reads off [Object.assign({}, JSON.parse(body))];
    [errors] is [None] when the field is not an array. *)
Record ResponseObj : Type := mkResponseObj {
  profile_id : JsVal;
  core_id : JsVal;
  no_consent : JsVal;
  expiry_ts : JsVal;
  errors : option (list JsVal);
}.

Class Host : Type := {
  Date_parse : string -> JsNumber;
  JSON_parse : string -> Outcome ResponseObj;
  navigator_userAgent : string;
  uspDataHandler_getConsentData : JsVal;
}.

(** [new Date(v)], as its time value. *)
Definition newDate `{Host} (v : JsVal) : JsNumber :=
  match v with
  | JStr s => TimeClip (Date_parse s)
  | _ => TimeClip (ToNumber_prim v)
  end.

(** ** utils.js *)

(** Modelled from the spec: utils.js is not among the sources; [isStr] is
    the test "is a string". *)
Definition isStr (v : JsVal) : bool :=
  match v with JStr _ => true | _ => false end.

(** Modelled from the spec: utils.js is not among the sources; [isBoolean]
    is the test "explicitly provides a boolean". *)
Definition isBoolean (v : JsVal) : bool :=
  match v with JBool _ => true | _ => false end.

(** Modelled from the spec: utils.js is not among the sources.  A value is
    "empty" when it is absent or a string of length 0; as in utils.js, the
    other primitives have no own keys and count as empty too. *)
Definition isEmpty (v : JsVal) : bool :=
  match v with
  | JStr s => String.eqb s EmptyString
  | _ => true
  end.

(** Modelled from the spec: utils.js is not among the sources; an empty
    string. *)
Definition isEmptyStr (v : JsVal) : bool :=
  match v with
  | JStr s => String.eqb s EmptyString
  | _ => false
  end.

(** ** The storage manager *)

Record Cookie : Type := mkCookie {
  cookie_value : string;
  cookie_expires : option Z;
}.

Record Storage : Type := mkStorage {
  cookiesEnabled : bool;
  localStorageEnabled : bool;
  cookieJar : gmap string Cookie;
  localData : gmap string string;
}.

Definition with_cookieJar (st : Storage) (jar : gmap string Cookie) : Storage :=
  {| cookiesEnabled := cookiesEnabled st;
     localStorageEnabled := localStorageEnabled st;
     cookieJar := jar;
     localData := localData st |}.

Definition with_localData (st : Storage) (d : gmap string string) : Storage :=
  {| cookiesEnabled := cookiesEnabled st;
     localStorageEnabled := localStorageEnabled st;
     cookieJar := cookieJar st;
     localData := d |}.

(** Modelled from the spec: the storage manager (src/storageManager.js) is
    not among the sources.  Each backend is available or not; asking is
    safe either way. *)
Definition cookiesAreEnabled (st : Storage) : bool := cookiesEnabled st.

(** Modelled from the spec: availability of the plain backend of the
    storage manager, which is not among the sources. *)
Definition hasLocalStorage (st : Storage) : bool := localStorageEnabled st.

Definition cookie_live (now : Z) (c : Cookie) : bool :=
  match cookie_expires c with
  | Some e => now <? e
  | None => true
  end.

(** Modelled from the spec: the storage manager (src/storageManager.js) is
    not among the sources.  The cookie-like backend expires an entry
    natively at the date it was written with; a date that is already past
    removes the entry, and an unreadable date leaves a cookie without
    expiry. *)
Definition setCookie (now : Z) (key : string) (value : JsVal)
    (expires : UTCString) (st : Storage) : Storage :=
  match expires with
  | UTCSeconds s =>
      if s * 1000 <=? now
      then with_cookieJar st (delete key (cookieJar st))
      else with_cookieJar st
             (<[key := mkCookie (ToString value) (Some (s * 1000))]> (cookieJar st))
  | InvalidDate =>
      with_cookieJar st (<[key := mkCookie (ToString value) None]> (cookieJar st))
  end.

(** Modelled from the spec: reading the cookie-like backend yields the
    value of a cookie that has not expired, and null otherwise. *)
Definition getCookie (now : Z) (key : string) (st : Storage) : JsVal :=
  match cookieJar st !! key with
  | Some c => if cookie_live now c then JStr (cookie_value c) else JNull
  | None => JNull
  end.

(** Modelled from the spec: the plain backend is a key/value store of
    strings without expiry of its own. *)
Definition getDataFromLocalStorage (key : string) (st : Storage) : JsVal :=
  match localData st !! key with
  | Some v => JStr v
  | None => JNull
  end.

(** Modelled from the spec: a write to the plain backend of the storage
    manager, which is not among the sources, stores the value as a string. *)
Definition setDataInLocalStorage (key : string) (value : JsVal) (st : Storage) : Storage :=
  with_localData st (<[key := ToString value]> (localData st)).

(** Modelled from the spec: a removal from the plain backend of the storage
    manager, which is not among the sources; an absent key is a no-op. *)
Definition removeDataFromLocalStorage (key : string) (st : Storage) : Storage :=
  with_localData st (delete key (localData st)).

(** ** modules/lotamePanoramaIdSystem.js: constants *)

Definition KEY_ID : string := "panoramaId".
Definition KEY_EXPIRY : string := KEY_ID +:+ "_expiry".
Definition KEY_PROFILE : string := "_cc_id".
Definition NINE_MONTHS_MS : Z := 23328000 * 1000.
Definition DAYS_TO_CACHE : Z := 7.
Definition DAY_MS : Z := 60 * 60 * 24 * 1000.
Definition MISSING_CORE_CONSENT : Z := 111.
Definition ID_HOST : string := "id.crwdcntrl.net".
Definition ID_HOST_COOKIELESS : string := "c.ltmsphrcl.net".
Definition DATA_HOST : string := "bcp.st.dev.lotame.com".
Definition DATA_HOST_COOKIELESS : string := "c.st.dev.lotame-cookie-nerf.net".

(** The key of the suppression window of a client:
    [`${KEY_EXPIRY}_${clientId}`]. *)
Definition clientExpiryKey (clientId : JsVal) : string :=
  KEY_EXPIRY +:+ "_" +:+ ToString clientId.

(** ** The cache over the two storage backends *)

Section Cache.
Context `{Host}.

(** [now] is [timestamp()]. *)
Definition setProfileId (now : Z) (profileId : JsVal) (st : Storage) : Storage :=
  let st :=
    if cookiesAreEnabled st then
      let expirationDate := toUTCString (newDate (JNum (Num (now + NINE_MONTHS_MS)))) in
      setCookie now KEY_PROFILE profileId expirationDate st
    else st in
  if hasLocalStorage st then setDataInLocalStorage KEY_PROFILE profileId st
  else st.

Definition getProfileId (now : Z) (st : Storage) : JsVal :=
  let profileId :=
    if cookiesAreEnabled st then getCookie now KEY_PROFILE st else JUndefined in
  if negb (truthy profileId) && hasLocalStorage st
  then getDataFromLocalStorage KEY_PROFILE st
  else profileId.

Definition getFromStorage (now : Z) (key : string) (st : Storage) : JsVal :=
  let value := JNull in
  let value := if cookiesAreEnabled st then getCookie now key st else value in
  if hasLocalStorage st && strictEq value JNull then
    let storedValueExp := getDataFromLocalStorage (key +:+ "_exp") st in
    if strictEq storedValueExp (JStr EmptyString) || strictEq storedValueExp JNull then
      getDataFromLocalStorage key st
    else if truthy storedValueExp then
      if num_gt (num_sub (newDate (JNum (parseInt (ToString storedValueExp)))) (Num now))
                (Num 0)
      then getDataFromLocalStorage key st
      else value
    else value
  else value.

(** The default of [expirationTimestamp] applies when the argument is
    undefined. *)
Definition saveLotameCache (now : Z) (key : string) (value : JsVal)
    (expirationTimestamp : JsVal) (st : Storage) : Storage :=
  let expirationTimestamp :=
    match expirationTimestamp with
    | JUndefined => JNum (Num (now + DAYS_TO_CACHE * DAY_MS))
    | _ => expirationTimestamp
    end in
  if truthy (JStr key) && truthy value then
    let expirationDate := toUTCString (newDate expirationTimestamp) in
    let st :=
      if cookiesAreEnabled st
      then setCookie now key value expirationDate st
      else st in
    if hasLocalStorage st then
      let st := setDataInLocalStorage (key +:+ "_exp")
                  (JStr (ToString expirationTimestamp)) st in
      setDataInLocalStorage key value st
    else st
  else st.

Definition clearLotameCache (now : Z) (key : string) (st : Storage) : Storage :=
  if truthy (JStr key) then
    let st :=
      if cookiesAreEnabled st then
        let expirationDate := toUTCString (newDate (JNum (Num 0))) in
        setCookie now key (JStr EmptyString) expirationDate st
      else st in
    if hasLocalStorage st then removeDataFromLocalStorage key st else st
  else st.

(** ** Response processing *)

Record Options : Type := mkOptions {
  profileId : JsVal;
  coreId : JsVal;
  clientId : JsVal;
  noConsent : JsVal;
  expiry : JsVal;
  consentIsErrorFree : bool;
}.

(** Returns the new storage and the function's return value
    ([storedCoreId], or undefined on the early return). *)
Definition processResponseIDs (now : Z) (o : Options) (st : Storage)
    : Storage * JsVal :=
  let hasCustomClientId := negb (isEmpty (clientId o)) in
  let storedCoreId := JUndefined in
  let continue (st : Storage) : Storage * JsVal :=
    let st := saveLotameCache now KEY_EXPIRY (expiry o) (expiry o) st in
    if isStr (profileId o) then
      let st := if consentIsErrorFree o then setProfileId now (profileId o) st else st in
      if isStr (coreId o) then
        (saveLotameCache now KEY_ID (coreId o) (expiry o) st, coreId o)
      else
        (clearLotameCache now KEY_ID st, storedCoreId)
    else
      let st := if consentIsErrorFree o then clearLotameCache now KEY_PROFILE st else st in
      (clearLotameCache now KEY_ID st, storedCoreId) in
  if hasCustomClientId then
    if consentIsErrorFree o then
      continue (clearLotameCache now (clientExpiryKey (clientId o)) st)
    else if isStr (noConsent o) && strictEq (noConsent o) (JStr "CLIENT") then
      (saveLotameCache now (clientExpiryKey (clientId o)) (expiry o) (expiry o) st,
       JUndefined)
    else continue st
  else continue st.

(** ** The loaded cache state *)

Record LocalCache : Type := mkLocalCache {
  data : JsVal;
  expiryTimestampMs : JsNumber;
  clientExpiryTimestampMs : JsNumber;
}.

Definition getCurrentPanoId (now : Z) (localCache : LocalCache) : JsVal :=
  let hasExpiredPanoId := num_gt (Num now) (expiryTimestampMs localCache) in
  if negb hasExpiredPanoId && negb (isEmpty (data localCache))
  then data localCache
  else JUndefined.

End Cache.

(** ** Effects: log, network and exceptions *)

Inductive LogEntry : Type :=
  | LogError (e : JsError)
  | ConsoleError (message : string).

Record Url : Type := mkUrl {
  protocol : string;
  host : string;
  pathname : string;
  search : option (list (string * JsVal));
}.

(** A request handed to [ajax]; the success handler of each is a function
    of this module ([idResponseHandler], [dataResponseHandler]) closed
    over the client id. *)
Inductive Request : Type :=
  | AjaxGet (url : Url) (handlerClientId : JsVal)
  | AjaxPost (url : Url) (payload : list (string * JsVal)) (handlerClientId : JsVal).

Record World : Type := mkWorld {
  storage : Storage;
  logs : list LogEntry;
  requests : list Request;
}.

Definition M (A : Type) : Type := World -> Outcome A * World.

#[global] Instance M_ret : MRet M :=
  fun A a w => (Returned a, w).

#[global] Instance M_bind : MBind M :=
  fun A B f m w =>
    match m w with
    | (Returned a, w') => f a w'
    | (Threw e, w') => (Threw e, w')
    end.

Definition try_catch {A} (body : M A) (handler : JsError -> M A) : M A :=
  fun w =>
    match body w with
    | (Threw e, w') => handler e w'
    | r => r
    end.

Definition liftOutcome {A} (o : Outcome A) : M A := fun w => (o, w).

Definition readStorage {A} (f : Storage -> A) : M A :=
  fun w => (Returned (f (storage w)), w).

Definition stepStorage {A} (f : Storage -> Storage * A) : M A :=
  fun w =>
    let '(st, r) := f (storage w) in
    (Returned r, mkWorld st (logs w) (requests w)).

Definition logError (e : JsError) : M unit :=
  fun w => (Returned tt, mkWorld (storage w) (logs w ++ [LogError e])%list (requests w)).

Definition console_error (message : string) : M unit :=
  fun w => (Returned tt, mkWorld (storage w) (logs w ++ [ConsoleError message])%list (requests w)).

Definition ajax (r : Request) : M unit :=
  fun w => (Returned tt, mkWorld (storage w) (logs w) (requests w ++ [r])%list).

(** ** The module, continued *)

Record ConsentData : Type := mkConsentData {
  gdprApplies : JsVal;
  consentString : JsVal;
}.

(** [config.params.hems]: a primitive or an array. *)
Inductive Hems : Type :=
  | HemsValue (v : JsVal)
  | HemsArray (l : list JsVal).

Record ConfigParams : Type := mkConfigParams {
  params_clientId : JsVal;
  params_hems : Hems;
}.

(** What the deferred [resolveIdFunction] closes over. *)
Record Closure : Type := mkClosure {
  clo_localCache : LocalCache;
  clo_storedUserId : JsVal;
  clo_clientId : JsVal;
  clo_hasCustomClientId : bool;
  clo_consentData : option ConsentData;
}.

(** The object returned by [getId]: [{id: undefined, reason:
    'NO_CLIENT_CONSENT'}], [{id}] or [{callback}]. *)
Inductive IdResponse : Type :=
  | NoClientConsent
  | IdFound (id : JsVal)
  | Deferred (callback : Closure).

Section Module.
Context `{Host}.

Definition getLotameLocalCache (now : Z) (clientId : JsVal) : M LocalCache :=
  storedId ← readStorage (getFromStorage now KEY_ID);
  let cache := mkLocalCache storedId (Num 0) (Num 0) in
  try_catch
    (cache ←
       (if truthy clientId then
          rawClientExpiry ← readStorage (getFromStorage now (clientExpiryKey clientId));
          if isStr rawClientExpiry then
            mret (mkLocalCache (data cache) (expiryTimestampMs cache)
                    (parseInt (ToString rawClientExpiry)))
          else mret cache
        else mret cache);
     rawExpiry ← readStorage (getFromStorage now KEY_EXPIRY);
     if isStr rawExpiry then
       mret (mkLocalCache (data cache) (parseInt (ToString rawExpiry))
               (clientExpiryTimestampMs cache))
     else mret cache)
    (fun error => logError error;; mret cache).

(** The query parameters, in insertion order. *)
Definition getConsentParameters (now : Z) (consentData : option ConsentData)
    : M (list (string * JsVal)) :=
  let usp := uspDataHandler_getConsentData in
  let usPrivacy :=
    if negb (bool_decide (usp = JUndefined))
       && negb (isEmpty usp) && negb (isEmptyStr usp)
    then usp else JUndefined in
  usPrivacy ←
    (if negb (truthy usPrivacy)
     then readStorage (getFromStorage now "us_privacy")
     else mret usPrivacy);
  let params := if truthy usPrivacy then [("us_privacy", usPrivacy)] else [] in
  let params :=
    match consentData with
    | Some c =>
        if isBoolean (gdprApplies c)
        then (params ++ [("gdpr_applies", gdprApplies c)])%list else params
    | None => params
    end in
  let consent :=
    match consentData with
    | Some c => consentString c
    | None => JUndefined
    end in
  consent ←
    (if negb (truthy consent)
     then readStorage (getFromStorage now "eupubconsent-v2")
     else mret consent);
  consent ←
    (if negb (truthy consent)
     then readStorage (getFromStorage now "euconsent-v2")
     else mret consent);
  mret (if truthy consent
        then (params ++ [("gdpr_consent", consent)])%list else params).

(** [indexOf] of a non-empty needle is not -1. *)
Definition contains (needle s : string) : bool :=
  match String.index 0 needle s with Some _ => true | None => false end.

Definition useCookieless : bool :=
  truthy (JStr navigator_userAgent)
  && contains "Safari" navigator_userAgent
  && negb (contains "Chrome" navigator_userAgent).

Definition getRequestHost : string :=
  if useCookieless then ID_HOST_COOKIELESS else ID_HOST.

(** The body shared by the two success handlers: the value assigned to
    [coreId]. *)
Definition handleResponse (now : Z) (clientId : JsVal) (response : string) : M JsVal :=
  let coreId := JUndefined in
  if truthy (JStr response) then
    try_catch
      (responseObj ← liftOutcome (JSON_parse response);
       let consentIsErrorFree :=
         negb (match errors responseObj with
               | Some l => existsb (fun x => strictEq x (JNum (Num MISSING_CORE_CONSENT))) l
               | None => false
               end) in
       let options :=
         mkOptions (profile_id responseObj) (core_id responseObj) clientId
           (no_consent responseObj) (expiry_ts responseObj) consentIsErrorFree in
       stepStorage (processResponseIDs now options))
      (fun error => logError error;; mret coreId)
  else mret coreId.

(** The success handler of the linkage-data request; [coreId] is dropped. *)
Definition dataResponseHandler (now : Z) (clientId : JsVal) (response : string) : M unit :=
  _ ← handleResponse now clientId response; mret tt.

Definition dataErrorHandler : M unit :=
  console_error "sendUserData::error".

(** The success handler of the /id request: the result is the argument
    passed to the caller's callback. *)
Definition idResponseHandler (now : Z) (clientId : JsVal) (response : string) : M JsVal :=
  coreId ← handleResponse now clientId response;
  mret coreId.

Definition sendUserData (configParams : ConfigParams) : M unit :=
  let clientId := params_clientId configParams in
  let hem :=
    match params_hems configParams with
    | HemsValue v => if isEmpty v then JUndefined else v
    | HemsArray [] => JUndefined
    | HemsArray (h :: _) => h
    end in
  if negb (isEmpty clientId) && negb (isEmpty hem) then
    let url := mkUrl "https" "lightning.com-local"
                 "/src/test/generated-html/prebid-HEM-response.js" None in
    let payload := [("c", clientId); ("did", hem)] in
    ajax (AjaxPost url payload clientId)
  else mret tt.

(** [resolveIdFunction(callback)]: [Some v] when the callback is called
    at once with [v], [None] when a request was issued instead. *)
Definition resolveIdFunction (now : Z) (c : Closure) : M (option JsVal) :=
  let currentPanoId := getCurrentPanoId now (clo_localCache c) in
  if negb (isEmpty currentPanoId) then mret (Some currentPanoId)
  else
    let queryParams :=
      ((if truthy (clo_storedUserId c) then [("fp", clo_storedUserId c)] else [])
       ++ (if clo_hasCustomClientId c then [("c", clo_clientId c)] else []))%list in
    consentParams ← getConsentParameters now (clo_consentData c);
    let queryParams := (queryParams ++ consentParams)%list in
    let url := mkUrl "https" getRequestHost "/id"
                 (match queryParams with [] => None | _ => Some queryParams end) in
    ajax (AjaxGet url (clo_clientId c));;
    mret None.

Definition decode (value : JsVal) : option (string * JsVal) :=
  if isStr value then Some ("lotamePanoramaId", value) else None.

(** [(config && config.params) || {}] *)
Definition paramsOf (config : option ConfigParams) : ConfigParams :=
  default (mkConfigParams JUndefined (HemsValue JUndefined)) config.

(** [cookieDomain], set here from [findRootDomain()], only scopes the
    cookies and is not part of the storage model. *)
Definition getId (now : Z) (config : option ConfigParams)
    (consentData : option ConsentData) : M IdResponse :=
  let configParams := paramsOf config in
  let clientId := params_clientId configParams in
  let hasCustomClientId := negb (isEmpty clientId) in
  localCache ← getLotameLocalCache now clientId;
  if hasCustomClientId && num_lt (Num now) (clientExpiryTimestampMs localCache)
  then mret NoClientConsent
  else
    sendUserData configParams;;
    let currentPanoId := getCurrentPanoId now localCache in
    if negb (isEmpty currentPanoId) then mret (IdFound currentPanoId)
    else
      storedUserId ← readStorage (getProfileId now);
      mret (Deferred (mkClosure localCache storedUserId clientId
                        hasCustomClientId consentData)).

End Module.

(** ** Storage reads that throw *)

(** The storage manager is not among the sources, and the functions above
    take its reads to succeed.  Its cookie reader matches [document.cookie]
    against a regular expression built from the cookie name and passes the
    value found to [decodeURIComponent]: reading a cookie throws a
    SyntaxError when the name is no regular expression (a clientId "(")
    and a URIError when the value is not percent-encoded text (a cookie
    [panoramaId=%]).  What the read of each cookie throws is taken as a
    parameter, [getCookie_error]; the functions below are the functions of
    the module over such reads, and with no error they are the functions
    above. *)
Module Throwing.
Section Reads.
Context `{Host}.
Variable getCookie_error : string -> option JsError.

(** [storage.getCookie(key)], as far as it throws; only reached when
    cookies are enabled. *)
Definition getCookie (key : string) : M unit :=
  fun w =>
    if cookiesAreEnabled (storage w) then
      match getCookie_error key with
      | Some e => (Threw e, w)
      | None => (Returned tt, w)
      end
    else (Returned tt, w).

Definition getProfileId (now : Z) : M JsVal :=
  getCookie KEY_PROFILE;;
  readStorage (getProfileId now).

Definition getFromStorage (now : Z) (key : string) : M JsVal :=
  getCookie key;;
  readStorage (getFromStorage now key).

(** [cache] is one object, assigned in place: when the second read throws,
    the field assigned after the first read keeps its value. *)
Definition getLotameLocalCache (now : Z) (clientId : JsVal) : M LocalCache :=
  storedId ← getFromStorage now KEY_ID;
  let cache := mkLocalCache storedId (Num 0) (Num 0) in
  try_catch
    (cache ←
       (if truthy clientId then
          rawClientExpiry ← getFromStorage now (clientExpiryKey clientId);
          if isStr rawClientExpiry then
            mret (mkLocalCache (data cache) (expiryTimestampMs cache)
                    (parseInt (ToString rawClientExpiry)))
          else mret cache
        else mret cache);
     try_catch
       (rawExpiry ← getFromStorage now KEY_EXPIRY;
        if isStr rawExpiry then
          mret (mkLocalCache (data cache) (parseInt (ToString rawExpiry))
                  (clientExpiryTimestampMs cache))
        else mret cache)
       (fun error => logError error;; mret cache))
    (fun error => logError error;; mret cache).

Definition getId (now : Z) (config : option ConfigParams)
    (consentData : option ConsentData) : M IdResponse :=
  let configParams := paramsOf config in
  let clientId := params_clientId configParams in
  let hasCustomClientId := negb (isEmpty clientId) in
  localCache ← getLotameLocalCache now clientId;
  if hasCustomClientId && num_lt (Num now) (clientExpiryTimestampMs localCache)
  then mret NoClientConsent
  else
    sendUserData configParams;;
    let currentPanoId := getCurrentPanoId now localCache in
    if negb (isEmpty currentPanoId) then mret (IdFound currentPanoId)
    else
      storedUserId ← getProfileId now;
      mret (Deferred (mkClosure localCache storedUserId clientId
                        hasCustomClientId consentData)).

End Reads.
End Throwing.

(** ** Vocabulary of the statements *)

(** The instant at which a cookie written with expiry [T] expires: the
    date string handed to the cookie backend carries whole seconds. *)
Definition wholeSecond (T : Z) : Z := T / 1000 * 1000.

(** A backend that becomes unavailable; what it holds is not lost. *)
Definition disableCookies (st : Storage) : Storage :=
  mkStorage false (localStorageEnabled st) (cookieJar st) (localData st).

Definition disableLocalStorage (st : Storage) : Storage :=
  mkStorage (cookiesEnabled st) false (cookieJar st) (localData st).

(** ** Sample runs *)

(** A host for the runs below: of [JSON.parse] they only need that it reads
    the empty object and rejects a body that is not JSON, and [Date.parse]
    is never reached. *)
Definition sampleHost : Host :=
  {| Date_parse := fun _ => NaN;
     JSON_parse := fun body =>
       if String.eqb body "{}"
       then Returned (mkResponseObj JUndefined JUndefined JUndefined JUndefined None)
       else Threw (SyntaxError body);
     navigator_userAgent := "Mozilla/5.0 Chrome/120.0 Safari/537.36";
     uspDataHandler_getConsentData := JUndefined |}.

Definition emptyStorage : Storage := mkStorage true true ∅ ∅.

Definition sampleNow : Z := 1700000000000.
Definition sampleExpiry : Z := sampleNow + 86400000.

(** [{profile_id: "p1", core_id: "abc", expiry_ts, errors: []}] *)
Definition grantResponse : Options :=
  mkOptions (JStr "p1") (JStr "abc") JUndefined JUndefined
    (JNum (Num sampleExpiry)) true.

(** [{no_consent: "CLIENT", expiry_ts, errors: [111]}] for client "7". *)
Definition clientDeniedResponse : Options :=
  mkOptions JUndefined JUndefined (JStr "7") (JStr "CLIENT")
    (JNum (Num sampleExpiry)) false.

(** The same response without [expiry_ts]. *)
Definition clientDeniedNoExpiry : Options :=
  mkOptions JUndefined JUndefined (JStr "7") (JStr "CLIENT") JUndefined false.

(** [{profile_id: "", core_id: "abc", expiry_ts, errors: []}] *)
Definition emptyProfileResponse : Options :=
  mkOptions (JStr EmptyString) (JStr "abc") JUndefined JUndefined
    (JNum (Num sampleExpiry)) true.

(** [{profile_id: "p1", core_id: "", expiry_ts, errors: []}] *)
Definition emptyCoreResponse : Options :=
  mkOptions (JStr "p1") (JStr EmptyString) JUndefined JUndefined
    (JNum (Num sampleExpiry)) true.

(** [{profile_id: "p1", core_id: "abc", errors: []}]: no [expiry_ts]. *)
Definition grantWithoutExpiry : Options :=
  mkOptions (JStr "p1") (JStr "abc") JUndefined JUndefined JUndefined true.

(** The cache after a granted identity, and after client "7" was then
    denied. *)
Definition storedIdentity : Storage :=
  fst (@processResponseIDs sampleHost sampleNow grantResponse emptyStorage).

Definition suppressedClient : Storage :=
  fst (@processResponseIDs sampleHost sampleNow clientDeniedResponse storedIdentity).

(** A CoreId stored without the global expiry record. *)
Definition identityWithoutExpiry : Storage :=
  fst (@processResponseIDs sampleHost sampleNow grantWithoutExpiry emptyStorage).

Definition identityWithoutExpirySuppressed : Storage :=
  fst (@processResponseIDs sampleHost sampleNow clientDeniedResponse
         identityWithoutExpiry).

(** A suppression record that is not a number. *)
Definition malformedSuppression : Storage :=
  mkStorage true true ∅ {[ "panoramaId_expiry_7" := "soon" ]}.

(** Entries of another origin: no companion expiry records. *)
Definition legacyIdentity : Storage :=
  mkStorage true true ∅
    (<[ "panoramaId" := "abc" ]> {[ "panoramaId_expiry" := "1700086400000" ]}).

Definition client7 : ConfigParams :=
  mkConfigParams (JStr "7") (HemsValue (JStr "5d41402abc4b2a76b9719d911017c592")).

(** The same client configured as a number, [params: {clientId: 7}]. *)
Definition numericClient7 : ConfigParams :=
  mkConfigParams (JNum (Num 7)) (HemsValue JUndefined).

Definition worldOf (st : Storage) : World := mkWorld st [] [].

(** What the cookie reads throw when [document.cookie] holds [panoramaId=%],
    a value that is not percent-encoded text, and when it holds
    [panoramaId_expiry=%]. *)
Definition malformedIdCookie (key : string) : option JsError :=
  if String.eqb key KEY_ID then Some (URIError "URI malformed") else None.

Definition malformedExpiryCookie (key : string) : option JsError :=
  if String.eqb key KEY_EXPIRY then Some (URIError "URI malformed") else None.

(** A second host, with a Safari user agent and a [JSON.parse] that reads
    the two bodies below. *)
Definition quoted (s : string) : string :=
  String "034"%char s +:+ String "034"%char EmptyString.

(** [{"profile_id":"p1","core_id":"abc","expiry_ts":1700086400000}] *)
Definition grantBody : string :=
  "{" +:+ quoted "profile_id" +:+ ":" +:+ quoted "p1" +:+ ","
  +:+ quoted "core_id" +:+ ":" +:+ quoted "abc" +:+ ","
  +:+ quoted "expiry_ts" +:+ ":1700086400000}".

(** [{"errors":[111],"expiry_ts":1700086400000}] *)
Definition deniedBody : string :=
  "{" +:+ quoted "errors" +:+ ":[111]," +:+ quoted "expiry_ts" +:+ ":1700086400000}".

Definition safariHost : Host :=
  {| Date_parse := fun _ => NaN;
     JSON_parse := fun body =>
       if String.eqb body grantBody
       then Returned (mkResponseObj (JStr "p1") (JStr "abc") JUndefined
                        (JNum (Num sampleExpiry)) None)
       else if String.eqb body deniedBody
       then Returned (mkResponseObj JUndefined JUndefined JUndefined
                        (JNum (Num sampleExpiry))
                        (Some [JNum (Num MISSING_CORE_CONSENT)]))
       else Threw (SyntaxError body);
     navigator_userAgent :=
       "Mozilla/5.0 (iPhone; CPU iPhone OS 17_0 like Mac OS X) Version/17.0 Safari/604.1";
     uspDataHandler_getConsentData := JStr "1YNN" |}.

(** [{expiry_ts, errors: [111]}], for no client. *)
Definition deniedResponse : Options :=
  mkOptions JUndefined JUndefined JUndefined JUndefined
    (JNum (Num sampleExpiry)) false.

(** [{profile_id: "p1", core_id: "abc", expiry_ts, errors: []}] for client
    "7". *)
Definition clientGrantResponse : Options :=
  mkOptions (JStr "p1") (JStr "abc") (JStr "7") JUndefined
    (JNum (Num sampleExpiry)) true.

(** Neither backend is available. *)
Definition noBackends : Storage := mkStorage false false ∅ ∅.

(** An entry whose companion expiry record is not a number. *)
Definition unreadableCompanion : Storage :=
  mkStorage true true ∅
    (<[ "panoramaId" := "abc" ]> {[ "panoramaId_exp" := "soon" ]}).

(** One key in both backends, with different values; a session cookie. *)
Definition cookieOverLocal : Storage :=
  mkStorage true true {[ "panoramaId" := mkCookie "fromCookie" None ]}
    {[ "panoramaId" := "fromLocal" ]}.

(** A CoreId whose global expiry record is not a number. *)
Definition unreadableExpiry : Storage :=
  mkStorage true true ∅
    (<[ "panoramaId" := "abc" ]> {[ "panoramaId_expiry" := "never" ]}).


(** Consent strings left in the cache by a consent management platform. *)
Definition consentStorage : Storage :=
  mkStorage true true ∅
    (<[ "euconsent-v2" := "CPxyz" ]> {[ "us_privacy" := "1YNN" ]}).


(** * Facts *)

Lemma take_digits_string_of_uint (d : uint) :
  take_digits (NilEmpty.string_of_uint d) = d.
Proof. induction d; simpl; rewrite ?IHd; reflexivity. Qed.

Lemma string_of_uint_head (d : uint) :
  d <> Nil ->
  exists c r, NilEmpty.string_of_uint d = String c r
    /\ is_white_space c = false /\ Ascii.eqb c "-" = false /\ Ascii.eqb c "+" = false.
Proof.
  destruct d; intros Hd; try congruence; simpl; eexists _, _; repeat split; reflexivity.
Qed.

Lemma parse_digits_string_of_uint (neg : bool) (d : uint) :
  d <> Nil ->
  parse_digits neg (NilEmpty.string_of_uint d)
  = Num (if neg then - Z.of_uint d else Z.of_uint d).
Proof.
  intros Hd. unfold parse_digits. rewrite take_digits_string_of_uint.
  destruct d; congruence.
Qed.

Lemma string_of_uint_nonnil (d : uint) :
  d <> Nil -> NilZero.string_of_uint d = NilEmpty.string_of_uint d.
Proof. destruct d; [congruence|reflexivity..]. Qed.

(** [parseInt(String(z), 10) === z] *)
Lemma parseInt_Z_to_string (z : Z) : parseInt (Z_to_string z) = Num z.
Proof.
  destruct z as [|p|p]; [reflexivity| |].
  - unfold Z_to_string; simpl.
    pose proof (Unsigned.to_uint_nonnil p) as Hn.
    destruct (string_of_uint_head _ Hn) as (c & r & E & Hw & Hm & Hp).
    rewrite (string_of_uint_nonnil _ Hn). unfold parseInt. rewrite E. simpl. rewrite Hw, Hm, Hp.
    rewrite <- E. rewrite parse_digits_string_of_uint by assumption.
    f_equal. exact (DecimalZ.of_to (Z.pos p)).
  - unfold Z_to_string; simpl.
    pose proof (Unsigned.to_uint_nonnil p) as Hn.
    rewrite (string_of_uint_nonnil _ Hn). unfold parseInt. simpl.
    rewrite parse_digits_string_of_uint by assumption.
    f_equal. exact (DecimalZ.of_to (Z.neg p)).
Qed.

Lemma Z_to_string_nonempty (z : Z) : Z_to_string z <> EmptyString.
Proof.
  intros E. pose proof (parseInt_Z_to_string z) as P. rewrite E in P. discriminate.
Qed.

Lemma append_cons (a : ascii) (s t : string) : String a s +:+ t = String a (s +:+ t).
Proof. reflexivity. Qed.

Lemma append_suffix_neq (key suffix : string) :
  suffix <> EmptyString -> key +:+ suffix <> key.
Proof.
  intros Hs. induction key as [|a k IH].
  - exact Hs.
  - rewrite append_cons. intros [= E]. exact (IH E).
Qed.

Lemma length_append (s t : string) :
  String.length (s +:+ t) = (String.length s + String.length t)%nat.
Proof.
  induction s as [|a s IH]; [reflexivity|].
  rewrite append_cons. simpl. now rewrite IH.
Qed.

Lemma append_exp_neq (key : string) : key <> key +:+ "_exp".
Proof. intros E. symmetry in E. revert E. apply append_suffix_neq. discriminate. Qed.


Section StorageFacts.
Context `{Host}.

Lemma getFromStorage_ext (t : Z) (key : string) (st st' : Storage) :
  cookiesEnabled st' = cookiesEnabled st ->
  localStorageEnabled st' = localStorageEnabled st ->
  cookieJar st' !! key = cookieJar st !! key ->
  localData st' !! key = localData st !! key ->
  localData st' !! (key +:+ "_exp") = localData st !! (key +:+ "_exp") ->
  getFromStorage t key st' = getFromStorage t key st.
Proof.
  intros Hc Hl Hj Hd He.
  unfold getFromStorage, getCookie, getDataFromLocalStorage, cookiesAreEnabled, hasLocalStorage.
  rewrite Hc, Hl, Hj, Hd, He. reflexivity.
Qed.

Lemma getProfileId_ext (t : Z) (st st' : Storage) :
  cookiesEnabled st' = cookiesEnabled st ->
  localStorageEnabled st' = localStorageEnabled st ->
  cookieJar st' !! KEY_PROFILE = cookieJar st !! KEY_PROFILE ->
  localData st' !! KEY_PROFILE = localData st !! KEY_PROFILE ->
  getProfileId t st' = getProfileId t st.
Proof.
  intros Hc Hl Hj Hd.
  unfold getProfileId, getCookie, getDataFromLocalStorage, cookiesAreEnabled, hasLocalStorage.
  rewrite Hc, Hl, Hj, Hd. reflexivity.
Qed.

Lemma saveLotameCache_flags now key v e st :
  cookiesEnabled (saveLotameCache now key v e st) = cookiesEnabled st
  /\ localStorageEnabled (saveLotameCache now key v e st) = localStorageEnabled st.
Proof.
  unfold saveLotameCache, setCookie, setDataInLocalStorage, cookiesAreEnabled, hasLocalStorage.
  repeat case_match; simpl; auto.
Qed.

Lemma saveLotameCache_cookie_other now key v e st k :
  k <> key ->
  cookieJar (saveLotameCache now key v e st) !! k = cookieJar st !! k.
Proof.
  intros Hk.
  unfold saveLotameCache, setCookie, setDataInLocalStorage, cookiesAreEnabled, hasLocalStorage.
  repeat case_match; simpl; rewrite ?lookup_insert_ne, ?lookup_delete_ne by congruence; auto.
Qed.

Lemma saveLotameCache_local_other now key v e st k :
  k <> key -> k <> key +:+ "_exp" ->
  localData (saveLotameCache now key v e st) !! k = localData st !! k.
Proof.
  intros Hk Hk'.
  unfold saveLotameCache, setCookie, setDataInLocalStorage, cookiesAreEnabled, hasLocalStorage.
  repeat case_match; simpl; rewrite ?lookup_insert_ne, ?lookup_delete_ne by congruence; auto.
Qed.
End StorageFacts.

Ltac unfold_storage :=
  unfold getFromStorage, getProfileId, saveLotameCache, clearLotameCache, setProfileId,
    setCookie, getCookie, getDataFromLocalStorage, setDataInLocalStorage,
    removeDataFromLocalStorage, cookiesAreEnabled, hasLocalStorage,
    with_cookieJar, with_localData, cookie_live in *.

Lemma TimeClip_in_range (z : Z) :
  Z.abs z <= MAX_TIME_VALUE -> TimeClip (Num z) = Num z.
Proof.
  intros Hz. unfold TimeClip.
  destruct (Z.leb_spec (Z.abs z) MAX_TIME_VALUE); [reflexivity|lia].
Qed.

Lemma truthy_JStr (s : string) : truthy (JStr s) = negb (String.eqb s EmptyString).
Proof. reflexivity. Qed.

Lemma eqb_empty_false (s : string) : s <> EmptyString -> String.eqb s EmptyString = false.
Proof. intros Hs. apply String.eqb_neq. exact Hs. Qed.

Lemma strictEq_JStr_JNull (s : string) : strictEq (JStr s) JNull = false.
Proof. reflexivity. Qed.

Lemma strictEq_JStr_empty (s : string) :
  s <> EmptyString -> strictEq (JStr s) (JStr EmptyString) = false.
Proof. intros Hs. unfold strictEq. apply bool_decide_eq_false. congruence. Qed.

Section StorageReads.
Context `{Host}.

(** Reading a key from the plain backend when its companion expiry record
    holds the decimal rendering of [T]. *)
Lemma expiry_check (t T : Z) :
  Z.abs T <= MAX_TIME_VALUE ->
  num_gt (num_sub (newDate (JNum (parseInt (Z_to_string T)))) (Num t)) (Num 0)
  = (t <? T).
Proof.
  intros HT. rewrite parseInt_Z_to_string. unfold newDate, ToNumber_prim.
  rewrite TimeClip_in_range by assumption. unfold num_sub, num_gt, num_lt.
  destruct (Z.ltb_spec 0 (T - t)), (Z.ltb_spec t T); try lia; reflexivity.
Qed.

Lemma getFromStorage_local_only (t T : Z) (key v : string) (st : Storage) :
  Z.abs T <= MAX_TIME_VALUE ->
  localStorageEnabled st = true ->
  (cookiesEnabled st = true -> getCookie t key st = JNull) ->
  localData st !! (key +:+ "_exp") = Some (Z_to_string T) ->
  localData st !! key = Some v ->
  getFromStorage t key st = if t <? T then JStr v else JNull.
Proof.
  intros HT Hl Hc He Hv.
  assert (Hval : (if cookiesEnabled st then getCookie t key st else JNull) = JNull).
  { destruct (cookiesEnabled st); auto. }
  assert (Hexp : getDataFromLocalStorage (key +:+ "_exp") st = JStr (Z_to_string T)).
  { unfold getDataFromLocalStorage. now rewrite He. }
  assert (Hkey : getDataFromLocalStorage key st = JStr v).
  { unfold getDataFromLocalStorage. now rewrite Hv. }
  unfold getFromStorage, cookiesAreEnabled, hasLocalStorage.
  rewrite Hl, Hval, Hexp, Hkey.
  rewrite strictEq_JStr_empty by apply Z_to_string_nonempty.
  rewrite strictEq_JStr_JNull.
  rewrite truthy_JStr, eqb_empty_false by apply Z_to_string_nonempty.
  unfold ToString. rewrite expiry_check by assumption.
  reflexivity.
Qed.

Lemma getFromStorage_cookie (t : Z) (key v : string) (st : Storage) :
  cookiesEnabled st = true ->
  getCookie t key st = JStr v ->
  getFromStorage t key st = JStr v.
Proof.
  intros Hc Hg. unfold getFromStorage, cookiesAreEnabled. rewrite Hc, Hg.
  rewrite strictEq_JStr_JNull, andb_false_r. reflexivity.
Qed.

Lemma getFromStorage_absent (t : Z) (key : string) (st : Storage) :
  (cookiesEnabled st = true -> getCookie t key st = JNull) ->
  (localStorageEnabled st = true -> localData st !! key = None) ->
  getFromStorage t key st = JNull.
Proof.
  intros Hc Hl.
  assert (Hval : (if cookiesEnabled st then getCookie t key st else JNull) = JNull).
  { destruct (cookiesEnabled st); auto. }
  unfold getFromStorage, cookiesAreEnabled, hasLocalStorage. rewrite Hval.
  destruct (localStorageEnabled st); [|reflexivity].
  assert (Hkey : getDataFromLocalStorage key st = JNull).
  { unfold getDataFromLocalStorage. now rewrite Hl. }
  rewrite Hkey. repeat case_match; reflexivity.
Qed.

Lemma getFromStorage_disabled (t : Z) (key : string) (st : Storage) :
  cookiesEnabled st = false -> localStorageEnabled st = false ->
  getFromStorage t key st = JNull.
Proof.
  intros Hc Hl. apply getFromStorage_absent; congruence.
Qed.
End StorageReads.

Section StorageWrites.
Context `{Host}.

Lemma wholeSecond_bounds (T : Z) : wholeSecond T <= T < wholeSecond T + 1000.
Proof. unfold wholeSecond. pose proof (Z.div_mod T 1000 ltac:(lia)).
  pose proof (Z.mod_pos_bound T 1000 ltac:(lia)). lia. Qed.

Lemma getCookie_of_lookup (t : Z) (key : string) (st : Storage) (c : Cookie) :
  cookieJar st !! key = Some c ->
  getCookie t key st = if cookie_live t c then JStr (cookie_value c) else JNull.
Proof. intros E. unfold getCookie. now rewrite E. Qed.

Lemma getCookie_of_lookup_None (t : Z) (key : string) (st : Storage) :
  cookieJar st !! key = None -> getCookie t key st = JNull.
Proof. intros E. unfold getCookie. now rewrite E. Qed.

Lemma saveLotameCache_skip now key v e st :
  truthy v = false -> saveLotameCache now key v e st = st.
Proof. intros Hv. unfold saveLotameCache. rewrite Hv, andb_false_r. reflexivity. Qed.

Lemma saveLotameCache_local now key v e T st :
  key <> EmptyString -> truthy v = true ->
  e = JNum (Num T) \/ (e = JUndefined /\ T = now + DAYS_TO_CACHE * DAY_MS) ->
  localStorageEnabled st = true ->
  localData (saveLotameCache now key v e st) !! key = Some (ToString v)
  /\ localData (saveLotameCache now key v e st) !! (key +:+ "_exp") = Some (Z_to_string T).
Proof.
  intros Hk Hv He Hl. unfold saveLotameCache.
  rewrite truthy_JStr, eqb_empty_false, Hv by assumption. simpl andb. cbv iota.
  assert (Hl' : hasLocalStorage
            (if cookiesAreEnabled st
             then setCookie now key v
                    (toUTCString (newDate match e with
                       | JUndefined => JNum (Num (now + DAYS_TO_CACHE * DAY_MS))
                       | _ => e end)) st
             else st) = true).
  { unfold hasLocalStorage, setCookie, with_cookieJar. repeat case_match; simpl; assumption. }
  rewrite Hl'. unfold setDataInLocalStorage, with_localData. simpl localData.
  split.
  - apply lookup_insert_eq.
  - rewrite lookup_insert_ne by apply append_exp_neq.
    rewrite lookup_insert_eq. f_equal.
    destruct He as [-> | [-> ->]]; reflexivity.
Qed.

Lemma saveLotameCache_cookie now key v e T st :
  key <> EmptyString -> truthy v = true ->
  e = JNum (Num T) \/ (e = JUndefined /\ T = now + DAYS_TO_CACHE * DAY_MS) ->
  Z.abs T <= MAX_TIME_VALUE ->
  cookiesEnabled st = true ->
  cookieJar (saveLotameCache now key v e st) !! key
  = if wholeSecond T <=? now then None
    else Some (mkCookie (ToString v) (Some (wholeSecond T))).
Proof.
  intros Hk Hv He HT Hc. unfold saveLotameCache.
  rewrite truthy_JStr, eqb_empty_false, Hv by assumption. simpl andb. cbv iota.
  unfold cookiesAreEnabled. rewrite Hc.
  assert (Hd : toUTCString (newDate match e with
                       | JUndefined => JNum (Num (now + DAYS_TO_CACHE * DAY_MS))
                       | _ => e end) = UTCSeconds (T / 1000)).
  { destruct He as [-> | [-> ->]]; unfold newDate, ToNumber_prim;
      rewrite TimeClip_in_range by assumption; reflexivity. }
  rewrite Hd. unfold setCookie. fold (wholeSecond T).
  unfold hasLocalStorage, setDataInLocalStorage, with_localData, with_cookieJar.
  destruct (wholeSecond T <=? now); destruct (localStorageEnabled st); simpl;
    rewrite ?lookup_delete_eq, ?lookup_insert_eq; reflexivity.
Qed.

Lemma clearLotameCache_flags now key st :
  cookiesEnabled (clearLotameCache now key st) = cookiesEnabled st
  /\ localStorageEnabled (clearLotameCache now key st) = localStorageEnabled st.
Proof. unfold_storage. repeat case_match; simpl; auto. Qed.

Lemma clearLotameCache_cookie_other now key st k :
  k <> key -> cookieJar (clearLotameCache now key st) !! k = cookieJar st !! k.
Proof.
  intros Hk. unfold_storage.
  repeat case_match; simpl; rewrite ?lookup_insert_ne, ?lookup_delete_ne by congruence; auto.
Qed.

Lemma clearLotameCache_local_other now key st k :
  k <> key -> localData (clearLotameCache now key st) !! k = localData st !! k.
Proof.
  intros Hk. unfold_storage.
  repeat case_match; simpl; rewrite ?lookup_insert_ne, ?lookup_delete_ne by congruence; auto.
Qed.

Lemma clearLotameCache_cleared now key st :
  0 <= now -> key <> EmptyString ->
  (cookiesEnabled st = true -> cookieJar (clearLotameCache now key st) !! key = None)
  /\ (localStorageEnabled st = true -> localData (clearLotameCache now key st) !! key = None).
Proof.
  intros Hn Hk. unfold clearLotameCache.
  rewrite truthy_JStr, eqb_empty_false by assumption. simpl negb. cbv iota.
  assert (Hd : toUTCString (newDate (JNum (Num 0))) = UTCSeconds 0) by reflexivity.
  rewrite Hd. unfold setCookie. change (0 * 1000) with 0.
  destruct (Z.leb_spec 0 now); [|lia].
  unfold_storage.
  split; intros E; rewrite E; destruct (cookiesEnabled st), (localStorageEnabled st); simpl;
    try discriminate; rewrite ?lookup_delete_eq; reflexivity.
Qed.

Lemma setProfileId_flags now p st :
  cookiesEnabled (setProfileId now p st) = cookiesEnabled st
  /\ localStorageEnabled (setProfileId now p st) = localStorageEnabled st.
Proof. unfold_storage. repeat case_match; simpl; auto. Qed.

Lemma setProfileId_cookie_other now p st k :
  k <> KEY_PROFILE -> cookieJar (setProfileId now p st) !! k = cookieJar st !! k.
Proof.
  intros Hk. unfold_storage.
  repeat case_match; simpl; rewrite ?lookup_insert_ne, ?lookup_delete_ne by congruence; auto.
Qed.

Lemma setProfileId_local_other now p st k :
  k <> KEY_PROFILE -> localData (setProfileId now p st) !! k = localData st !! k.
Proof.
  intros Hk. unfold_storage.
  repeat case_match; simpl; rewrite ?lookup_insert_ne, ?lookup_delete_ne by congruence; auto.
Qed.

Lemma setProfileId_local now p st :
  localStorageEnabled st = true ->
  localData (setProfileId now p st) !! KEY_PROFILE = Some (ToString p).
Proof.
  intros Hl. unfold_storage.
  repeat case_match; simpl in *; rewrite ?lookup_insert_eq; congruence.
Qed.

Lemma setProfileId_cookie now p st :
  cookiesEnabled st = true ->
  exists c, cookieJar (setProfileId now p st) !! KEY_PROFILE = Some c
    /\ cookie_value c = ToString p
    /\ forall t, t <= now + NINE_MONTHS_MS - 1000 -> cookie_live t c = true.
Proof.
  intros Hc. unfold setProfileId, cookiesAreEnabled. rewrite Hc.
  unfold newDate, ToNumber_prim, TimeClip.
  destruct (Z.abs (now + NINE_MONTHS_MS) <=? MAX_TIME_VALUE); unfold toUTCString, setCookie.
  - fold (wholeSecond (now + NINE_MONTHS_MS)).
    pose proof (wholeSecond_bounds (now + NINE_MONTHS_MS)) as Hb.
    assert (NINE_MONTHS_MS = 23328000000) by reflexivity.
    destruct (Z.leb_spec (wholeSecond (now + NINE_MONTHS_MS)) now); [lia|].
    eexists. split; [|split].
    + unfold hasLocalStorage, setDataInLocalStorage, with_localData, with_cookieJar.
      destruct (localStorageEnabled st); simpl; apply lookup_insert_eq.
    + reflexivity.
    + intros t Ht. unfold cookie_live. simpl. apply Z.ltb_lt. lia.
  - eexists. split; [|split].
    + unfold hasLocalStorage, setDataInLocalStorage, with_localData, with_cookieJar.
      destruct (localStorageEnabled st); simpl; apply lookup_insert_eq.
    + reflexivity.
    + reflexivity.
Qed.
End StorageWrites.

Section SaveReads.
Context `{Host}.

Lemma saveLotameCache_getCookie now key v e T st t :
  key <> EmptyString -> truthy v = true ->
  e = JNum (Num T) \/ (e = JUndefined /\ T = now + DAYS_TO_CACHE * DAY_MS) ->
  Z.abs T <= MAX_TIME_VALUE ->
  cookiesEnabled st = true ->
  getCookie t key (saveLotameCache now key v e st)
  = if (now <? wholeSecond T) && (t <? wholeSecond T) then JStr (ToString v) else JNull.
Proof.
  intros Hk Hv He HT Hc.
  pose proof (saveLotameCache_cookie now key v e T st Hk Hv He HT Hc) as Hj.
  unfold getCookie. rewrite Hj.
  destruct (Z.leb_spec (wholeSecond T) now), (Z.ltb_spec now (wholeSecond T)); try lia;
    simpl; [reflexivity|].
  unfold cookie_live. simpl. reflexivity.
Qed.

Lemma saveLotameCache_read_expired now key v e T st t :
  key <> EmptyString -> truthy v = true ->
  e = JNum (Num T) \/ (e = JUndefined /\ T = now + DAYS_TO_CACHE * DAY_MS) ->
  Z.abs T <= MAX_TIME_VALUE ->
  T <= t ->
  getFromStorage t key (saveLotameCache now key v e st) = JNull.
Proof.
  intros Hk Hv He HT Ht.
  destruct (saveLotameCache_flags now key v e st) as [Fc Fl].
  pose proof (wholeSecond_bounds T) as Hb.
  assert (Hcookie : cookiesEnabled (saveLotameCache now key v e st) = true ->
                    getCookie t key (saveLotameCache now key v e st) = JNull).
  { rewrite Fc. intros Hc. rewrite (saveLotameCache_getCookie now key v e T) by assumption.
    destruct (Z.ltb_spec t (wholeSecond T)); [lia|]. now rewrite andb_false_r. }
  destruct (localStorageEnabled st) eqn:Hl.
  - destruct (saveLotameCache_local now key v e T st Hk Hv He Hl) as [Hv' He'].
    rewrite (getFromStorage_local_only t T key (ToString v)) by (assumption || congruence).
    destruct (Z.ltb_spec t T); [lia|reflexivity].
  - apply getFromStorage_absent; [assumption|]. rewrite Fl. congruence.
Qed.

Lemma saveLotameCache_read_fresh now key v e T st t :
  key <> EmptyString -> truthy v = true ->
  e = JNum (Num T) \/ (e = JUndefined /\ T = now + DAYS_TO_CACHE * DAY_MS) ->
  Z.abs T <= MAX_TIME_VALUE ->
  localStorageEnabled st = true ->
  t < T ->
  getFromStorage t key (saveLotameCache now key v e st) = JStr (ToString v).
Proof.
  intros Hk Hv He HT Hl Ht.
  destruct (saveLotameCache_flags now key v e st) as [Fc Fl].
  destruct (saveLotameCache_local now key v e T st Hk Hv He Hl) as [Hv' He'].
  destruct (cookiesEnabled st) eqn:Hc.
  - pose proof (saveLotameCache_getCookie now key v e T st t Hk Hv He HT Hc) as Hg.
    destruct ((now <? wholeSecond T) && (t <? wholeSecond T)).
    + apply getFromStorage_cookie; congruence.
    + rewrite (getFromStorage_local_only t T key (ToString v))
        by (assumption || congruence).
      destruct (Z.ltb_spec t T); [reflexivity|lia].
  - rewrite (getFromStorage_local_only t T key (ToString v))
      by (assumption || congruence).
    destruct (Z.ltb_spec t T); [reflexivity|lia].
Qed.

Lemma saveLotameCache_read_cookie_only now key v e T st t :
  key <> EmptyString -> truthy v = true ->
  e = JNum (Num T) \/ (e = JUndefined /\ T = now + DAYS_TO_CACHE * DAY_MS) ->
  Z.abs T <= MAX_TIME_VALUE ->
  cookiesEnabled st = true ->
  now <= t ->
  getFromStorage t key (disableLocalStorage (saveLotameCache now key v e st))
  = if t <? wholeSecond T then JStr (ToString v) else JNull.
Proof.
  intros Hk Hv He HT Hc Ht.
  destruct (saveLotameCache_flags now key v e st) as [Fc Fl].
  pose proof (saveLotameCache_getCookie now key v e T st t Hk Hv He HT Hc) as Hg.
  assert (Hg' : getCookie t key (disableLocalStorage (saveLotameCache now key v e st))
                = getCookie t key (saveLotameCache now key v e st)) by reflexivity.
  destruct (Z.ltb_spec t (wholeSecond T)).
  - destruct (Z.ltb_spec now (wholeSecond T)); [|lia].
    apply getFromStorage_cookie; [simpl; congruence|]. rewrite Hg', Hg. reflexivity.
  - apply getFromStorage_absent; [|simpl; congruence].
    intros _. rewrite Hg', Hg. now rewrite andb_false_r.
Qed.

Lemma clearLotameCache_read now key st t :
  0 <= now -> key <> EmptyString ->
  getFromStorage t key (clearLotameCache now key st) = JNull.
Proof.
  intros Hn Hk.
  destruct (clearLotameCache_flags now key st) as [Fc Fl].
  destruct (clearLotameCache_cleared now key st Hn Hk) as [Cc Cl].
  apply getFromStorage_absent.
  - rewrite Fc. intros Hc. apply getCookie_of_lookup_None. auto.
  - rewrite Fl. auto.
Qed.
Lemma saveLotameCache_read_by_cookie now key v e T st t :
  key <> EmptyString -> truthy v = true ->
  e = JNum (Num T) \/ (e = JUndefined /\ T = now + DAYS_TO_CACHE * DAY_MS) ->
  Z.abs T <= MAX_TIME_VALUE ->
  cookiesEnabled st = true ->
  now < wholeSecond T -> t < wholeSecond T ->
  getFromStorage t key (saveLotameCache now key v e st) = JStr (ToString v).
Proof.
  intros Hk Hv He HT Hc Hn Ht.
  destruct (saveLotameCache_flags now key v e st) as [Fc Fl].
  apply getFromStorage_cookie; [congruence|].
  rewrite (saveLotameCache_getCookie now key v e T) by assumption.
  destruct (Z.ltb_spec now (wholeSecond T)), (Z.ltb_spec t (wholeSecond T));
    try lia; reflexivity.
Qed.

End SaveReads.

Section ResponseFacts.
Context `{Host}.

Lemma setProfileId_read now p st t :
  p <> EmptyString ->
  cookiesEnabled st = true \/ localStorageEnabled st = true ->
  t <= now + NINE_MONTHS_MS - 1000 ->
  getProfileId t (setProfileId now (JStr p) st) = JStr p.
Proof.
  intros Hp Hen Ht.
  destruct (setProfileId_flags now (JStr p) st) as [Fc Fl].
  unfold getProfileId, cookiesAreEnabled, hasLocalStorage. rewrite Fc, Fl.
  destruct (cookiesEnabled st) eqn:Hc.
  - destruct (setProfileId_cookie now (JStr p) st Hc) as (c & Hj & Hval & Hlive).
    rewrite (getCookie_of_lookup _ _ _ _ Hj), Hlive, Hval by assumption.
    simpl ToString. rewrite truthy_JStr, eqb_empty_false by assumption. reflexivity.
  - destruct Hen as [Hen|Hl]; [discriminate|]. rewrite Hl. simpl.
    unfold getDataFromLocalStorage. now rewrite setProfileId_local.
Qed.

Lemma clearProfile_read now st t :
  0 <= now -> truthy (getProfileId t (clearLotameCache now KEY_PROFILE st)) = false.
Proof.
  intros Hn.
  destruct (clearLotameCache_flags now KEY_PROFILE st) as [Fc Fl].
  destruct (clearLotameCache_cleared now KEY_PROFILE st Hn ltac:(discriminate)) as [Cc Cl].
  unfold getProfileId, cookiesAreEnabled, hasLocalStorage. rewrite Fc, Fl.
  unfold getCookie, getDataFromLocalStorage.
  destruct (cookiesEnabled st), (localStorageEnabled st);
    rewrite ?Cc, ?Cl by reflexivity; reflexivity.
Qed.

Lemma client_gate (v : JsVal) :
  isStr v && strictEq v (JStr "CLIENT") = true <-> v = JStr "CLIENT".
Proof.
  split.
  - destruct v as [| |b|n|s]; simpl; try discriminate.
    unfold strictEq. intros E. apply bool_decide_eq_true in E. exact E.
  - intros ->. reflexivity.
Qed.

Lemma processResponseIDs_stops now o st :
  isEmpty (clientId o) = false -> consentIsErrorFree o = false ->
  noConsent o = JStr "CLIENT" ->
  processResponseIDs now o st
  = (saveLotameCache now (clientExpiryKey (clientId o)) (expiry o) (expiry o) st,
     JUndefined).
Proof.
  intros Hc He Hn. unfold processResponseIDs. rewrite Hc, He, Hn. reflexivity.
Qed.

Lemma processResponseIDs_past_gate now o st :
  isEmpty (clientId o) = true \/ consentIsErrorFree o = true
    \/ noConsent o <> JStr "CLIENT" ->
  exists st1,
    cookiesEnabled st1 = cookiesEnabled st
    /\ localStorageEnabled st1 = localStorageEnabled st
    /\ processResponseIDs now o st =
       if isStr (profileId o) then
         let st2 := if consentIsErrorFree o
                    then setProfileId now (profileId o) st1 else st1 in
         if isStr (coreId o)
         then (saveLotameCache now KEY_ID (coreId o) (expiry o) st2, coreId o)
         else (clearLotameCache now KEY_ID st2, JUndefined)
       else
         let st2 := if consentIsErrorFree o
                    then clearLotameCache now KEY_PROFILE st1 else st1 in
         (clearLotameCache now KEY_ID st2, JUndefined).
Proof.
  intros Hgate. unfold processResponseIDs.
  destruct (isEmpty (clientId o)) eqn:Hc; simpl negb; cbv iota.
  - eexists. split; [|split; [|reflexivity]]; apply saveLotameCache_flags.
  - destruct (consentIsErrorFree o) eqn:He.
    + eexists. split; [|split; [|reflexivity]].
      * etransitivity; [apply saveLotameCache_flags|apply clearLotameCache_flags].
      * etransitivity; [apply saveLotameCache_flags|apply clearLotameCache_flags].
    + destruct (isStr (noConsent o) && strictEq (noConsent o) (JStr "CLIENT")) eqn:Hn.
      * apply client_gate in Hn. destruct Hgate as [?|[?|?]]; congruence.
      * eexists. split; [|split; [|reflexivity]]; apply saveLotameCache_flags.
Qed.
End ResponseFacts.

Section ResponseClaims.
Context `{Host}.

Lemma keyId_neq_profile : KEY_PROFILE <> KEY_ID.
Proof. discriminate. Qed.

Lemma keyIdExp_neq_profile : KEY_PROFILE <> KEY_ID +:+ "_exp".
Proof. discriminate. Qed.

Lemma getProfileId_after_save_id now v e st t :
  getProfileId t (saveLotameCache now KEY_ID v e st) = getProfileId t st.
Proof.
  apply getProfileId_ext; try apply saveLotameCache_flags.
  - apply saveLotameCache_cookie_other, keyId_neq_profile.
  - apply saveLotameCache_local_other; [apply keyId_neq_profile|apply keyIdExp_neq_profile].
Qed.

Lemma getProfileId_after_clear_id now st t :
  getProfileId t (clearLotameCache now KEY_ID st) = getProfileId t st.
Proof.
  apply getProfileId_ext; try apply clearLotameCache_flags.
  - apply clearLotameCache_cookie_other, keyId_neq_profile.
  - apply clearLotameCache_local_other, keyId_neq_profile.
Qed.

(** C1 (as amended).  For every response that [processResponseIDs] processes
    past the client-suppression stop, at a time [now >= 0]:
    - if [profile_id] is a string (the code tests [isStr], not emptiness):
      when the response is consent-error-free and [profile_id] is non-empty,
      ProfileId is persisted (readable for nine months, given an enabled
      backend); if [core_id] is a string it is the value returned, and when
      it is non-empty and [expiry_ts] is a number [T] in the Date range (or
      undefined, and [T] is seven days from now) it is persisted with
      expiry [T]: absent from [T] on, readable before [T] while local
      storage is enabled, and readable before [T] truncated to the whole
      second while cookies are enabled; if [core_id] is not a string, CoreId
      is cleared and undefined is returned;
    - if [profile_id] is not a string, CoreId is cleared, undefined is
      returned, and ProfileId is cleared when consent-error-free. *)
Theorem processResponseIDs_identity_rules (now : Z) (o : Options) (st : Storage) :
  0 <= now ->
  isEmpty (clientId o) = true \/ consentIsErrorFree o = true
    \/ noConsent o <> JStr "CLIENT" ->
  let st' := fst (processResponseIDs now o st) in
  let returned := snd (processResponseIDs now o st) in
  (isStr (profileId o) = true ->
     (consentIsErrorFree o = true ->
      forall p, profileId o = JStr p -> p <> EmptyString ->
        cookiesEnabled st = true \/ localStorageEnabled st = true ->
        forall t, t <= now + NINE_MONTHS_MS - 1000 -> getProfileId t st' = JStr p)
     /\ (isStr (coreId o) = true ->
         returned = coreId o
         /\ forall c T, coreId o = JStr c -> c <> EmptyString ->
              expiry o = JNum (Num T)
                \/ (expiry o = JUndefined /\ T = now + DAYS_TO_CACHE * DAY_MS) ->
              Z.abs T <= MAX_TIME_VALUE ->
              (forall t, T <= t -> getFromStorage t KEY_ID st' = JNull)
              /\ (localStorageEnabled st = true ->
                  forall t, t < T -> getFromStorage t KEY_ID st' = JStr c)
              /\ (cookiesEnabled st = true -> now < wholeSecond T ->
                  forall t, t < wholeSecond T ->
                    getFromStorage t KEY_ID st' = JStr c))
     /\ (isStr (coreId o) = false ->
         returned = JUndefined
         /\ forall t, getFromStorage t KEY_ID st' = JNull))
  /\ (isStr (profileId o) = false ->
      returned = JUndefined
      /\ (forall t, getFromStorage t KEY_ID st' = JNull)
      /\ (consentIsErrorFree o = true ->
          forall t, truthy (getProfileId t st') = false)).
Proof.
  intros Hn Hgate. cbv zeta.
  destruct (processResponseIDs_past_gate now o st Hgate) as (st1 & Fc & Fl & ->).
  split.
  - intros Hp. rewrite Hp. cbv zeta. split; [|split].
    + intros He p Ep Hne Hen t Ht. rewrite He, Ep.
      destruct (isStr (coreId o)); simpl fst;
        rewrite ?getProfileId_after_save_id, ?getProfileId_after_clear_id;
        apply setProfileId_read; try assumption; rewrite Fc, Fl; assumption.
    + intros Hc. rewrite Hc. simpl. split; [reflexivity|].
      intros c T Ec Hne HT Hrange. rewrite Ec.
      assert (Hv : truthy (JStr c) = true).
      { rewrite truthy_JStr, eqb_empty_false by assumption. reflexivity. }
      split; [|split].
      * intros t Ht.
        apply (saveLotameCache_read_expired now KEY_ID (JStr c) (expiry o) T);
          try assumption. discriminate.
      * intros Hl t Ht.
        apply (saveLotameCache_read_fresh now KEY_ID (JStr c) (expiry o) T);
          try assumption; [discriminate|].
        destruct (consentIsErrorFree o); [|congruence].
        destruct (setProfileId_flags now (profileId o) st1). congruence.
      * intros Hck Hnw t Ht.
        apply (saveLotameCache_read_by_cookie now KEY_ID (JStr c) (expiry o) T);
          try assumption; [discriminate|].
        destruct (consentIsErrorFree o); [|congruence].
        destruct (setProfileId_flags now (profileId o) st1). congruence.
    + intros Hc. rewrite Hc. simpl. split; [reflexivity|].
      intros t. apply clearLotameCache_read; [assumption|discriminate].
  - intros Hp. rewrite Hp. cbv zeta. simpl. split; [reflexivity|split].
    + intros t. apply clearLotameCache_read; [assumption|discriminate].
    + intros He t. rewrite He, getProfileId_after_clear_id.
      apply clearProfile_read. assumption.
Qed.

Lemma append_nil_l (s : string) : EmptyString +:+ s = s.
Proof. reflexivity. Qed.

Lemma clientKey_frame (c : JsVal) (k : string) :
  k = KEY_ID \/ k = KEY_PROFILE \/ k = KEY_ID +:+ "_exp" \/ k = KEY_EXPIRY ->
  k <> clientExpiryKey c /\ k <> clientExpiryKey c +:+ "_exp".
Proof.
  unfold clientExpiryKey, KEY_EXPIRY, KEY_ID, KEY_PROFILE.
  intros [-> | [-> | [-> | ->]]]; rewrite ?append_cons, ?append_nil_l;
    rewrite ?append_cons, ?append_nil_l; split; discriminate.
Qed.

Lemma clientKey_frame_exp (c : JsVal) :
  ToString c <> "exp" ->
  KEY_EXPIRY +:+ "_exp" <> clientExpiryKey c
  /\ KEY_EXPIRY +:+ "_exp" <> clientExpiryKey c +:+ "_exp".
Proof.
  intros Hne.
  change (KEY_EXPIRY +:+ "_exp") with ("panoramaId_expiry_" +:+ "exp").
  change (clientExpiryKey c +:+ "_exp")
    with ("panoramaId_expiry_" +:+ (ToString c +:+ "_exp")).
  change (clientExpiryKey c) with ("panoramaId_expiry_" +:+ ToString c).
  split; intros E; apply (inj (String.app "panoramaId_expiry_")) in E.
  - congruence.
  - apply (f_equal String.length) in E. rewrite length_append in E. simpl in E. lia.
Qed.

(** C3 (as amended).  For every response processed with a non-empty clientId
    that is not consent-error-free and has [no_consent === "CLIENT"]:
    processing stops and returns undefined (the value the callback
    receives); the only write is [saveLotameCache] of the client's
    suppression key with value and expiry [expiry_ts], which writes nothing
    when [expiry_ts] is falsy or no backend is enabled and, for a non-zero
    number [T] in the Date range, leaves the entry readable as [String(T)]
    before [T] while local storage is enabled, before [T] truncated to the
    whole second while cookies are enabled, and absent from [T] on; the
    global CoreId, its expiry
    record and ProfileId read as before, for every clientId but the literal
    "exp", whose key is the companion expiry key of the global expiry
    record. *)
Theorem client_no_consent_stops (now : Z) (o : Options) (st : Storage) :
  isEmpty (clientId o) = false ->
  consentIsErrorFree o = false ->
  noConsent o = JStr "CLIENT" ->
  let key := clientExpiryKey (clientId o) in
  let st' := fst (processResponseIDs now o st) in
  snd (processResponseIDs now o st) = JUndefined
  /\ st' = saveLotameCache now key (expiry o) (expiry o) st
  /\ (truthy (expiry o) = false -> st' = st)
  /\ (forall T, expiry o = JNum (Num T) -> T <> 0 -> Z.abs T <= MAX_TIME_VALUE ->
        (localStorageEnabled st = true ->
         forall t, t < T -> getFromStorage t key st' = JStr (Z_to_string T))
        /\ (cookiesEnabled st = true -> now < wholeSecond T ->
            forall t, t < wholeSecond T ->
              getFromStorage t key st' = JStr (Z_to_string T))
        /\ (forall t, T <= t -> getFromStorage t key st' = JNull))
  /\ (cookiesEnabled st = false -> localStorageEnabled st = false -> st' = st)
  /\ (ToString (clientId o) <> "exp" ->
      forall t,
        getFromStorage t KEY_ID st' = getFromStorage t KEY_ID st
        /\ getFromStorage t KEY_EXPIRY st' = getFromStorage t KEY_EXPIRY st
        /\ getProfileId t st' = getProfileId t st).
Proof.
  intros Hc He Hn. cbv zeta.
  rewrite (processResponseIDs_stops now o st Hc He Hn). simpl fst. simpl snd.
  assert (Hkey : clientExpiryKey (clientId o) <> EmptyString).
  { unfold clientExpiryKey, KEY_EXPIRY, KEY_ID. rewrite ?append_cons. discriminate. }
  split; [reflexivity|]. split; [reflexivity|]. split; [|split; [|split]].
  - intros Hf. apply saveLotameCache_skip. assumption.
  - intros T ET HT0 HT. rewrite ET.
    assert (Hv : truthy (JNum (Num T)) = true).
    { simpl. destruct (Z.eqb_spec T 0); [contradiction|reflexivity]. }
    split; [|split].
    + intros Hl t Ht.
      apply (saveLotameCache_read_fresh now _ (JNum (Num T)) _ T); try assumption.
      left; reflexivity.
    + intros Hck Hnw t Ht.
      apply (saveLotameCache_read_by_cookie now _ (JNum (Num T)) _ T);
        try assumption.
      left; reflexivity.
    + intros t Ht.
      apply (saveLotameCache_read_expired now _ (JNum (Num T)) _ T); try assumption.
      left; reflexivity.
  - intros Hck Hls. unfold saveLotameCache, cookiesAreEnabled, hasLocalStorage.
    rewrite Hck, Hls. destruct (truthy (JStr _) && truthy _); reflexivity.
  - intros Hexp t.
    destruct (clientKey_frame (clientId o) KEY_ID ltac:(auto)) as [Ka1 Ka2].
    destruct (clientKey_frame (clientId o) KEY_PROFILE ltac:(auto)) as [Kb1 Kb2].
    destruct (clientKey_frame (clientId o) (KEY_ID +:+ "_exp") ltac:(auto)) as [Kc1 Kc2].
    destruct (clientKey_frame (clientId o) KEY_EXPIRY ltac:(auto)) as [Kd1 Kd2].
    destruct (clientKey_frame_exp (clientId o) Hexp) as [Ke1 Ke2].
    split; [|split].
    + apply getFromStorage_ext; try apply saveLotameCache_flags.
      * apply saveLotameCache_cookie_other; assumption.
      * apply saveLotameCache_local_other; assumption.
      * apply saveLotameCache_local_other; assumption.
    + apply getFromStorage_ext; try apply saveLotameCache_flags.
      * apply saveLotameCache_cookie_other; assumption.
      * apply saveLotameCache_local_other; assumption.
      * apply saveLotameCache_local_other; assumption.
    + apply getProfileId_ext; try apply saveLotameCache_flags.
      * apply saveLotameCache_cookie_other; assumption.
      * apply saveLotameCache_local_other; assumption.
Qed.

End ResponseClaims.

(** C7 (as amended).  For every non-empty key K and non-empty string V, after
    [saveLotameCache(K, V, now + 1000)] at time [now] with both backends
    enabled: a read at [now + 2000] is absent whichever single backend is
    disabled afterwards (or none); a read at [now + 500] returns V while
    local storage is enabled, and with cookies alone it returns V exactly
    when [now + 500] is before the whole second of [now + 1000], the
    instant the cookie expires. *)
Theorem write_read_round_trip `{Host} (now : Z) (K V : string) (st : Storage) :
  K <> EmptyString -> V <> EmptyString ->
  0 <= now -> now + 1000 <= MAX_TIME_VALUE ->
  cookiesEnabled st = true -> localStorageEnabled st = true ->
  let st' := saveLotameCache now K (JStr V) (JNum (Num (now + 1000))) st in
  (forall st'', st'' = st' \/ st'' = disableCookies st' \/ st'' = disableLocalStorage st' ->
                getFromStorage (now + 2000) K st'' = JNull)
  /\ getFromStorage (now + 500) K st' = JStr V
  /\ getFromStorage (now + 500) K (disableCookies st') = JStr V
  /\ getFromStorage (now + 500) K (disableLocalStorage st')
     = if now + 500 <? wholeSecond (now + 1000) then JStr V else JNull.
Proof.
  intros HK HV Hn Hmax Hc Hl. cbv zeta.
  assert (Hv : truthy (JStr V) = true).
  { rewrite truthy_JStr, eqb_empty_false by assumption. reflexivity. }
  assert (He : JNum (Num (now + 1000)) = JNum (Num (now + 1000))
               \/ (JNum (Num (now + 1000)) = JUndefined
                   /\ now + 1000 = now + DAYS_TO_CACHE * DAY_MS)) by (left; reflexivity).
  assert (HT : Z.abs (now + 1000) <= MAX_TIME_VALUE) by lia.
  destruct (saveLotameCache_flags now K (JStr V) (JNum (Num (now + 1000))) st) as [Fc Fl].
  destruct (saveLotameCache_local now K _ _ _ st HK Hv He Hl) as [Lv Le].
  repeat split.
  - intros st'' [-> | [-> | ->]].
    + apply (saveLotameCache_read_expired now K _ _ (now + 1000)); try assumption; lia.
    + rewrite (getFromStorage_local_only (now + 2000) (now + 1000) K V)
        by (simpl; first [assumption | congruence | discriminate]).
      destruct (Z.ltb_spec (now + 2000) (now + 1000)); [lia|reflexivity].
    + rewrite (saveLotameCache_read_cookie_only now K _ _ (now + 1000)); try assumption; [|lia].
      pose proof (wholeSecond_bounds (now + 1000)).
      destruct (Z.ltb_spec (now + 2000) (wholeSecond (now + 1000))); [lia|reflexivity].
  - apply (saveLotameCache_read_fresh now K (JStr V) _ (now + 1000)); try assumption; lia.
  - rewrite (getFromStorage_local_only (now + 500) (now + 1000) K V)
      by (simpl; first [assumption | congruence | discriminate]).
    destruct (Z.ltb_spec (now + 500) (now + 1000)); [reflexivity|lia].
  - apply (saveLotameCache_read_cookie_only now K (JStr V) _ (now + 1000)); try assumption; lia.
Qed.


Section IdentityProvider.
Context `{Host}.

Lemma getLotameLocalCache_run (now : Z) (cid : JsVal) (w : World) :
  getLotameLocalCache now cid w
  = (Returned
       (mkLocalCache
          (getFromStorage now KEY_ID (storage w))
          (if isStr (getFromStorage now KEY_EXPIRY (storage w))
           then parseInt (ToString (getFromStorage now KEY_EXPIRY (storage w)))
           else Num 0)
          (if truthy cid then
             if isStr (getFromStorage now (clientExpiryKey cid) (storage w))
             then parseInt
                    (ToString (getFromStorage now (clientExpiryKey cid) (storage w)))
             else Num 0
           else Num 0)),
     w).
Proof.
  unfold getLotameLocalCache, try_catch, mbind, M_bind, mret, M_ret, readStorage.
  destruct (truthy cid); simpl;
    repeat (match goal with |- context [isStr ?v] => destruct (isStr v) end; simpl);
    reflexivity.
Qed.

Lemma sendUserData_run (cfg : ConfigParams) (w : World) :
  exists rs, sendUserData cfg w
             = (Returned tt, mkWorld (storage w) (logs w) (requests w ++ rs)).
Proof.
  unfold sendUserData, ajax, mret, M_ret.
  destruct (negb (isEmpty (params_clientId cfg)) && negb (isEmpty _)).
  - eexists. reflexivity.
  - exists []. rewrite app_nil_r. destruct w; reflexivity.
Qed.

(** C2 (as amended).  For every [getId] call with a configured clientId that
    is a non-empty string ([isEmpty(clientId)] is false) and whose
    loaded client suppression expiry is in the future
    ([now < clientExpiryTimestampMs]), [getId] returns
    [{id: undefined, reason: 'NO_CLIENT_CONSENT'}] at once, leaving the
    world untouched, whatever CoreId the cache holds, a fresh one
    included. *)
Theorem getId_client_suppression (now : Z) (cfg : ConfigParams)
    (consentData : option ConsentData) (w w' : World) (cache : LocalCache) :
  isEmpty (params_clientId cfg) = false ->
  getLotameLocalCache now (params_clientId cfg) w = (Returned cache, w') ->
  num_lt (Num now) (clientExpiryTimestampMs cache) = true ->
  getId now (Some cfg) consentData w = (Returned NoClientConsent, w).
Proof.
  intros Hc Hload Hsup.
  rewrite getLotameLocalCache_run in Hload. injection Hload as Ecache Ew.
  unfold getId, paramsOf. simpl default. unfold mbind, M_bind.
  rewrite getLotameLocalCache_run, Ecache, Hc, Hsup. reflexivity.
Qed.

Lemma getId_run (now : Z) (config : option ConfigParams)
    (consentData : option ConsentData) (w w' : World) (cache : LocalCache) :
  let cid := params_clientId (paramsOf config) in
  getLotameLocalCache now cid w = (Returned cache, w') ->
  getId now config consentData w
  = if negb (isEmpty cid) && num_lt (Num now) (clientExpiryTimestampMs cache)
    then (Returned NoClientConsent, w)
    else
      let w1 := snd (sendUserData (paramsOf config) w) in
      if negb (isEmpty (getCurrentPanoId now cache))
      then (Returned (IdFound (getCurrentPanoId now cache)), w1)
      else (Returned (Deferred (mkClosure cache (getProfileId now (storage w)) cid
                                  (negb (isEmpty cid)) consentData)), w1).
Proof.
  intros cid Hload.
  rewrite getLotameLocalCache_run in Hload. injection Hload as Ecache Ew.
  unfold getId. fold cid. unfold mbind, M_bind.
  rewrite getLotameLocalCache_run, Ecache.
  destruct (negb (isEmpty cid) && num_lt (Num now) (clientExpiryTimestampMs cache));
    [reflexivity|].
  destruct (sendUserData_run (paramsOf config) w) as [rs Hs]. rewrite Hs. simpl snd.
  destruct (negb (isEmpty (getCurrentPanoId now cache))); reflexivity.
Qed.

Lemma getCurrentPanoId_cases (now e : Z) (id : string) (cache : LocalCache) :
  data cache = JStr id -> id <> EmptyString -> expiryTimestampMs cache = Num e ->
  getCurrentPanoId now cache = if now <=? e then JStr id else JUndefined.
Proof.
  intros Hd Hid He. unfold getCurrentPanoId, num_gt, num_lt. rewrite Hd, He.
  unfold isEmpty. rewrite eqb_empty_false by assumption.
  destruct (Z.ltb_spec e now), (Z.leb_spec now e); try lia; reflexivity.
Qed.

(** C4 (as amended).  For every [getId] call that is not stopped by an active
    client suppression window, whose loaded cache holds a non-empty id and
    an expiry that is a number: [getId] returns the id synchronously if and
    only if [now <= expiry] (at exactly the expiry the id is still valid),
    and otherwise returns the deferred callback. *)
Theorem getId_freshness (now : Z) (config : option ConfigParams)
    (consentData : option ConsentData) (w w' : World) (cache : LocalCache)
    (id : string) (e : Z) :
  let cid := params_clientId (paramsOf config) in
  getLotameLocalCache now cid w = (Returned cache, w') ->
  data cache = JStr id -> id <> EmptyString ->
  expiryTimestampMs cache = Num e ->
  negb (isEmpty cid) && num_lt (Num now) (clientExpiryTimestampMs cache) = false ->
  (fst (getId now config consentData w) = Returned (IdFound (JStr id)) <-> now <= e)
  /\ (~ now <= e ->
      exists callback, fst (getId now config consentData w) = Returned (Deferred callback)).
Proof.
  intros cid Hload Hd Hid He Hsup.
  rewrite (getId_run now config consentData w w' cache Hload). fold cid. rewrite Hsup.
  cbv zeta. rewrite (getCurrentPanoId_cases now e id cache Hd Hid He).
  destruct (Z.leb_spec now e).
  - unfold isEmpty. rewrite eqb_empty_false by assumption. simpl.
    split; [split; [intros _; assumption|reflexivity]|]. intros Hn. lia.
  - simpl. split; [split; [discriminate|lia]|]. intros _. eexists. reflexivity.
Qed.

(** C10 (as amended).  For every cache state in which a CoreId is stored but
    the global expiry record reads as absent (not a string), at a time
    [now > 0]: the loaded expiry stays at 0, [getCurrentPanoId] yields
    undefined, and [getId] never returns the id synchronously; it returns
    the deferred callback unless an active client suppression window makes
    it return [NO_CLIENT_CONSENT]. *)
Theorem getId_without_expiry_record (now : Z) (config : option ConfigParams)
    (consentData : option ConsentData) (w w' : World) (cache : LocalCache)
    (id : string) :
  let cid := params_clientId (paramsOf config) in
  0 < now ->
  getFromStorage now KEY_ID (storage w) = JStr id ->
  isStr (getFromStorage now KEY_EXPIRY (storage w)) = false ->
  getLotameLocalCache now cid w = (Returned cache, w') ->
  data cache = JStr id
  /\ expiryTimestampMs cache = Num 0
  /\ getCurrentPanoId now cache = JUndefined
  /\ (forall v, fst (getId now config consentData w) <> Returned (IdFound v))
  /\ (negb (isEmpty cid) && num_lt (Num now) (clientExpiryTimestampMs cache) = false ->
      exists callback, fst (getId now config consentData w) = Returned (Deferred callback))
  /\ (negb (isEmpty cid) && num_lt (Num now) (clientExpiryTimestampMs cache) = true ->
      fst (getId now config consentData w) = Returned NoClientConsent).
Proof.
  intros cid Hnow Hid Hexp Hload.
  rewrite (getId_run now config consentData w w' cache Hload). fold cid.
  rewrite getLotameLocalCache_run in Hload. injection Hload as Ecache Ew.
  rewrite Hexp, Hid in Ecache.
  assert (Hcur : getCurrentPanoId now cache = JUndefined).
  { rewrite <- Ecache. unfold getCurrentPanoId, num_gt, num_lt. simpl.
    destruct (Z.ltb_spec 0 now); [reflexivity|lia]. }
  rewrite Hcur. cbv zeta. change (negb (isEmpty JUndefined)) with false. cbv iota.
  split; [now rewrite <- Ecache|]. split; [now rewrite <- Ecache|].
  split; [reflexivity|].
  destruct (negb (isEmpty cid) && num_lt (Num now) (clientExpiryTimestampMs cache));
    simpl fst.
  - split; [intros v; discriminate|]. split; [discriminate|reflexivity].
  - split; [intros v; discriminate|]. split; [|discriminate].
    intros _. eexists. reflexivity.
Qed.

(** C5 (as amended).  The linkage-data side call comes after the suppression
    check: when an active client suppression window makes [getId] return,
    the world is untouched and no request is issued; otherwise [getId]
    leaves exactly the world [sendUserData] leaves, whether the cached id is
    fresh or not, and [sendUserData] issues its one POST exactly when both
    clientId and hem are non-empty. *)
Theorem getId_side_call (now : Z) (config : option ConfigParams)
    (consentData : option ConsentData) (w w' : World) (cache : LocalCache) :
  let cfg := paramsOf config in
  let cid := params_clientId cfg in
  getLotameLocalCache now cid w = (Returned cache, w') ->
  (negb (isEmpty cid) && num_lt (Num now) (clientExpiryTimestampMs cache) = true ->
     snd (getId now config consentData w) = w)
  /\ (negb (isEmpty cid) && num_lt (Num now) (clientExpiryTimestampMs cache) = false ->
      snd (getId now config consentData w) = snd (sendUserData cfg w))
  /\ (exists hem,
        hem = match params_hems cfg with
              | HemsValue v => if isEmpty v then JUndefined else v
              | HemsArray [] => JUndefined
              | HemsArray (h :: _) => h
              end
        /\ snd (sendUserData cfg w)
           = if negb (isEmpty cid) && negb (isEmpty hem)
             then mkWorld (storage w) (logs w)
                    (requests w ++
                     [AjaxPost (mkUrl "https" "lightning.com-local"
                                  "/src/test/generated-html/prebid-HEM-response.js" None)
                        [("c", cid); ("did", hem)] cid])
             else w).
Proof.
  intros cfg cid Hload. subst cid cfg.
  rewrite (getId_run now config consentData w w' cache Hload).
  split; [|split].
  - intros ->. reflexivity.
  - intros ->. cbv zeta.
    destruct (negb (isEmpty (getCurrentPanoId now cache))); reflexivity.
  - eexists. split; [reflexivity|].
    unfold sendUserData, ajax, mret, M_ret.
    destruct (negb (isEmpty _) && negb (isEmpty _)); reflexivity.
Qed.

(** C6 (as amended).  For every stored client suppression expiry that is a
    string [parseInt] cannot read: loading the cache returns normally and
    changes nothing (nothing is logged), [clientExpiryTimestampMs] is NaN,
    the suppression comparison [now < NaN] is false, and [getId] does not
    answer [NO_CLIENT_CONSENT]. *)
Theorem malformed_client_expiry_loads_NaN (now : Z) (cfg : ConfigParams)
    (consentData : option ConsentData) (w : World) (s : string) :
  let cid := params_clientId cfg in
  truthy cid = true ->
  getFromStorage now (clientExpiryKey cid) (storage w) = JStr s ->
  parseInt s = NaN ->
  exists cache,
    getLotameLocalCache now cid w = (Returned cache, w)
    /\ clientExpiryTimestampMs cache = NaN
    /\ num_lt (Num now) (clientExpiryTimestampMs cache) = false
    /\ fst (getId now (Some cfg) consentData w) <> Returned NoClientConsent.
Proof.
  intros cid Ht Hraw Hparse. eexists. split; [apply getLotameLocalCache_run|].
  fold cid. rewrite Ht, Hraw. simpl isStr. cbv iota. simpl ToString. rewrite Hparse.
  split; [reflexivity|]. split; [reflexivity|].
  erewrite getId_run by apply getLotameLocalCache_run.
  simpl paramsOf. fold cid. rewrite Ht, Hraw. simpl isStr. cbv iota. simpl ToString.
  rewrite Hparse. simpl clientExpiryTimestampMs. unfold num_lt at 1.
  rewrite andb_false_r. cbv zeta.
  destruct (negb (isEmpty _)); discriminate.
Qed.

Lemma getConsentParameters_run (now : Z) (c : option ConsentData) (w : World) :
  exists ps, getConsentParameters now c w = (Returned ps, w).
Proof.
  unfold getConsentParameters, mbind, M_bind, mret, M_ret, readStorage.
  repeat (match goal with
          | |- context [if ?b then _ else _] => destruct b
          | |- context [match ?c with Some _ => _ | None => _ end] => destruct c
          end; simpl);
    eexists; reflexivity.
Qed.

Lemma getCurrentPanoId_stays_empty (now0 now1 : Z) (cache : LocalCache) :
  now0 <= now1 ->
  isEmpty (getCurrentPanoId now0 cache) = true ->
  isEmpty (getCurrentPanoId now1 cache) = true.
Proof.
  intros Hle. unfold getCurrentPanoId, num_gt, num_lt.
  destruct (expiryTimestampMs cache) as [|e]; simpl.
  - destruct (isEmpty (data cache)) eqn:Hd; simpl; auto.
  - destruct (Z.ltb_spec e now0), (Z.ltb_spec e now1); try lia; simpl; auto;
      destruct (isEmpty (data cache)) eqn:Hd; simpl; auto.
Qed.

Lemma resolveIdFunction_stale (now1 : Z) (c : Closure) (w1 : World) :
  isEmpty (getCurrentPanoId now1 (clo_localCache c)) = true ->
  exists url,
    resolveIdFunction now1 c w1
    = (Returned None,
       mkWorld (storage w1) (logs w1) (requests w1 ++ [AjaxGet url (clo_clientId c)])).
Proof.
  intros He. unfold resolveIdFunction. rewrite He. cbn [negb].
  unfold mbind, M_bind. cbv beta.
  destruct (getConsentParameters_run now1 (clo_consentData c) w1) as [ps ->].
  unfold ajax, mret, M_ret. eexists. reflexivity.
Qed.

(** The check in the deferred callback cannot succeed once [getId] has
    returned it: whatever the storage holds later, the callback issues the
    request. *)
Lemma deferred_callback_never_rechecks_storage (now0 now1 : Z)
    (config : option ConfigParams) (consentData : option ConsentData)
    (w0 w0' w1 : World) (c : Closure) :
  getId now0 config consentData w0 = (Returned (Deferred c), w0') ->
  now0 <= now1 ->
  exists url,
    resolveIdFunction now1 c w1
    = (Returned None,
       mkWorld (storage w1) (logs w1) (requests w1 ++ [AjaxGet url (clo_clientId c)])).
Proof.
  intros Hget Hle.
  erewrite getId_run in Hget by apply getLotameLocalCache_run.
  cbv zeta in Hget.
  destruct (negb (isEmpty _) && num_lt _ _) in Hget; [discriminate|].
  match type of Hget with
  | context [negb (isEmpty (getCurrentPanoId now0 ?cache))] =>
      destruct (isEmpty (getCurrentPanoId now0 cache)) eqn:Hempty
  end; simpl in Hget; [|discriminate].
  injection Hget as Ec _. subst c.
  apply resolveIdFunction_stale. simpl clo_localCache.
  eapply getCurrentPanoId_stays_empty; eassumption.
Qed.

(** A body that parses is handed to [processResponseIDs]; its result is the
    value the handler passes on. *)
Lemma idResponseHandler_parsed (now : Z) (cid : JsVal) (response : string)
    (r : ResponseObj) (w : World) :
  response <> EmptyString ->
  JSON_parse response = Returned r ->
  let options :=
    mkOptions (profile_id r) (core_id r) cid (no_consent r) (expiry_ts r)
      (negb (match errors r with
             | Some l => existsb (fun x => strictEq x (JNum (Num MISSING_CORE_CONSENT))) l
             | None => false
             end)) in
  idResponseHandler now cid response w
  = (Returned (snd (processResponseIDs now options (storage w))),
     mkWorld (fst (processResponseIDs now options (storage w))) (logs w) (requests w)).
Proof.
  intros Hne Hparse. cbv zeta.
  unfold idResponseHandler, handleResponse, try_catch, mbind, M_bind, liftOutcome,
    stepStorage, mret, M_ret.
  rewrite truthy_JStr, eqb_empty_false by assumption. cbn [negb].
  rewrite Hparse.
  destruct (processResponseIDs _ _ _) as [st' v]. reflexivity.
Qed.

Lemma handleResponse_returns (now : Z) (cid : JsVal) (response : string) (w : World) :
  exists v w',
    handleResponse now cid response w = (Returned v, w')
    /\ (forall e, JSON_parse response = Threw e ->
          v = JUndefined /\ storage w' = storage w /\ requests w' = requests w
          /\ (response <> EmptyString -> logs w' = (logs w ++ [LogError e])%list)).
Proof.
  unfold handleResponse.
  destruct (truthy (JStr response)) eqn:Ht.
  - unfold try_catch, mbind, M_bind, liftOutcome.
    destruct (JSON_parse response) as [r|e] eqn:Hp.
    + unfold stepStorage. destruct (processResponseIDs _ _ _) as [st r'].
      eexists _, _. split; [reflexivity|]. intros e [=].
    + unfold logError, mret, M_ret. eexists _, _. split; [reflexivity|].
      intros e' [= <-]. simpl. auto.
  - unfold mret, M_ret. eexists _, _. split; [reflexivity|].
    intros e _. repeat split; try reflexivity.
    intros Hne. rewrite truthy_JStr, eqb_empty_false in Ht by assumption. discriminate.
Qed.

(** With storage reads that do not throw, the public operations return
    normally: [getId], the deferred [resolveIdFunction], the two response
    handlers, the transport error handler and [decode].  A body that [JSON.parse]
    rejects leaves the storage as it was, hands undefined to the callback
    and, the body being non-empty, adds one line to the log. *)
Theorem public_operations_never_throw (now : Z) (w : World) :
  (forall config consentData,
      exists r w', getId now config consentData w = (Returned r, w'))
  /\ (forall c, exists r w', resolveIdFunction now c w = (Returned r, w'))
  /\ (forall cid response,
        exists v w',
          idResponseHandler now cid response w = (Returned v, w')
          /\ (forall e, JSON_parse response = Threw e ->
                v = JUndefined /\ storage w' = storage w
                /\ (response <> EmptyString -> logs w' = (logs w ++ [LogError e])%list)))
  /\ (forall cid response,
        exists w',
          dataResponseHandler now cid response w = (Returned tt, w')
          /\ (forall e, JSON_parse response = Threw e -> storage w' = storage w))
  /\ (exists w', dataErrorHandler w = (Returned tt, w') /\ storage w' = storage w)
  /\ (forall s, decode (JStr s) = Some ("lotamePanoramaId", JStr s))
  /\ (forall v, isStr v = false -> decode v = None).
Proof.
  split; [|split; [|split; [|split; [|split; [|split]]]]].
  - intros config consentData.
    erewrite getId_run by apply getLotameLocalCache_run. cbv zeta.
    repeat match goal with |- context [if ?b then _ else _] => destruct b end;
      eexists _, _; reflexivity.
  - intros c. unfold resolveIdFunction.
    destruct (negb (isEmpty _)).
    + eexists _, _. reflexivity.
    + unfold mbind, M_bind.
      destruct (getConsentParameters_run now (clo_consentData c) w) as [ps ->].
      eexists _, _. reflexivity.
  - intros cid response.
    destruct (handleResponse_returns now cid response w) as (v & w' & Hrun & Hthrow).
    exists v, w'. split.
    + unfold idResponseHandler, mbind, M_bind. rewrite Hrun. reflexivity.
    + intros e He. destruct (Hthrow e He) as (? & ? & ? & ?). auto.
  - intros cid response.
    destruct (handleResponse_returns now cid response w) as (v & w' & Hrun & Hthrow).
    exists w'. split.
    + unfold dataResponseHandler, mbind, M_bind. rewrite Hrun. reflexivity.
    + intros e He. destruct (Hthrow e He) as (? & ? & ? & ?). auto.
  - eexists. split; reflexivity.
  - reflexivity.
  - intros v Hv. unfold decode. now rewrite Hv.
Qed.
End IdentityProvider.

(** * Further properties of the cache *)

Section CacheProperties.
Context `{Host}.

(** X1.  An entry of the plain backend whose companion expiry record is
    absent or empty is trusted: when the cookie backend has nothing for the
    key, [getFromStorage] returns the stored value at every time. *)
Theorem getFromStorage_trusts_entry_without_expiry (t : Z) (key : string) (st : Storage) :
  localStorageEnabled st = true ->
  (cookiesEnabled st = true -> getCookie t key st = JNull) ->
  localData st !! (key +:+ "_exp") = None
    \/ localData st !! (key +:+ "_exp") = Some EmptyString ->
  getFromStorage t key st = getDataFromLocalStorage key st.
Proof.
  intros Hl Hc Hexp.
  assert (Hval : (if cookiesEnabled st then getCookie t key st else JNull) = JNull).
  { destruct (cookiesEnabled st); auto. }
  unfold getFromStorage, cookiesAreEnabled, hasLocalStorage. rewrite Hl, Hval.
  unfold getDataFromLocalStorage at 1 2.
  destruct Hexp as [-> | ->]; reflexivity.
Qed.

(** X2.  A companion expiry record that [parseInt] cannot read hides the
    entry: with nothing in the cookie backend, [getFromStorage] answers null
    whatever the plain backend holds for the key. *)
Theorem getFromStorage_unreadable_expiry_hides_entry (t : Z) (key s : string)
    (st : Storage) :
  (cookiesEnabled st = true -> getCookie t key st = JNull) ->
  localData st !! (key +:+ "_exp") = Some s ->
  s <> EmptyString ->
  parseInt s = NaN ->
  getFromStorage t key st = JNull.
Proof.
  intros Hc Hexp Hs Hparse.
  assert (Hval : (if cookiesEnabled st then getCookie t key st else JNull) = JNull).
  { destruct (cookiesEnabled st); auto. }
  assert (He : getDataFromLocalStorage (key +:+ "_exp") st = JStr s).
  { unfold getDataFromLocalStorage. now rewrite Hexp. }
  unfold getFromStorage, cookiesAreEnabled, hasLocalStorage. rewrite Hval, He.
  rewrite strictEq_JStr_empty, strictEq_JStr_JNull by assumption.
  rewrite truthy_JStr, eqb_empty_false by assumption.
  unfold ToString. rewrite Hparse.
  destruct (localStorageEnabled st); reflexivity.
Qed.

(** X3.  The first backend that answers wins: a live cookie is returned as it
    is, an empty value included, whatever the plain backend holds. *)
Theorem getFromStorage_prefers_cookie (t : Z) (key : string) (c : Cookie) (st : Storage) :
  cookiesEnabled st = true ->
  cookieJar st !! key = Some c ->
  cookie_live t c = true ->
  getFromStorage t key st = JStr (cookie_value c).
Proof.
  intros Hc Hj Hlive. apply getFromStorage_cookie; [assumption|].
  rewrite (getCookie_of_lookup t key st c Hj), Hlive. reflexivity.
Qed.

(** X4.  After [clearLotameCache] of a non-empty key the key reads as absent at
    every time; the companion expiry record in the plain backend is left in
    place, and every other key reads as before. *)
Theorem clearLotameCache_removes_only_the_entry (now : Z) (key : string) (st : Storage) :
  0 <= now -> key <> EmptyString ->
  let st' := clearLotameCache now key st in
  (forall t, getFromStorage t key st' = JNull)
  /\ localData st' !! (key +:+ "_exp") = localData st !! (key +:+ "_exp")
  /\ (forall k t, k <> key -> k +:+ "_exp" <> key ->
        getFromStorage t k st' = getFromStorage t k st).
Proof.
  intros Hn Hk. cbv zeta. split; [|split].
  - intros t. apply clearLotameCache_read; assumption.
  - apply clearLotameCache_local_other. intros E. symmetry in E.
    exact (append_exp_neq key E).
  - intros k t Hne Hne'.
    apply getFromStorage_ext; try apply clearLotameCache_flags.
    + apply clearLotameCache_cookie_other; assumption.
    + apply clearLotameCache_local_other; assumption.
    + apply clearLotameCache_local_other; assumption.
Qed.

Lemma setCookie_overwrites now key v1 d1 v2 d2 st :
  setCookie now key v2 d2 (setCookie now key v1 d1 st) = setCookie now key v2 d2 st.
Proof.
  unfold setCookie, with_cookieJar.
  destruct d1 as [|s1], d2 as [|s2]; simpl;
    repeat match goal with |- context [if ?b then _ else _] => destruct b end; simpl;
    rewrite ?insert_insert_eq, ?insert_delete_eq, ?delete_insert_eq, ?delete_delete_eq;
    reflexivity.
Qed.

Lemma setCookie_local now key v d st : localData (setCookie now key v d st) = localData st.
Proof. unfold setCookie, with_cookieJar. repeat case_match; reflexivity. Qed.

Lemma setCookie_enabled now key v d st :
  cookiesEnabled (setCookie now key v d st) = cookiesEnabled st
  /\ localStorageEnabled (setCookie now key v d st) = localStorageEnabled st.
Proof. unfold setCookie, with_cookieJar. repeat case_match; split; reflexivity. Qed.

Lemma saveLotameCache_normal_form now key v e st :
  truthy (JStr key) = true -> truthy v = true ->
  let e' := match e with
            | JUndefined => JNum (Num (now + DAYS_TO_CACHE * DAY_MS))
            | _ => e
            end in
  saveLotameCache now key v e st
  = mkStorage (cookiesEnabled st) (localStorageEnabled st)
      (if cookiesEnabled st
       then cookieJar (setCookie now key v (toUTCString (newDate e')) st)
       else cookieJar st)
      (if localStorageEnabled st
       then <[key := ToString v]>
              (<[key +:+ "_exp" := ToString e']> (localData st))
       else localData st).
Proof.
  intros Hk Hv. cbv zeta. unfold saveLotameCache. rewrite Hk, Hv. simpl andb. cbv iota.
  unfold cookiesAreEnabled, hasLocalStorage, setDataInLocalStorage, with_localData.
  destruct st as [ce le jar ld]. simpl.
  destruct ce, le; simpl;
    rewrite ?(proj2 (setCookie_enabled _ _ _ _ _)), ?(proj1 (setCookie_enabled _ _ _ _ _)),
      ?setCookie_local; simpl; try reflexivity.
  unfold setCookie, with_cookieJar. repeat case_match; reflexivity.
Qed.

(** X5.  Writes are upserts and the last one wins: writing a key twice at one
    instant leaves exactly the storage the second write alone leaves. *)
Theorem saveLotameCache_last_write_wins (now : Z) (key : string)
    (v1 e1 v2 e2 : JsVal) (st : Storage) :
  truthy v2 = true ->
  saveLotameCache now key v2 e2 (saveLotameCache now key v1 e1 st)
  = saveLotameCache now key v2 e2 st.
Proof.
  intros Hv2.
  destruct (truthy (JStr key) && truthy v1) eqn:Hw1.
  2:{ f_equal. unfold saveLotameCache. rewrite Hw1. reflexivity. }
  apply andb_prop in Hw1 as [Hk Hv1].
  rewrite (saveLotameCache_normal_form now key v2 e2 _ Hk Hv2).
  rewrite (saveLotameCache_normal_form now key v2 e2 st Hk Hv2).
  rewrite (saveLotameCache_normal_form now key v1 e1 st Hk Hv1).
  cbv zeta. simpl cookiesEnabled. simpl localStorageEnabled. simpl localData.
  f_equal.
  - destruct (cookiesEnabled st); [|reflexivity].
    pose proof (setCookie_overwrites now key v1
                  (toUTCString (newDate match e1 with
                     | JUndefined => JNum (Num (now + DAYS_TO_CACHE * DAY_MS))
                     | _ => e1 end))
                  v2
                  (toUTCString (newDate match e2 with
                     | JUndefined => JNum (Num (now + DAYS_TO_CACHE * DAY_MS))
                     | _ => e2 end)) st) as Hover.
    apply (f_equal cookieJar) in Hover. rewrite <- Hover.
    unfold setCookie, with_cookieJar. repeat case_match; reflexivity.
  - destruct (localStorageEnabled st); [|reflexivity].
    pose proof (append_exp_neq key) as Hne.
    apply map_eq. intros i. rewrite !lookup_insert.
    repeat case_decide; congruence.
Qed.

(** X6.  Written without an expiration timestamp, an entry expires seven days
    after the write: it reads as absent from that instant on and, while local
    storage is enabled, as the written value before it. *)
Theorem saveLotameCache_default_expiry (now : Z) (key : string) (v : JsVal)
    (st : Storage) :
  key <> EmptyString -> truthy v = true ->
  Z.abs (now + DAYS_TO_CACHE * DAY_MS) <= MAX_TIME_VALUE ->
  let st' := saveLotameCache now key v JUndefined st in
  (forall t, now + DAYS_TO_CACHE * DAY_MS <= t -> getFromStorage t key st' = JNull)
  /\ (localStorageEnabled st = true ->
      forall t, t < now + DAYS_TO_CACHE * DAY_MS ->
        getFromStorage t key st' = JStr (ToString v)).
Proof.
  intros Hk Hv Hrange. cbv zeta.
  assert (He : JUndefined = JNum (Num (now + DAYS_TO_CACHE * DAY_MS))
               \/ (JUndefined = JUndefined
                   /\ now + DAYS_TO_CACHE * DAY_MS = now + DAYS_TO_CACHE * DAY_MS))
    by (right; split; reflexivity).
  split.
  - intros t Ht.
    apply (saveLotameCache_read_expired now key v JUndefined _ st t Hk Hv He Hrange Ht).
  - intros Hl t Ht.
    apply (saveLotameCache_read_fresh now key v JUndefined _ st t Hk Hv He Hrange Hl Ht).
Qed.

(** X7.  The nine-month expiry of the profile id is the cookie's alone: after
    [setProfileId] of a non-empty id with local storage enabled,
    [getProfileId] returns the id at every time, also once cookies are
    disabled; with cookies alone it returns it for nine months. *)
Theorem profileId_round_trip (now : Z) (p : string) (st : Storage) :
  p <> EmptyString ->
  let st' := setProfileId now (JStr p) st in
  (localStorageEnabled st = true ->
     forall t, getProfileId t st' = JStr p
               /\ getProfileId t (disableCookies st') = JStr p)
  /\ (cookiesEnabled st = true ->
      forall t, t <= now + NINE_MONTHS_MS - 1000 ->
        getProfileId t (disableLocalStorage st') = JStr p).
Proof.
  intros Hp. cbv zeta.
  destruct (setProfileId_flags now (JStr p) st) as [Fc Fl].
  assert (Htp : truthy (JStr p) = true).
  { rewrite truthy_JStr, eqb_empty_false by assumption. reflexivity. }
  split.
  - intros Hl t.
    pose proof (setProfileId_local now (JStr p) st Hl) as Hld. simpl ToString in Hld.
    split.
    + unfold getProfileId, cookiesAreEnabled, hasLocalStorage. rewrite Fc, Fl, Hl.
      destruct (cookiesEnabled st) eqn:Hc.
      * destruct (setProfileId_cookie now (JStr p) st Hc) as (c & Hj & Hval & _).
        rewrite (getCookie_of_lookup _ _ _ _ Hj), Hval. simpl ToString.
        destruct (cookie_live t c).
        -- rewrite Htp. reflexivity.
        -- simpl. unfold getDataFromLocalStorage. now rewrite Hld.
      * simpl. unfold getDataFromLocalStorage. now rewrite Hld.
    + unfold getProfileId, cookiesAreEnabled, hasLocalStorage, disableCookies. simpl.
      rewrite Fl, Hl. unfold getDataFromLocalStorage. simpl. now rewrite Hld.
  - intros Hc t Ht.
    destruct (setProfileId_cookie now (JStr p) st Hc) as (c & Hj & Hval & Hlive).
    unfold getProfileId, cookiesAreEnabled, hasLocalStorage, disableLocalStorage. simpl.
    rewrite Fc, Hc. unfold getCookie. simpl. rewrite Hj, (Hlive t Ht), Hval. simpl ToString.
    rewrite Htp. reflexivity.
Qed.

End CacheProperties.

(** * Further properties of response processing *)

Ltac string_neq := let E := fresh "E" in intros E; cbv in E; discriminate E.

Section ResponseProperties.
Context `{Host}.

Lemma getFromStorage_after_save (now t : Z) (k key : string) (v e : JsVal) (st : Storage) :
  k <> key -> k <> key +:+ "_exp" -> k +:+ "_exp" <> key ->
  k +:+ "_exp" <> key +:+ "_exp" ->
  getFromStorage t k (saveLotameCache now key v e st) = getFromStorage t k st.
Proof.
  intros H1 H2 H3 H4. apply getFromStorage_ext; try apply saveLotameCache_flags.
  - apply saveLotameCache_cookie_other; assumption.
  - apply saveLotameCache_local_other; assumption.
  - apply saveLotameCache_local_other; assumption.
Qed.

Lemma getFromStorage_after_clear (now t : Z) (k key : string) (st : Storage) :
  k <> key -> k +:+ "_exp" <> key ->
  getFromStorage t k (clearLotameCache now key st) = getFromStorage t k st.
Proof.
  intros H1 H2. apply getFromStorage_ext; try apply clearLotameCache_flags.
  - apply clearLotameCache_cookie_other; assumption.
  - apply clearLotameCache_local_other; assumption.
  - apply clearLotameCache_local_other; assumption.
Qed.

Lemma getFromStorage_after_setProfileId (now t : Z) (k : string) (p : JsVal) (st : Storage) :
  k <> KEY_PROFILE -> k +:+ "_exp" <> KEY_PROFILE ->
  getFromStorage t k (setProfileId now p st) = getFromStorage t k st.
Proof.
  intros H1 H2. apply getFromStorage_ext; try apply setProfileId_flags.
  - apply setProfileId_cookie_other; assumption.
  - apply setProfileId_local_other; assumption.
  - apply setProfileId_local_other; assumption.
Qed.

(** The state [processResponseIDs] hands to its third step. *)
Lemma processResponseIDs_steps (now : Z) (o : Options) (st : Storage) :
  isEmpty (clientId o) = true \/ consentIsErrorFree o = true
    \/ noConsent o <> JStr "CLIENT" ->
  let st0 := if negb (isEmpty (clientId o)) && consentIsErrorFree o
             then clearLotameCache now (clientExpiryKey (clientId o)) st
             else st in
  let st1 := saveLotameCache now KEY_EXPIRY (expiry o) (expiry o) st0 in
  processResponseIDs now o st =
    if isStr (profileId o) then
      let st2 := if consentIsErrorFree o
                 then setProfileId now (profileId o) st1 else st1 in
      if isStr (coreId o)
      then (saveLotameCache now KEY_ID (coreId o) (expiry o) st2, coreId o)
      else (clearLotameCache now KEY_ID st2, JUndefined)
    else
      let st2 := if consentIsErrorFree o
                 then clearLotameCache now KEY_PROFILE st1 else st1 in
      (clearLotameCache now KEY_ID st2, JUndefined).
Proof.
  intros Hgate. cbv zeta. unfold processResponseIDs.
  destruct (isEmpty (clientId o)) eqn:Hc; simpl negb; cbv iota; [reflexivity|].
  destruct (consentIsErrorFree o) eqn:He; simpl andb; cbv iota; [reflexivity|].
  destruct (isStr (noConsent o) && strictEq (noConsent o) (JStr "CLIENT")) eqn:Hn;
    [|reflexivity].
  apply client_gate in Hn. destruct Hgate as [?|[?|?]]; congruence.
Qed.

(** Keys that the steps after the first never touch read as the first step
    left them. *)
Lemma processResponseIDs_frame (now t : Z) (o : Options) (st : Storage) (k : string) :
  isEmpty (clientId o) = true \/ consentIsErrorFree o = true
    \/ noConsent o <> JStr "CLIENT" ->
  k <> KEY_ID -> k <> KEY_ID +:+ "_exp" -> k +:+ "_exp" <> KEY_ID ->
  k +:+ "_exp" <> KEY_ID +:+ "_exp" ->
  k <> KEY_PROFILE -> k +:+ "_exp" <> KEY_PROFILE ->
  let st0 := if negb (isEmpty (clientId o)) && consentIsErrorFree o
             then clearLotameCache now (clientExpiryKey (clientId o)) st
             else st in
  let st1 := saveLotameCache now KEY_EXPIRY (expiry o) (expiry o) st0 in
  getFromStorage t k (fst (processResponseIDs now o st)) = getFromStorage t k st1.
Proof.
  intros Hgate K1 K2 K3 K4 K5 K6. cbv zeta.
  rewrite (processResponseIDs_steps now o st Hgate). cbv zeta.
  destruct (isStr (profileId o)), (isStr (coreId o)), (consentIsErrorFree o); simpl fst;
    rewrite ?getFromStorage_after_save, ?getFromStorage_after_clear,
      ?getFromStorage_after_setProfileId by assumption;
    reflexivity.
Qed.

Lemma processResponseIDs_step1_flags (now : Z) (o : Options) (st : Storage) :
  let st0 := if negb (isEmpty (clientId o)) && consentIsErrorFree o
             then clearLotameCache now (clientExpiryKey (clientId o)) st
             else st in
  cookiesEnabled st0 = cookiesEnabled st
  /\ localStorageEnabled st0 = localStorageEnabled st.
Proof.
  cbv zeta. destruct (negb _ && _); [apply clearLotameCache_flags|split; reflexivity].
Qed.

Lemma expiry_record_reads (now T : Z) (o : Options) (st : Storage) :
  isEmpty (clientId o) = true \/ consentIsErrorFree o = true
    \/ noConsent o <> JStr "CLIENT" ->
  expiry o = JNum (Num T) -> T <> 0 -> Z.abs T <= MAX_TIME_VALUE ->
  let st' := fst (processResponseIDs now o st) in
  (forall t, T <= t -> getFromStorage t KEY_EXPIRY st' = JNull)
  /\ (localStorageEnabled st = true ->
      forall t, t < T -> getFromStorage t KEY_EXPIRY st' = JStr (Z_to_string T)).
Proof.
  intros Hgate He HT0 HT. cbv zeta.
  assert (Hv : truthy (JNum (Num T)) = true).
  { simpl. destruct (Z.eqb_spec T 0); [contradiction|reflexivity]. }
  assert (Hframe : forall t, getFromStorage t KEY_EXPIRY (fst (processResponseIDs now o st))
            = getFromStorage t KEY_EXPIRY
                (saveLotameCache now KEY_EXPIRY (expiry o) (expiry o)
                   (if negb (isEmpty (clientId o)) && consentIsErrorFree o
                    then clearLotameCache now (clientExpiryKey (clientId o)) st
                    else st))).
  { intros t. apply (processResponseIDs_frame now t o st KEY_EXPIRY Hgate); string_neq. }
  destruct (processResponseIDs_step1_flags now o st) as [_ Fl]. cbv zeta in Fl.
  split.
  - intros t Ht. rewrite Hframe, He.
    apply (saveLotameCache_read_expired now KEY_EXPIRY (JNum (Num T)) _ T);
      try assumption; [string_neq|left; reflexivity].
  - intros Hl t Ht. rewrite Hframe, He.
    apply (saveLotameCache_read_fresh now KEY_EXPIRY (JNum (Num T)) _ T);
      try assumption; [string_neq|left; reflexivity|congruence].
Qed.

(** X8.  The global expiry record is written whatever the consent outcome and
    whatever ids the response carries: after a response processed past the
    client stop with a non-zero numeric [expiry_ts] = T, the record reads as
    absent from T on and, while local storage is enabled, as [String(T)]
    before T. *)
Theorem processResponseIDs_persists_expiry_record (now T : Z) (o : Options)
    (st : Storage) :
  isEmpty (clientId o) = true \/ consentIsErrorFree o = true
    \/ noConsent o <> JStr "CLIENT" ->
  expiry o = JNum (Num T) -> T <> 0 -> Z.abs T <= MAX_TIME_VALUE ->
  let st' := fst (processResponseIDs now o st) in
  (forall t, T <= t -> getFromStorage t KEY_EXPIRY st' = JNull)
  /\ (localStorageEnabled st = true ->
      forall t, t < T -> getFromStorage t KEY_EXPIRY st' = JStr (Z_to_string T)).
Proof. exact (expiry_record_reads now T o st). Qed.


Lemma backends_off_save now key v e st :
  cookiesEnabled st = false -> localStorageEnabled st = false ->
  saveLotameCache now key v e st = st.
Proof.
  intros Hc Hl. unfold saveLotameCache, cookiesAreEnabled, hasLocalStorage.
  rewrite Hc, Hl. destruct (truthy (JStr key) && truthy v); reflexivity.
Qed.

Lemma backends_off_clear now key st :
  cookiesEnabled st = false -> localStorageEnabled st = false ->
  clearLotameCache now key st = st.
Proof.
  intros Hc Hl. unfold clearLotameCache, cookiesAreEnabled, hasLocalStorage.
  rewrite Hc, Hl. destruct (truthy (JStr key)); reflexivity.
Qed.

Lemma backends_off_setProfileId now p st :
  cookiesEnabled st = false -> localStorageEnabled st = false ->
  setProfileId now p st = st.
Proof.
  intros Hc Hl. unfold setProfileId, cookiesAreEnabled, hasLocalStorage.
  rewrite Hc, Hl. reflexivity.
Qed.

(** X9.  With both backends unavailable a response changes nothing in the
    storage, and still resolves: past the client stop, with [profile_id] and
    [core_id] strings, the value returned is [core_id]. *)
Theorem processResponseIDs_without_backends (now : Z) (o : Options) (st : Storage) :
  cookiesEnabled st = false -> localStorageEnabled st = false ->
  fst (processResponseIDs now o st) = st
  /\ (isEmpty (clientId o) = true \/ consentIsErrorFree o = true
        \/ noConsent o <> JStr "CLIENT" ->
      isStr (profileId o) = true -> isStr (coreId o) = true ->
      snd (processResponseIDs now o st) = coreId o).
Proof.
  intros Hc Hl. split.
  - unfold processResponseIDs.
    repeat match goal with |- context [if ?b then _ else _] => destruct b end;
      simpl fst;
      repeat first
        [ rewrite (backends_off_save now _ _ _ st Hc Hl)
        | rewrite (backends_off_clear now _ st Hc Hl)
        | rewrite (backends_off_setProfileId now _ st Hc Hl) ];
      reflexivity.
  - intros Hgate Hp Hcore. rewrite (processResponseIDs_steps now o st Hgate).
    cbv zeta. rewrite Hp, Hcore. reflexivity.
Qed.

End ResponseProperties.

(** * Further properties of the identity provider *)

Section ProviderProperties.
Context `{Host}.

Lemma isEmpty_false_truthy (v : JsVal) : isEmpty v = false -> truthy v = true.
Proof.
  destruct v as [| |b|n|s]; simpl; try discriminate.
  intros ->. reflexivity.
Qed.

Lemma sendUserData_without_client (cfg : ConfigParams) (w : World) :
  isEmpty (params_clientId cfg) = true -> sendUserData cfg w = (Returned tt, w).
Proof. intros He. unfold sendUserData. rewrite He. reflexivity. Qed.

(** What [getId] answers, from what the storage reads as. *)
Lemma getId_from_storage (now : Z) (config : option ConfigParams)
    (consentData : option ConsentData) (w : World) :
  let cid := params_clientId (paramsOf config) in
  let cache :=
    mkLocalCache
      (getFromStorage now KEY_ID (storage w))
      (if isStr (getFromStorage now KEY_EXPIRY (storage w))
       then parseInt (ToString (getFromStorage now KEY_EXPIRY (storage w)))
       else Num 0)
      (if truthy cid then
         if isStr (getFromStorage now (clientExpiryKey cid) (storage w))
         then parseInt (ToString (getFromStorage now (clientExpiryKey cid) (storage w)))
         else Num 0
       else Num 0) in
  getId now config consentData w
  = if negb (isEmpty cid) && num_lt (Num now) (clientExpiryTimestampMs cache)
    then (Returned NoClientConsent, w)
    else
      let w1 := snd (sendUserData (paramsOf config) w) in
      if negb (isEmpty (getCurrentPanoId now cache))
      then (Returned (IdFound (getCurrentPanoId now cache)), w1)
      else (Returned (Deferred (mkClosure cache (getProfileId now (storage w)) cid
                                  (negb (isEmpty cid)) consentData)), w1).
Proof.
  cbv zeta. apply (getId_run now config consentData w w). apply getLotameLocalCache_run.
Qed.

(** A granted identity as the storage reads after the response. *)
Lemma granted_identity_reads (now T : Z) (o : Options) (st : Storage) (p c : string) :
  isEmpty (clientId o) = true \/ consentIsErrorFree o = true
    \/ noConsent o <> JStr "CLIENT" ->
  profileId o = JStr p -> coreId o = JStr c -> c <> EmptyString ->
  expiry o = JNum (Num T) -> Z.abs T <= MAX_TIME_VALUE ->
  let st' := fst (processResponseIDs now o st) in
  snd (processResponseIDs now o st) = JStr c
  /\ (forall t, T <= t -> getFromStorage t KEY_ID st' = JNull)
  /\ (localStorageEnabled st = true ->
      forall t, t < T -> getFromStorage t KEY_ID st' = JStr c).
Proof.
  intros Hgate Hp Hc Hne He HT. cbv zeta.
  rewrite (processResponseIDs_steps now o st Hgate). cbv zeta.
  rewrite Hp, Hc. simpl isStr. cbv iota. simpl fst. simpl snd.
  assert (Hv : truthy (JStr c) = true).
  { rewrite truthy_JStr, eqb_empty_false by assumption. reflexivity. }
  split; [reflexivity|]. split.
  - intros t Ht.
    apply (saveLotameCache_read_expired now KEY_ID (JStr c) _ T); try assumption;
      [string_neq|left; assumption].
  - intros Hl t Ht.
    apply (saveLotameCache_read_fresh now KEY_ID (JStr c) _ T); try assumption;
      [string_neq|left; assumption|].
    destruct (processResponseIDs_step1_flags now o st) as [_ Fl]. cbv zeta in Fl.
    destruct (consentIsErrorFree o);
      rewrite ?(proj2 (setProfileId_flags _ _ _)), (proj2 (saveLotameCache_flags _ _ _ _ _));
      congruence.
Qed.

(** X10.  A granted identity is served from the cache afterwards.  When the
    /id response parses to string [profile_id] and non-empty [core_id] with a
    non-zero numeric [expiry_ts] = T, for a configuration without clientId
    and with local storage enabled: the callback receives [core_id]; every
    later [getId] before T returns it synchronously and leaves the world as
    it is (no request); from T on [getId] returns the deferred callback. *)
Theorem resolved_identity_is_served_from_cache (now T : Z)
    (config : option ConfigParams) (consentData : option ConsentData)
    (response : string) (r : ResponseObj) (w : World) (p c : string) :
  let cid := params_clientId (paramsOf config) in
  isEmpty cid = true ->
  response <> EmptyString -> JSON_parse response = Returned r ->
  profile_id r = JStr p -> core_id r = JStr c -> c <> EmptyString ->
  expiry_ts r = JNum (Num T) -> T <> 0 -> Z.abs T <= MAX_TIME_VALUE ->
  localStorageEnabled (storage w) = true ->
  exists w',
    idResponseHandler now cid response w = (Returned (JStr c), w')
    /\ (forall t, t < T ->
          getId t config consentData w' = (Returned (IdFound (JStr c)), w'))
    /\ (forall t, T <= t ->
          exists callback,
            getId t config consentData w' = (Returned (Deferred callback), w')).
Proof.
  intros cid Hcid Hresp Hparse Hp Hc Hne He HT0 HT Hl.
  pose proof (idResponseHandler_parsed now cid response r w Hresp Hparse) as Hrun.
  cbv zeta in Hrun.
  set (o := mkOptions (profile_id r) (core_id r) cid (no_consent r) (expiry_ts r)
              (negb match errors r with
                    | Some l =>
                        existsb (fun x => strictEq x (JNum (Num MISSING_CORE_CONSENT))) l
                    | None => false
                    end)) in *.
  assert (Hgate : isEmpty (clientId o) = true \/ consentIsErrorFree o = true
                  \/ noConsent o <> JStr "CLIENT") by (left; exact Hcid).
  destruct (granted_identity_reads now T o (storage w) p c Hgate Hp Hc Hne He HT)
    as (Hret & Hgone & Hfresh).
  destruct (expiry_record_reads now T o (storage w) Hgate He HT0 HT) as (_ & Hexp).
  eexists. split; [rewrite Hrun, Hret; reflexivity|].
  split.
  - intros t Ht. rewrite getId_from_storage. cbv zeta. fold cid.
    simpl storage. rewrite (Hfresh Hl t Ht), (Hexp Hl t Ht).
    rewrite Hcid. simpl negb. simpl andb. cbv iota.
    rewrite (sendUserData_without_client _ _ Hcid). simpl snd.
    simpl isStr. cbv iota. simpl ToString. rewrite parseInt_Z_to_string.
    assert (Hcur : forall ce, getCurrentPanoId t (mkLocalCache (JStr c) (Num T) ce) = JStr c).
    { intros ce.
      rewrite (getCurrentPanoId_cases t T c (mkLocalCache (JStr c) (Num T) ce)
                 eq_refl Hne eq_refl).
      destruct (Z.leb_spec t T); [reflexivity|lia]. }
    rewrite Hcur. unfold isEmpty. rewrite eqb_empty_false by assumption. reflexivity.
  - intros t Ht. rewrite getId_from_storage. cbv zeta. fold cid.
    simpl storage. rewrite (Hgone t Ht).
    rewrite Hcid. simpl negb. simpl andb. cbv iota.
    rewrite (sendUserData_without_client _ _ Hcid). simpl snd.
    assert (Hcur : forall e ce, getCurrentPanoId t (mkLocalCache JNull e ce) = JUndefined).
    { intros e ce. unfold getCurrentPanoId. simpl. now rewrite andb_false_r. }
    rewrite Hcur. simpl. eexists. reflexivity.
Qed.

(** X11.  A consent-error-free response for a client ends that client's
    suppression: afterwards the client's suppression key reads as absent at
    every time, and [getId] for that client is no longer answered
    [NO_CLIENT_CONSENT] (clientId other than the literal "exp", whose key is
    the companion expiry key of the global expiry record). *)
Theorem consent_ends_client_suppression (now : Z) (o : Options) (st : Storage) :
  0 <= now ->
  isEmpty (clientId o) = false ->
  consentIsErrorFree o = true ->
  ToString (clientId o) <> "exp" ->
  let st' := fst (processResponseIDs now o st) in
  (forall t, getFromStorage t (clientExpiryKey (clientId o)) st' = JNull)
  /\ (forall t cfg consentData ls rs,
        0 <= t -> params_clientId cfg = clientId o ->
        fst (getId t (Some cfg) consentData (mkWorld st' ls rs))
        <> Returned NoClientConsent).
Proof.
  intros Hn Hc He Hexp. cbv zeta.
  assert (Hgate : isEmpty (clientId o) = true \/ consentIsErrorFree o = true
                  \/ noConsent o <> JStr "CLIENT") by (right; left; exact He).
  assert (Hkey : clientExpiryKey (clientId o) <> EmptyString).
  { unfold clientExpiryKey, KEY_EXPIRY, KEY_ID. rewrite ?append_cons. discriminate. }
  assert (Habsent : forall t,
            getFromStorage t (clientExpiryKey (clientId o))
              (fst (processResponseIDs now o st)) = JNull).
  { intros t.
    destruct (clientKey_frame (clientId o) KEY_ID ltac:(auto)) as [Ka1 Ka2].
    destruct (clientKey_frame (clientId o) KEY_PROFILE ltac:(auto)) as [Kb1 Kb2].
    destruct (clientKey_frame (clientId o) (KEY_ID +:+ "_exp") ltac:(auto)) as [Kc1 Kc2].
    destruct (clientKey_frame (clientId o) KEY_EXPIRY ltac:(auto)) as [Kd1 Kd2].
    destruct (clientKey_frame_exp (clientId o) Hexp) as [Ke1 Ke2].
    rewrite (processResponseIDs_frame now t o st _ Hgate) by congruence.
    rewrite Hc, He. simpl negb. simpl andb. cbv iota.
    rewrite getFromStorage_after_save by congruence.
    apply clearLotameCache_read; assumption. }
  split; [exact Habsent|].
  intros t cfg consentData ls rs Ht Hcfg.
  rewrite getId_from_storage. cbv zeta. unfold paramsOf. simpl default. simpl storage.
  rewrite Hcfg, (Habsent t). simpl isStr. cbv iota.
  assert (Hlt : num_lt (Num t) (Num 0) = false).
  { unfold num_lt. destruct (Z.ltb_spec t 0); [lia|reflexivity]. }
  cbn [clientExpiryTimestampMs].
  assert (Hzero : (if truthy (clientId o) then Num 0 else Num 0) = Num 0)
    by (destruct (truthy (clientId o)); reflexivity).
  rewrite Hzero, Hlt, andb_false_r. cbv zeta.
  destruct (negb (isEmpty (getCurrentPanoId t _))); simpl; discriminate.
Qed.

(** X12.  A client-scoped denial suppresses [getId] for that client until
    [expiry_ts].  After a response with [no_consent === "CLIENT"], not
    consent-error-free, for a non-empty clientId, with a non-zero numeric
    [expiry_ts] = T and local storage enabled: [getId] for that client before
    T answers [NO_CLIENT_CONSENT] and leaves the world as it is; from T on
    (at a time >= 0) it no longer does. *)
Theorem client_denial_suppresses_until_expiry (now T : Z) (o : Options) (st : Storage) :
  isEmpty (clientId o) = false ->
  consentIsErrorFree o = false ->
  noConsent o = JStr "CLIENT" ->
  expiry o = JNum (Num T) -> T <> 0 -> Z.abs T <= MAX_TIME_VALUE ->
  localStorageEnabled st = true ->
  let st' := fst (processResponseIDs now o st) in
  forall t cfg consentData ls rs,
    params_clientId cfg = clientId o ->
    (t < T ->
       getId t (Some cfg) consentData (mkWorld st' ls rs)
       = (Returned NoClientConsent, mkWorld st' ls rs))
    /\ (T <= t -> 0 <= t ->
        fst (getId t (Some cfg) consentData (mkWorld st' ls rs))
        <> Returned NoClientConsent).
Proof.
  intros Hc He Hn Hexp HT0 HT Hl. cbv zeta. intros t cfg consentData ls rs Hcfg.
  rewrite (processResponseIDs_stops now o st Hc He Hn). simpl fst. rewrite Hexp.
  assert (Hkey : clientExpiryKey (clientId o) <> EmptyString).
  { unfold clientExpiryKey, KEY_EXPIRY, KEY_ID. rewrite ?append_cons. discriminate. }
  assert (Hv : truthy (JNum (Num T)) = true).
  { simpl. destruct (Z.eqb_spec T 0); [contradiction|reflexivity]. }
  pose proof (isEmpty_false_truthy _ Hc) as Htruthy.
  rewrite getId_from_storage. cbv zeta. unfold paramsOf. simpl default. simpl storage.
  rewrite Hcfg, Hc, Htruthy. simpl negb. simpl andb.
  split.
  - intros Ht.
    rewrite (saveLotameCache_read_fresh now _ (JNum (Num T)) (JNum (Num T)) T st t
               Hkey Hv (or_introl eq_refl) HT Hl Ht).
    simpl isStr. cbv iota. simpl ToString. rewrite parseInt_Z_to_string.
    cbn [clientExpiryTimestampMs].
    destruct (Z.ltb_spec t T); [reflexivity|lia].
  - intros Ht Ht0.
    rewrite (saveLotameCache_read_expired now _ (JNum (Num T)) (JNum (Num T)) T st t
               Hkey Hv (or_introl eq_refl) HT Ht).
    simpl isStr. cbv iota. cbn [clientExpiryTimestampMs].
    destruct (Z.ltb_spec t 0); [lia|]. cbv zeta.
    destruct (negb (isEmpty (getCurrentPanoId t _))); simpl; discriminate.
Qed.

(** X13.  An expiry record that [parseInt] cannot read makes the cached id
    permanent: [now > NaN] is false, so with a non-empty id stored and no
    active client suppression [getId] returns the id synchronously at every
    time. *)
Theorem unreadable_expiry_record_keeps_id (now : Z) (config : option ConfigParams)
    (consentData : option ConsentData) (w w' : World) (cache : LocalCache)
    (id s : string) :
  let cid := params_clientId (paramsOf config) in
  getFromStorage now KEY_ID (storage w) = JStr id -> id <> EmptyString ->
  getFromStorage now KEY_EXPIRY (storage w) = JStr s -> parseInt s = NaN ->
  getLotameLocalCache now cid w = (Returned cache, w') ->
  negb (isEmpty cid) && num_lt (Num now) (clientExpiryTimestampMs cache) = false ->
  expiryTimestampMs cache = NaN
  /\ fst (getId now config consentData w) = Returned (IdFound (JStr id)).
Proof.
  intros cid Hid Hne Hexp Hparse Hload Hsup.
  rewrite (getId_run now config consentData w w' cache Hload). fold cid. rewrite Hsup.
  rewrite getLotameLocalCache_run in Hload. injection Hload as Ecache Ew.
  rewrite Hid, Hexp in Ecache. simpl isStr in Ecache. cbv iota in Ecache.
  simpl ToString in Ecache. rewrite Hparse in Ecache.
  assert (Hcur : getCurrentPanoId now cache = JStr id).
  { rewrite <- Ecache. unfold getCurrentPanoId, num_gt, num_lt. simpl.
    unfold isEmpty. rewrite eqb_empty_false by assumption. reflexivity. }
  split; [now rewrite <- Ecache|].
  cbv zeta. rewrite Hcur. unfold isEmpty. rewrite eqb_empty_false by assumption.
  reflexivity.
Qed.

(** X15.  What [getId] returns synchronously is the stored id, non-empty and
    not expired: if the answer is [{id: v}] then [v] is what the cache reads
    for the id key now, a non-empty string, and [now] is not after the loaded
    expiry (the stored expiry record when it is a number, 0 when there is no
    record). *)
Theorem getId_returns_only_unexpired_stored_id (now : Z)
    (config : option ConfigParams) (consentData : option ConsentData)
    (w : World) (v : JsVal) :
  fst (getId now config consentData w) = Returned (IdFound v) ->
  v = getFromStorage now KEY_ID (storage w)
  /\ (exists id, v = JStr id /\ id <> EmptyString)
  /\ (forall s e, getFromStorage now KEY_EXPIRY (storage w) = JStr s ->
                  parseInt s = Num e -> now <= e)
  /\ (isStr (getFromStorage now KEY_EXPIRY (storage w)) = false -> now <= 0).
Proof.
  rewrite getId_from_storage. cbv zeta.
  destruct (negb (isEmpty _) && num_lt _ _); [discriminate|].
  match goal with
  | |- context [negb (isEmpty (getCurrentPanoId now ?cache))] =>
      set (loaded := cache);
      destruct (isEmpty (getCurrentPanoId now loaded)) eqn:Hempty
  end; simpl; [discriminate|].
  intros [= <-].
  unfold getCurrentPanoId in *.
  destruct (negb (num_gt (Num now) (expiryTimestampMs loaded))
            && negb (isEmpty (data loaded))) eqn:Hfresh; [|discriminate].
  apply andb_prop in Hfresh as [Hexp Hdata].
  apply negb_true_iff in Hexp. apply negb_true_iff in Hdata.
  subst loaded. simpl in *.
  split; [reflexivity|]. split.
  - destruct (getFromStorage now KEY_ID (storage w)) as [| |b|n|id]; try discriminate.
    exists id. split; [reflexivity|]. intros ->. discriminate.
  - split.
    + intros s e Hs Hp. rewrite Hs in Hexp. simpl in Hexp. rewrite Hp in Hexp.
      unfold num_gt, num_lt in Hexp. destruct (Z.ltb_spec e now); [discriminate|lia].
    + intros Hs. rewrite Hs in Hexp. unfold num_gt, num_lt in Hexp.
      destruct (Z.ltb_spec 0 now); [discriminate|lia].
Qed.

Lemma getProfileId_after_save (now t : Z) (key : string) (v e : JsVal) (st : Storage) :
  KEY_PROFILE <> key -> KEY_PROFILE <> key +:+ "_exp" ->
  getProfileId t (saveLotameCache now key v e st) = getProfileId t st.
Proof.
  intros H1 H2. apply getProfileId_ext; try apply saveLotameCache_flags.
  - apply saveLotameCache_cookie_other; assumption.
  - apply saveLotameCache_local_other; assumption.
Qed.

Lemma getProfileId_after_clear (now t : Z) (key : string) (st : Storage) :
  KEY_PROFILE <> key ->
  getProfileId t (clearLotameCache now key st) = getProfileId t st.
Proof.
  intros H1. apply getProfileId_ext; try apply clearLotameCache_flags.
  - apply clearLotameCache_cookie_other; assumption.
  - apply clearLotameCache_local_other; assumption.
Qed.

Lemma consent_error_keeps_profile (now t : Z) (o : Options) (st : Storage) :
  consentIsErrorFree o = false ->
  getProfileId t (fst (processResponseIDs now o st)) = getProfileId t st.
Proof.
  intros He.
  destruct (clientKey_frame (clientId o) KEY_PROFILE ltac:(auto)) as [Kb1 Kb2].
  unfold processResponseIDs. rewrite He.
  repeat match goal with |- context [if ?b then _ else _] => destruct b end; simpl fst;
    repeat first
      [ rewrite (getProfileId_after_save now t KEY_ID) by string_neq
      | rewrite (getProfileId_after_save now t KEY_EXPIRY) by string_neq
      | rewrite (getProfileId_after_save now t (clientExpiryKey (clientId o)))
          by assumption
      | rewrite (getProfileId_after_clear now t KEY_ID) by string_neq ];
    reflexivity.
Qed.

(** X16.  A response flagged with the missing-core-consent error (111 among
    its [errors]) never creates, changes or removes the profile id: after
    either success handler [getProfileId] answers as before, at every
    time. *)
Theorem missing_consent_keeps_profile_id (now : Z) (cid : JsVal) (response : string)
    (r : ResponseObj) (l : list JsVal) (w : World) :
  response <> EmptyString ->
  JSON_parse response = Returned r ->
  errors r = Some l ->
  In (JNum (Num MISSING_CORE_CONSENT)) l ->
  forall t,
    getProfileId t (storage (snd (idResponseHandler now cid response w)))
    = getProfileId t (storage w)
    /\ getProfileId t (storage (snd (dataResponseHandler now cid response w)))
       = getProfileId t (storage w).
Proof.
  intros Hresp Hparse Herr Hin t.
  assert (Hcef : negb match errors r with
                      | Some l0 =>
                          existsb (fun x => strictEq x (JNum (Num MISSING_CORE_CONSENT))) l0
                      | None => false
                      end = false).
  { rewrite Herr. apply negb_false_iff. apply existsb_exists.
    exists (JNum (Num MISSING_CORE_CONSENT)). split; [exact Hin|reflexivity]. }
  pose proof (idResponseHandler_parsed now cid response r w Hresp Hparse) as Hrun.
  cbv zeta in Hrun.
  assert (Hdata : dataResponseHandler now cid response w
                  = (Returned tt, snd (idResponseHandler now cid response w))).
  { unfold dataResponseHandler, idResponseHandler, mbind, M_bind, mret, M_ret.
    destruct (handleResponse now cid response w) as [[v|e] w'] eqn:Hh; [reflexivity|].
    pose proof Hrun as Hrun'. unfold idResponseHandler, mbind, M_bind in Hrun'.
    rewrite Hh in Hrun'. discriminate. }
  rewrite Hdata. simpl snd. rewrite Hrun. simpl snd. simpl storage.
  split; apply consent_error_keeps_profile; exact Hcef.
Qed.

(** The parameters [getConsentParameters] computes, as one expression. *)
Lemma getConsentParameters_value (now : Z) (consentData : option ConsentData)
    (w : World) :
  let usp := uspDataHandler_getConsentData in
  let usPrivacy0 :=
    if negb (bool_decide (usp = JUndefined)) && negb (isEmpty usp)
       && negb (isEmptyStr usp)
    then usp else JUndefined in
  let usPrivacy :=
    if negb (truthy usPrivacy0)
    then getFromStorage now "us_privacy" (storage w) else usPrivacy0 in
  let params0 := if truthy usPrivacy then [("us_privacy", usPrivacy)] else [] in
  let params :=
    match consentData with
    | Some c =>
        if isBoolean (gdprApplies c)
        then (params0 ++ [("gdpr_applies", gdprApplies c)])%list else params0
    | None => params0
    end in
  let consent0 :=
    match consentData with
    | Some c => consentString c
    | None => JUndefined
    end in
  let consent1 :=
    if negb (truthy consent0)
    then getFromStorage now "eupubconsent-v2" (storage w) else consent0 in
  let consent2 :=
    if negb (truthy consent1)
    then getFromStorage now "euconsent-v2" (storage w) else consent1 in
  getConsentParameters now consentData w
  = (Returned (if truthy consent2
               then (params ++ [("gdpr_consent", consent2)])%list else params), w).
Proof.
  cbv zeta. unfold getConsentParameters, mbind, M_bind, mret, M_ret, readStorage.
  repeat match goal with
         | |- context [if negb (truthy ?v) then _ else _] =>
             destruct (negb (truthy v)); cbv beta iota
         end;
    reflexivity.
Qed.

(** X17.  Consent parameters, by precedence.  [getConsentParameters] only
    reads: it returns normally and leaves the world as it is.  [gdpr_applies]
    is sent exactly when the consent object carries a boolean.  The consent
    string sent is the supplied one when it is truthy, else the
    [eupubconsent-v2] entry of the cache, else the [euconsent-v2] entry, and
    none when all are falsy.  [us_privacy] is the handler's non-empty string,
    else the cached [us_privacy] entry when truthy. *)
Theorem getConsentParameters_precedence (now : Z) (consentData : option ConsentData)
    (w : World) :
  let supplied := match consentData with
                  | Some c => consentString c
                  | None => JUndefined
                  end in
  let first := getFromStorage now "eupubconsent-v2" (storage w) in
  let second := getFromStorage now "euconsent-v2" (storage w) in
  let usp := uspDataHandler_getConsentData in
  exists ps,
    getConsentParameters now consentData w = (Returned ps, w)
    /\ (forall v, ("gdpr_applies", v) ∈ ps
                  <-> exists c, consentData = Some c /\ gdprApplies c = v
                                /\ isBoolean v = true)
    /\ (truthy supplied = true ->
        forall v, ("gdpr_consent", v) ∈ ps <-> v = supplied)
    /\ (truthy supplied = false -> truthy first = true ->
        forall v, ("gdpr_consent", v) ∈ ps <-> v = first)
    /\ (truthy supplied = false -> truthy first = false -> truthy second = true ->
        forall v, ("gdpr_consent", v) ∈ ps <-> v = second)
    /\ (truthy supplied = false -> truthy first = false -> truthy second = false ->
        forall v, ~ ("gdpr_consent", v) ∈ ps)
    /\ (forall u, usp = JStr u -> u <> EmptyString ->
        forall v, ("us_privacy", v) ∈ ps <-> v = usp)
    /\ (isEmpty usp = true ->
        forall v, ("us_privacy", v) ∈ ps
                  <-> v = getFromStorage now "us_privacy" (storage w)
                      /\ truthy v = true).
Proof.
  cbv zeta. eexists. split; [apply getConsentParameters_value|]. cbv zeta.
  set (first := getFromStorage now "eupubconsent-v2" (storage w)).
  set (second := getFromStorage now "euconsent-v2" (storage w)).
  set (cached := getFromStorage now "us_privacy" (storage w)).
  set (supplied := match consentData with
                   | Some c => consentString c
                   | None => JUndefined
                   end).
  assert (Happlies : forall base : list (string * JsVal),
            (forall v, ~ ("gdpr_applies", v) ∈ base) ->
            forall v, ("gdpr_applies", v) ∈
                        match consentData with
                        | Some c =>
                            if isBoolean (gdprApplies c)
                            then (base ++ [("gdpr_applies", gdprApplies c)])%list
                            else base
                        | None => base
                        end
                      <-> exists c, consentData = Some c /\ gdprApplies c = v
                                    /\ isBoolean v = true).
  { intros base Hbase v. destruct consentData as [c|].
    - destruct (isBoolean (gdprApplies c)) eqn:Hb.
      + rewrite elem_of_app, list_elem_of_singleton. split.
        * intros [Hin|Heq]; [destruct (Hbase _ Hin)|].
          injection Heq as ->. exists c. auto.
        * intros (c' & [= <-] & <- & _). right. reflexivity.
      + split; [intros Hin; destruct (Hbase _ Hin)|].
        intros (c' & [= <-] & <- & Hb'). congruence.
    - split; [intros Hin; destruct (Hbase _ Hin)|]. intros (c' & [=] & _). }
  assert (Hother : forall (base : list (string * JsVal)) k v,
            k <> "gdpr_applies" ->
            (k, v) ∈ match consentData with
                     | Some c =>
                         if isBoolean (gdprApplies c)
                         then (base ++ [("gdpr_applies", gdprApplies c)])%list
                         else base
                     | None => base
                     end
            <-> (k, v) ∈ base).
  { intros base k v Hk. destruct consentData as [c|]; [|reflexivity].
    destruct (isBoolean (gdprApplies c)); [|reflexivity].
    rewrite elem_of_app, list_elem_of_singleton. split; [|auto].
    intros [Hin|[= -> _]]; [assumption|contradiction]. }
  set (usPrivacy0 := if negb (bool_decide (uspDataHandler_getConsentData = JUndefined))
                        && negb (isEmpty uspDataHandler_getConsentData)
                        && negb (isEmptyStr uspDataHandler_getConsentData)
                     then uspDataHandler_getConsentData else JUndefined).
  set (usPrivacy := if negb (truthy usPrivacy0) then cached else usPrivacy0).
  set (params0 := if truthy usPrivacy then [("us_privacy", usPrivacy)] else []).
  assert (Hbase : forall v, ~ ("gdpr_applies", v) ∈ params0).
  { intros v. subst params0. destruct (truthy usPrivacy);
      [rewrite list_elem_of_singleton; intros [=]|apply not_elem_of_nil]. }
  assert (Hconsent : forall chosen,
            (if negb (truthy (if negb (truthy supplied) then first else supplied))
             then second
             else if negb (truthy supplied) then first else supplied) = chosen ->
            forall v,
              ("gdpr_consent", v) ∈
                (if truthy chosen
                 then (match consentData with
                       | Some c =>
                           if isBoolean (gdprApplies c)
                           then (params0 ++ [("gdpr_applies", gdprApplies c)])%list
                           else params0
                       | None => params0
                       end ++ [("gdpr_consent", chosen)])%list
                 else match consentData with
                      | Some c =>
                          if isBoolean (gdprApplies c)
                          then (params0 ++ [("gdpr_applies", gdprApplies c)])%list
                          else params0
                      | None => params0
                      end)
              <-> v = chosen /\ truthy chosen = true).
  { intros chosen _ v.
    assert (Hp0 : ~ ("gdpr_consent", v) ∈ params0).
    { subst params0. destruct (truthy usPrivacy);
        [rewrite list_elem_of_singleton; intros [=]|apply not_elem_of_nil]. }
    destruct (truthy chosen) eqn:Hch.
    - rewrite elem_of_app, list_elem_of_singleton, Hother by discriminate.
      split; [intros [Hin|[= ->]]; [contradiction|auto]|].
      intros [-> _]. right. reflexivity.
    - rewrite Hother by discriminate. split; [contradiction|]. intros [_ ?]. discriminate. }
  assert (Hus : forall chosen v,
            ("us_privacy", v) ∈
              (if truthy chosen
               then (match consentData with
                     | Some c =>
                         if isBoolean (gdprApplies c)
                         then (params0 ++ [("gdpr_applies", gdprApplies c)])%list
                         else params0
                     | None => params0
                     end ++ [("gdpr_consent", chosen)])%list
               else match consentData with
                    | Some c =>
                        if isBoolean (gdprApplies c)
                        then (params0 ++ [("gdpr_applies", gdprApplies c)])%list
                        else params0
                    | None => params0
                    end)
            <-> v = usPrivacy /\ truthy usPrivacy = true).
  { intros chosen v.
    assert (Hp0 : ("us_privacy", v) ∈ params0 <-> v = usPrivacy /\ truthy usPrivacy = true).
    { subst params0. destruct (truthy usPrivacy).
      - rewrite list_elem_of_singleton. split; [intros [= ->]; auto|].
        intros [-> _]. reflexivity.
      - rewrite elem_of_nil. split; [contradiction|]. intros [_ ?]. discriminate. }
    destruct (truthy chosen).
    - rewrite elem_of_app, list_elem_of_singleton, Hother by discriminate.
      rewrite Hp0. split; [intros [?|[=]]; assumption|auto].
    - rewrite Hother by discriminate. exact Hp0. }
  assert (Hskip : forall chosen (inner : list (string * JsVal)) k v,
            k <> "gdpr_consent" ->
            (k, v) ∈ (if truthy chosen
                      then (inner ++ [("gdpr_consent", chosen)])%list else inner)
            <-> (k, v) ∈ inner).
  { intros chosen inner k v Hk. destruct (truthy chosen); [|reflexivity].
    rewrite elem_of_app, list_elem_of_singleton. split; [|auto].
    intros [Hin|[= -> _]]; [assumption|contradiction]. }
  split; [intros v; rewrite Hskip by discriminate; apply Happlies; exact Hbase|].
  split.
  { intros Hs v. rewrite (Hconsent _ eq_refl v).
    assert (Hexpr : (if negb (truthy (if negb (truthy supplied) then first else supplied))
                     then second
                     else if negb (truthy supplied) then first else supplied) = supplied) by (rewrite Hs; simpl; now rewrite Hs).
    rewrite Hexpr. split; [intros [? _]; assumption|auto]. }
  split.
  { intros Hs Hf v. rewrite (Hconsent _ eq_refl v).
    assert (Hexpr : (if negb (truthy (if negb (truthy supplied) then first else supplied))
                     then second
                     else if negb (truthy supplied) then first else supplied) = first) by (rewrite Hs; simpl; now rewrite Hf).
    rewrite Hexpr. split; [intros [? _]; assumption|auto]. }
  split.
  { intros Hs Hf Hsec v. rewrite (Hconsent _ eq_refl v).
    assert (Hexpr : (if negb (truthy (if negb (truthy supplied) then first else supplied))
                     then second
                     else if negb (truthy supplied) then first else supplied) = second) by (rewrite Hs; simpl; now rewrite Hf).
    rewrite Hexpr. split; [intros [? _]; assumption|auto]. }
  split.
  { intros Hs Hf Hsec v. rewrite (Hconsent _ eq_refl v).
    assert (Hexpr : (if negb (truthy (if negb (truthy supplied) then first else supplied))
                     then second
                     else if negb (truthy supplied) then first else supplied) = second) by (rewrite Hs; simpl; now rewrite Hf).
    rewrite Hexpr. intros [_ ?]. congruence. }
  split.
  { intros u Hu Hne v. rewrite Hus.
    assert (Hup : usPrivacy = JStr u /\ truthy usPrivacy = true).
    { subst usPrivacy usPrivacy0. rewrite Hu. simpl.
      rewrite eqb_empty_false by assumption. simpl.
      rewrite eqb_empty_false by assumption. simpl.
      rewrite eqb_empty_false by assumption. auto. }
    destruct Hup as [Hup Ht]. rewrite Hup, Hu.
    split; [intros [? _]; assumption|]. intros ->. rewrite <- Hup. auto. }
  { intros Hem v. rewrite Hus.
    assert (Hup : usPrivacy = cached).
    { subst usPrivacy usPrivacy0. rewrite Hem. simpl negb.
      rewrite andb_false_r. reflexivity. }
    rewrite Hup. split; intros [-> ?]; auto. }
Qed.



End ProviderProperties.

(** * The host heuristic *)

Lemma substring_prefix_split (x s : string) :
  substring 0 (String.length x) s = x -> exists post, s = x +:+ post.
Proof.
  revert s. induction x as [|a x IH]; intros s Hs.
  - exists s. reflexivity.
  - destruct s as [|b s]; simpl in Hs; [discriminate|].
    injection Hs as -> Hs. destruct (IH s Hs) as [post ->].
    exists post. reflexivity.
Qed.

Lemma substring_split (n : nat) (x s : string) :
  x <> EmptyString ->
  substring n (String.length x) s = x -> exists pre post, s = pre +:+ x +:+ post.
Proof.
  intros Hx. revert s. induction n as [|n IH]; intros s Hs.
  - destruct (substring_prefix_split x s Hs) as [post ->].
    exists EmptyString, post. reflexivity.
  - destruct s as [|b s]; simpl in Hs; [congruence|].
    destruct (IH s Hs) as (pre & post & ->).
    exists (String b pre), post. reflexivity.
Qed.

Lemma substring_of_occurrence (pre x post : string) :
  substring (String.length pre) (String.length x) (pre +:+ x +:+ post) = x.
Proof.
  induction pre as [|a pre IH].
  - change (EmptyString +:+ x +:+ post) with (x +:+ post). simpl String.length.
    induction x as [|b x IHx]; [destruct post; reflexivity|].
    rewrite append_cons. simpl. now rewrite IHx.
  - rewrite append_cons. simpl. exact IH.
Qed.

(** [s.indexOf(needle) != -1], for a non-empty needle, says that the needle
    occurs in [s]. *)
Lemma contains_occurs (needle s : string) :
  needle <> EmptyString ->
  contains needle s = true <-> exists pre post, s = pre +:+ needle +:+ post.
Proof.
  intros Hn. unfold contains. split.
  - destruct (index 0 needle s) as [m|] eqn:Hi; [|discriminate]. intros _.
    apply (substring_split m); [assumption|]. exact (index_correct1 _ _ _ _ Hi).
  - intros (pre & post & ->).
    destruct (index 0 needle (pre +:+ needle +:+ post)) as [m|] eqn:Hi; [reflexivity|].
    exfalso.
    apply (index_correct3 0 (String.length pre) _ _ Hi Hn); [lia|].
    apply substring_of_occurrence.
Qed.

(** X19.  Host selection.  The request goes to the cookieless host exactly
    when "Safari" occurs in the user agent and "Chrome" does not, and to the
    standard host otherwise (an empty user agent included). *)
Theorem getRequestHost_heuristic `{Host} :
  let occurs needle := exists pre post, navigator_userAgent = pre +:+ needle +:+ post in
  (occurs "Safari" /\ ~ occurs "Chrome" -> getRequestHost = ID_HOST_COOKIELESS)
  /\ (~ (occurs "Safari" /\ ~ occurs "Chrome") -> getRequestHost = ID_HOST)
  /\ (navigator_userAgent = EmptyString -> getRequestHost = ID_HOST).
Proof.
  cbv zeta. unfold getRequestHost, useCookieless.
  pose proof (contains_occurs "Safari" navigator_userAgent ltac:(discriminate)) as HS.
  pose proof (contains_occurs "Chrome" navigator_userAgent ltac:(discriminate)) as HC.
  destruct (contains "Safari" navigator_userAgent) eqn:ES,
           (contains "Chrome" navigator_userAgent) eqn:EC;
    cbn [negb]; rewrite ?andb_false_r, ?andb_true_r.
  - split; [intros [_ Hno]; destruct Hno; apply HC; reflexivity|].
    split; reflexivity.
  - assert (Hua : truthy (JStr navigator_userAgent) = true).
    { destruct (proj1 HS eq_refl) as (pre & post & E). rewrite E.
      rewrite truthy_JStr. apply negb_true_iff. apply String.eqb_neq.
      destruct pre; rewrite ?append_cons; discriminate. }
    rewrite Hua. split; [reflexivity|]. split.
    + intros Hno. destruct Hno. split; [apply HS; reflexivity|].
      intros Hc. apply HC in Hc. discriminate.
    + intros E. rewrite E in Hua. discriminate.
  - split; [intros [Hs _]; apply HS in Hs; discriminate|]. split; reflexivity.
  - split; [intros [Hs _]; apply HS in Hs; discriminate|]. split; reflexivity.
Qed.

(** * What leaves the module decodes *)

Lemma decode_nonempty (v : JsVal) :
  isEmpty v = false -> decode v = Some ("lotamePanoramaId", v).
Proof. destruct v; simpl; intros E; try discriminate E. reflexivity. Qed.

Lemma processResponseIDs_result `{Host} (now : Z) (o : Options) (st : Storage) :
  snd (processResponseIDs now o st) = JUndefined
  \/ (snd (processResponseIDs now o st) = coreId o /\ isStr (coreId o) = true).
Proof.
  unfold processResponseIDs.
  destruct (isStr (coreId o)) eqn:Hcore;
    repeat match goal with |- context [if ?b then _ else _] => destruct b end;
    simpl; auto.
Qed.

(** X20.  Every id the module hands out decodes.  The id [getId] returns
    synchronously and the id a deferred callback passes on at once are
    non-empty strings, which [decode] wraps as [{lotamePanoramaId: id}]; what
    the /id success handler passes to the callback is undefined or a string
    (never null, a number or a boolean), so it decodes unless it is
    undefined. *)
Theorem handed_out_ids_decode `{Host} (now : Z) (w : World) :
  (forall config consentData v,
      fst (getId now config consentData w) = Returned (IdFound v) ->
      isEmpty v = false /\ decode v = Some ("lotamePanoramaId", v))
  /\ (forall c v,
        fst (resolveIdFunction now c w) = Returned (Some v) ->
        isEmpty v = false /\ decode v = Some ("lotamePanoramaId", v))
  /\ (forall cid response,
        exists v,
          fst (idResponseHandler now cid response w) = Returned v
          /\ ((v = JUndefined /\ decode v = None)
              \/ (isStr v = true /\ decode v = Some ("lotamePanoramaId", v)))).
Proof.
  split; [|split].
  - intros config consentData v. rewrite getId_from_storage. cbv zeta.
    destruct (negb (isEmpty _) && num_lt _ _); [discriminate|].
    match goal with
    | |- context [negb (isEmpty (getCurrentPanoId now ?cache))] =>
        destruct (isEmpty (getCurrentPanoId now cache)) eqn:Hempty
    end; simpl; [discriminate|].
    intros [= <-]. split; [exact Hempty|]. apply decode_nonempty, Hempty.
  - intros c v. unfold resolveIdFunction.
    destruct (isEmpty (getCurrentPanoId now (clo_localCache c))) eqn:Hempty; simpl.
    + unfold mbind, M_bind.
      destruct (getConsentParameters_run now (clo_consentData c) w) as [ps ->].
      simpl. discriminate.
    + intros [= <-]. split; [exact Hempty|]. apply decode_nonempty, Hempty.
  - intros cid response. unfold idResponseHandler, mbind, M_bind.
    destruct (handleResponse_returns now cid response w) as (v & w' & Hrun & _).
    rewrite Hrun. simpl. exists v. split; [reflexivity|].
    revert Hrun. unfold handleResponse.
    destruct (truthy (JStr response)).
    + unfold try_catch, mbind, M_bind, liftOutcome.
      destruct (JSON_parse response) as [r|e].
      * unfold stepStorage.
        match goal with
        | |- context [processResponseIDs now ?o (storage w)] =>
            destruct (processResponseIDs_result now o (storage w)) as [Hu | [Hc Hs]];
            destruct (processResponseIDs now o (storage w)) as [st' res]
        end; simpl in *; intros [= <- _].
        -- left. subst res. split; reflexivity.
        -- right. subst res. split; [exact Hs|].
           destruct (core_id r); try discriminate Hs. reflexivity.
      * unfold logError, mret, M_ret. simpl. intros [= <- _]. left. split; reflexivity.
    + unfold mret, M_ret. intros [= <- _]. left. split; reflexivity.
Qed.

(** * Storage reads that throw *)

Section ThrowingReads.
Context `{Host}.
Variable getCookie_error : string -> option JsError.

Lemma getCookie_returns (key : string) (w : World) :
  cookiesEnabled (storage w) = false \/ getCookie_error key = None ->
  Throwing.getCookie getCookie_error key w = (Returned tt, w).
Proof.
  unfold Throwing.getCookie, cookiesAreEnabled.
  intros [-> | ->]; [reflexivity|]. destruct (cookiesEnabled _); reflexivity.
Qed.

Lemma getCookie_throws (key : string) (e : JsError) (w : World) :
  cookiesEnabled (storage w) = true -> getCookie_error key = Some e ->
  Throwing.getCookie getCookie_error key w = (Threw e, w).
Proof.
  unfold Throwing.getCookie, cookiesAreEnabled. intros -> ->. reflexivity.
Qed.

Lemma getFromStorage_returns (now : Z) (key : string) (w : World) :
  cookiesEnabled (storage w) = false \/ getCookie_error key = None ->
  Throwing.getFromStorage getCookie_error now key w
  = (Returned (getFromStorage now key (storage w)), w).
Proof.
  intros Hok. unfold Throwing.getFromStorage, mbind, M_bind.
  rewrite (getCookie_returns key w Hok). reflexivity.
Qed.

Lemma getFromStorage_throws (now : Z) (key : string) (e : JsError) (w : World) :
  cookiesEnabled (storage w) = true -> getCookie_error key = Some e ->
  Throwing.getFromStorage getCookie_error now key w = (Threw e, w).
Proof.
  intros Hc He. unfold Throwing.getFromStorage, mbind, M_bind.
  rewrite (getCookie_throws key e w Hc He). reflexivity.
Qed.

Ltac run_reads :=
  unfold Throwing.getLotameLocalCache, Throwing.getFromStorage,
    Throwing.getProfileId, Throwing.getCookie, cookiesAreEnabled, try_catch,
    readStorage, logError, mbind, M_bind, mret, M_ret.

Lemma getLotameLocalCache_unguarded (now : Z) (cid : JsVal) (e : JsError) (w : World) :
  cookiesEnabled (storage w) = true -> getCookie_error KEY_ID = Some e ->
  Throwing.getLotameLocalCache getCookie_error now cid w = (Threw e, w).
Proof. intros Hc He. run_reads. rewrite Hc, He. reflexivity. Qed.

Lemma getLotameLocalCache_guarded (now : Z) (cid : JsVal) (w : World) :
  cookiesEnabled (storage w) = false \/ getCookie_error KEY_ID = None ->
  exists cache w',
    Throwing.getLotameLocalCache getCookie_error now cid w = (Returned cache, w')
    /\ data cache = getFromStorage now KEY_ID (storage w)
    /\ storage w' = storage w /\ requests w' = requests w
    /\ (logs w' = logs w \/ exists e, logs w' = (logs w ++ [LogError e])%list)
    /\ (forall e, cookiesEnabled (storage w) = true ->
          getCookie_error KEY_EXPIRY = Some e ->
          truthy cid = false \/ getCookie_error (clientExpiryKey cid) = None ->
          logs w' = (logs w ++ [LogError e])%list
          /\ expiryTimestampMs cache = Num 0).
Proof.
  intros Hok. run_reads.
  destruct (cookiesEnabled (storage w)) eqn:Hc.
  - destruct Hok as [Hok | Hok]; [discriminate|]. rewrite Hok.
    destruct (truthy cid) eqn:Ht;
      [destruct (getCookie_error (clientExpiryKey cid)) as [ec|] eqn:Ec|];
      destruct (getCookie_error KEY_EXPIRY) as [ee|] eqn:Ee;
      do 3 (simpl; rewrite ?Hc, ?Ee; simpl;
            repeat match goal with
                   | |- context [if isStr ?v then _ else _] => destruct (isStr v)
                   end);
      eexists _, _; (split; [reflexivity|]); simpl;
      (split; [reflexivity|]); (split; [reflexivity|]); (split; [reflexivity|]);
      (split; [first [left; reflexivity | right; eexists; reflexivity]|]);
      intros e _ He Hcl; try discriminate He;
      try (destruct Hcl as [Hcl | Hcl]; discriminate Hcl);
      injection He as <-; split; reflexivity.
  - destruct (truthy cid);
      do 3 (simpl; rewrite ?Hc; simpl;
            repeat match goal with
                   | |- context [if isStr ?v then _ else _] => destruct (isStr v)
                   end);
      eexists _, _; (split; [reflexivity|]); simpl;
      (split; [reflexivity|]); (split; [reflexivity|]); (split; [reflexivity|]);
      (split; [left; reflexivity|]); intros e He; discriminate He.
Qed.

Lemma sendUserData_effects (cfg : ConfigParams) (w : World) :
  exists rs,
    sendUserData cfg w
    = (Returned tt, mkWorld (storage w) (logs w) (requests w ++ rs))
    /\ (length rs <= 1)%nat.
Proof.
  unfold sendUserData, ajax, mret, M_ret.
  destruct (negb (isEmpty (params_clientId cfg)) && negb (isEmpty _)).
  - eexists. split; [reflexivity|]. simpl. lia.
  - exists []. rewrite app_nil_r. split; [destruct w; reflexivity|]. simpl. lia.
Qed.

(** C9 (the defect).  The cache load reads the id before its [try] block and
    the expiry records inside it.  With cookies enabled, an error thrown by
    the cookie read of the id leaves [getId] as it is: the call throws and
    nothing is logged.  The same error thrown by the read of the expiry
    record is caught: [getId] returns normally and the error is logged. *)
Theorem getId_throws_on_unguarded_read (now : Z) (config : option ConfigParams)
    (consentData : option ConsentData) (w : World) :
  cookiesEnabled (storage w) = true ->
  let cid := params_clientId (paramsOf config) in
  (forall e, getCookie_error KEY_ID = Some e ->
     Throwing.getId getCookie_error now config consentData w = (Threw e, w))
  /\ (forall e, getCookie_error KEY_ID = None ->
        getCookie_error KEY_EXPIRY = Some e ->
        truthy cid = false \/ getCookie_error (clientExpiryKey cid) = None ->
        getCookie_error KEY_PROFILE = None ->
        exists r w',
          Throwing.getId getCookie_error now config consentData w = (Returned r, w')
          /\ storage w' = storage w
          /\ logs w' = (logs w ++ [LogError e])%list).
Proof.
  intros Hc. cbv zeta. split.
  - intros e He. unfold Throwing.getId. cbv zeta. unfold mbind at 1, M_bind at 1.
    rewrite (getLotameLocalCache_unguarded now _ e w Hc He). reflexivity.
  - intros e Hid He Hcl Hp. unfold Throwing.getId. cbv zeta.
    unfold mbind at 1, M_bind at 1.
    destruct (getLotameLocalCache_guarded now (params_clientId (paramsOf config)) w
                (or_intror Hid))
      as (cache & w1 & -> & _ & Hs & _ & _ & Hcaught).
    destruct (Hcaught e Hc He Hcl) as [Hlog _].
    destruct (negb (isEmpty _) && num_lt _ _).
    + eexists _, _. split; [reflexivity|]. split; assumption.
    + unfold mbind at 1, M_bind at 1.
      destruct (sendUserData_effects (paramsOf config) w1) as (rs & -> & _).
      destruct (negb (isEmpty (getCurrentPanoId now cache))).
      * eexists _, _. split; [reflexivity|]. split; assumption.
      * run_reads. simpl. rewrite Hp.
        destruct (cookiesEnabled (storage w1));
          eexists _, _; (split; [reflexivity|]); split; assumption.
Qed.

(** With no read that throws, the functions over throwing reads are the
    functions of the cache model. *)
Lemma getId_without_errors (now : Z) (config : option ConfigParams)
    (consentData : option ConsentData) (w : World) :
  (forall key, getCookie_error key = None) ->
  Throwing.getId getCookie_error now config consentData w
  = getId now config consentData w.
Proof.
  intros Hnone.
  assert (Hload : forall cid,
             Throwing.getLotameLocalCache getCookie_error now cid w
             = getLotameLocalCache now cid w).
  { intros cid. unfold getLotameLocalCache. run_reads. rewrite !Hnone.
    destruct (cookiesEnabled (storage w)) eqn:Hc; simpl;
      destruct (truthy cid); simpl; rewrite ?Hc; simpl;
      repeat match goal with
             | |- context [if isStr ?v then _ else _] =>
                 destruct (isStr v); simpl; rewrite ?Hc; simpl
             end; reflexivity. }
  unfold Throwing.getId, getId. cbv zeta.
  unfold mbind, M_bind. rewrite Hload.
  destruct (getLotameLocalCache _ _ w) as [[cache|e] w1]; [|reflexivity].
  destruct (negb (isEmpty _) && num_lt _ _); [reflexivity|].
  destruct (sendUserData (paramsOf config) w1) as [[[]|e] w2]; [|reflexivity].
  destruct (negb (isEmpty (getCurrentPanoId now cache))); [reflexivity|].
  run_reads. rewrite Hnone. destruct (cookiesEnabled (storage w2)); reflexivity.
Qed.

(** X14.  [getId] and the deferred callback only read the cache.  Whatever
    the cookie reads throw, [getId] leaves the storage as it is, logs at most
    one error (that of a read caught while the cache is loaded) and adds at
    most one request; the callback changes neither the storage nor the log
    and adds at most one request. *)
Theorem getId_only_reads_storage (now : Z) (w : World) :
  (forall config consentData,
      let w' := snd (Throwing.getId getCookie_error now config consentData w) in
      storage w' = storage w
      /\ (logs w' = logs w \/ exists e, logs w' = (logs w ++ [LogError e])%list)
      /\ exists rs, requests w' = (requests w ++ rs)%list /\ (length rs <= 1)%nat)
  /\ (forall c,
        let w' := snd (resolveIdFunction now c w) in
        storage w' = storage w /\ logs w' = logs w
        /\ exists rs, requests w' = (requests w ++ rs)%list /\ (length rs <= 1)%nat).
Proof.
  split.
  - intros config consentData. cbv zeta.
    remember (Throwing.getId getCookie_error now config consentData w) as run eqn:Hrun.
    unfold Throwing.getId in Hrun. cbv zeta in Hrun.
    unfold mbind at 1, M_bind at 1 in Hrun.
    assert (Hnil : exists rs, requests w = (requests w ++ rs)%list
                              /\ (length rs <= 1)%nat).
    { exists []. rewrite app_nil_r. split; [reflexivity|]. simpl. lia. }
    destruct (cookiesEnabled (storage w)) eqn:Hc;
      [destruct (getCookie_error KEY_ID) as [e|] eqn:Hid|].
    + rewrite (getLotameLocalCache_unguarded now _ e w Hc Hid) in Hrun.
      subst run. simpl. auto.
    + destruct (getLotameLocalCache_guarded now (params_clientId (paramsOf config)) w
                  (or_intror Hid)) as (cache & w1 & Hload & _ & Hs & Hr & Hl & _).
      rewrite Hload in Hrun.
      destruct (negb (isEmpty _) && num_lt _ _).
      { subst run. simpl. rewrite Hs, Hr. auto. }
      unfold mbind at 1, M_bind at 1 in Hrun.
      destruct (sendUserData_effects (paramsOf config) w1) as (rs & Hsend & Hrs).
      rewrite Hsend in Hrun.
      assert (Hreq : exists rs', (requests w1 ++ rs)%list = (requests w ++ rs')%list
                                 /\ (length rs' <= 1)%nat).
      { exists rs. rewrite Hr. auto. }
      destruct (negb (isEmpty (getCurrentPanoId now cache))).
      { subst run. simpl. auto. }
      revert Hrun. run_reads. simpl.
      destruct (cookiesEnabled (storage w1)); [destruct (getCookie_error KEY_PROFILE)|];
        intros ->; simpl; auto.
    + destruct (getLotameLocalCache_guarded now (params_clientId (paramsOf config)) w
                  (or_introl Hc)) as (cache & w1 & Hload & _ & Hs & Hr & Hl & _).
      rewrite Hload in Hrun.
      destruct (negb (isEmpty _) && num_lt _ _).
      { subst run. simpl. rewrite Hs, Hr. auto. }
      unfold mbind at 1, M_bind at 1 in Hrun.
      destruct (sendUserData_effects (paramsOf config) w1) as (rs & Hsend & Hrs).
      rewrite Hsend in Hrun.
      assert (Hreq : exists rs', (requests w1 ++ rs)%list = (requests w ++ rs')%list
                                 /\ (length rs' <= 1)%nat).
      { exists rs. rewrite Hr. auto. }
      destruct (negb (isEmpty (getCurrentPanoId now cache))).
      { subst run. simpl. auto. }
      revert Hrun. run_reads. simpl.
      destruct (cookiesEnabled (storage w1)); [destruct (getCookie_error KEY_PROFILE)|];
        intros ->; simpl; auto.
  - intros c. cbv zeta. unfold resolveIdFunction.
    destruct (negb (isEmpty _)).
    + simpl. split; [reflexivity|]. split; [reflexivity|]. exists [].
      rewrite app_nil_r. split; [reflexivity|]. simpl. lia.
    + unfold mbind, M_bind.
      destruct (getConsentParameters_run now (clo_consentData c) w) as [ps ->].
      simpl. split; [reflexivity|]. split; [reflexivity|]. eexists.
      split; [reflexivity|]. simpl. lia.
Qed.

End ThrowingReads.

(** * Concrete runs *)

#[local] Existing Instance sampleHost.

(** C1, as stated, fails: an empty [profile_id] with a [core_id] saves and
    returns the CoreId; an empty [core_id] leaves the cached CoreId in
    place and is itself returned. *)
Lemma identity_rules_counterexample :
  let run := processResponseIDs sampleNow emptyProfileResponse emptyStorage in
  let run' := processResponseIDs sampleNow emptyCoreResponse storedIdentity in
  (isEmpty (profileId emptyProfileResponse) = true
   /\ snd run = JStr "abc"
   /\ getFromStorage (sampleNow + 1000) KEY_ID (fst run) = JStr "abc")
  /\ (isEmpty (coreId emptyCoreResponse) = true
      /\ snd run' = JStr EmptyString
      /\ getFromStorage (sampleNow + 1000) KEY_ID (fst run') = JStr "abc").
Proof. vm_compute. repeat split; reflexivity. Qed.

Lemma processResponseIDs_identity_rules_witness :
  let st' := fst (processResponseIDs sampleNow grantResponse emptyStorage) in
  0 <= sampleNow
  /\ isEmpty (clientId grantResponse) = true
  /\ snd (processResponseIDs sampleNow grantResponse emptyStorage) = JStr "abc"
  /\ getProfileId (sampleNow + 1000) st' = JStr "p1"
  /\ getFromStorage (sampleNow + 1000) KEY_ID st' = JStr "abc"
  /\ getFromStorage sampleExpiry KEY_ID st' = JNull.
Proof.
  assert (Hnow : 0 <= sampleNow) by (unfold sampleNow; lia).
  assert (Hgate : isEmpty (clientId grantResponse) = true
                  \/ consentIsErrorFree grantResponse = true
                  \/ noConsent grantResponse <> JStr "CLIENT") by (left; reflexivity).
  destruct (processResponseIDs_identity_rules sampleNow grantResponse emptyStorage Hnow Hgate)
    as [Hstring _].
  destruct (Hstring eq_refl) as (Hprofile & Hcore & _).
  destruct (Hcore eq_refl) as [Hret Hsaved].
  destruct (Hsaved "abc" sampleExpiry eq_refl ltac:(discriminate)
              (or_introl eq_refl) ltac:(vm_compute; discriminate))
    as (Hexpired & Hfresh & _).
  cbv zeta. split; [exact Hnow|]. split; [reflexivity|]. split; [exact Hret|].
  split; [|split].
  - apply (Hprofile eq_refl "p1" eq_refl ltac:(discriminate) (or_introl eq_refl)).
    unfold sampleNow, NINE_MONTHS_MS. lia.
  - apply (Hfresh eq_refl). unfold sampleExpiry, sampleNow. lia.
  - apply Hexpired. lia.
Defined.

(** C2, as stated, fails: a clientId configured as a number is truthy, so
    its suppression expiry is loaded, but [isEmpty(7)] is true, so the
    suppression check is skipped and the cached id is returned. *)
Lemma numeric_clientId_counterexample :
  let now := sampleNow + 1000 in
  let w := worldOf suppressedClient in
  getLotameLocalCache now (params_clientId numericClient7) w
  = (Returned (mkLocalCache (JStr "abc") (Num sampleExpiry) (Num sampleExpiry)), w)
  /\ num_lt (Num now) (Num sampleExpiry) = true
  /\ fst (getId now (Some numericClient7) None w) = Returned (IdFound (JStr "abc"))
  /\ fst (getId now (Some numericClient7) None w) <> Returned NoClientConsent.
Proof.
  cbv zeta. split; [vm_compute; reflexivity|]. split; [vm_compute; reflexivity|].
  split; [vm_compute; reflexivity|]. vm_compute. discriminate.
Qed.

Lemma getId_client_suppression_witness :
  let now := sampleNow + 1000 in
  let w := worldOf suppressedClient in
  let cache := mkLocalCache (JStr "abc") (Num sampleExpiry) (Num sampleExpiry) in
  isEmpty (params_clientId client7) = false
  /\ getLotameLocalCache now (params_clientId client7) w = (Returned cache, w)
  /\ num_lt (Num now) (clientExpiryTimestampMs cache) = true
  /\ getCurrentPanoId now cache = JStr "abc"
  /\ getId now (Some client7) None w = (Returned NoClientConsent, w).
Proof.
  cbv zeta.
  assert (Hload : getLotameLocalCache (sampleNow + 1000) (params_clientId client7)
                    (worldOf suppressedClient)
                  = (Returned (mkLocalCache (JStr "abc") (Num sampleExpiry) (Num sampleExpiry)),
                     worldOf suppressedClient)) by (vm_compute; reflexivity).
  split; [reflexivity|]. split; [exact Hload|]. split; [reflexivity|].
  split; [reflexivity|].
  apply (getId_client_suppression (sampleNow + 1000) client7 None _ _ _ eq_refl Hload).
  reflexivity.
Defined.

(** C3, as stated, fails: without [expiry_ts] no suppression entry is
    written. *)
Lemma client_no_consent_counterexample :
  let key := clientExpiryKey (clientId clientDeniedNoExpiry) in
  let st' := fst (processResponseIDs sampleNow clientDeniedNoExpiry emptyStorage) in
  isEmpty (clientId clientDeniedNoExpiry) = false
  /\ consentIsErrorFree clientDeniedNoExpiry = false
  /\ noConsent clientDeniedNoExpiry = JStr "CLIENT"
  /\ st' = emptyStorage
  /\ cookieJar st' !! key = None
  /\ localData st' !! key = None
  /\ getFromStorage (sampleNow + 1000) key st' = JNull.
Proof. vm_compute. repeat split; reflexivity. Qed.

Lemma client_no_consent_stops_witness :
  let key := clientExpiryKey (clientId clientDeniedResponse) in
  let st' := fst (processResponseIDs sampleNow clientDeniedResponse storedIdentity) in
  isEmpty (clientId clientDeniedResponse) = false
  /\ consentIsErrorFree clientDeniedResponse = false
  /\ noConsent clientDeniedResponse = JStr "CLIENT"
  /\ snd (processResponseIDs sampleNow clientDeniedResponse storedIdentity) = JUndefined
  /\ getFromStorage (sampleNow + 1000) key st' = JStr (Z_to_string sampleExpiry)
  /\ getFromStorage (sampleNow + 1000) KEY_ID st'
     = getFromStorage (sampleNow + 1000) KEY_ID storedIdentity.
Proof.
  cbv zeta.
  destruct (client_no_consent_stops sampleNow clientDeniedResponse storedIdentity
              eq_refl eq_refl eq_refl) as (Hret & _ & _ & Hwritten & _ & Hframe).
  destruct (Hwritten sampleExpiry eq_refl ltac:(vm_compute; discriminate)
              ltac:(vm_compute; discriminate)) as (Hfresh & _ & _).
  split; [reflexivity|]. split; [reflexivity|]. split; [reflexivity|].
  split; [exact Hret|]. split.
  - apply (Hfresh eq_refl). unfold sampleExpiry. lia.
  - apply (Hframe ltac:(vm_compute; discriminate) (sampleNow + 1000)).
Defined.

(** C4, as stated, fails: a fresh cached id is not returned while the
    client's suppression window is active. *)
Lemma getId_freshness_counterexample :
  let now := sampleNow + 1000 in
  let w := worldOf suppressedClient in
  getLotameLocalCache now (JStr "7") w
  = (Returned (mkLocalCache (JStr "abc") (Num sampleExpiry) (Num sampleExpiry)), w)
  /\ now <= sampleExpiry
  /\ fst (getId now (Some client7) None w) = Returned NoClientConsent
  /\ fst (getId now (Some client7) None w) <> Returned (IdFound (JStr "abc")).
Proof.
  cbv zeta. split; [vm_compute; reflexivity|].
  split; [unfold sampleExpiry; lia|].
  split; [vm_compute; reflexivity|]. vm_compute. discriminate.
Qed.

Lemma getId_freshness_witness :
  let now := 1700086400000 in
  let w := worldOf legacyIdentity in
  let cache := mkLocalCache (JStr "abc") (Num 1700086400000) (Num 0) in
  getLotameLocalCache now JUndefined w = (Returned cache, w)
  /\ now <= 1700086400000
  /\ fst (getId now None None w) = Returned (IdFound (JStr "abc"))
  /\ exists callback, fst (getId (now + 1) None None w) = Returned (Deferred callback).
Proof.
  cbv zeta.
  assert (Hload : forall t, getLotameLocalCache t JUndefined (worldOf legacyIdentity)
                  = (Returned (mkLocalCache (JStr "abc") (Num 1700086400000) (Num 0)),
                     worldOf legacyIdentity)).
  { intros t. rewrite getLotameLocalCache_run. reflexivity. }
  split; [apply Hload|]. split; [lia|]. split.
  - apply (getId_freshness 1700086400000 None None _ _ _ "abc" 1700086400000
             (Hload _) eq_refl ltac:(discriminate) eq_refl eq_refl).
    lia.
  - apply (getId_freshness (1700086400000 + 1) None None _ _ _ "abc" 1700086400000
             (Hload _) eq_refl ltac:(discriminate) eq_refl eq_refl).
    lia.
Defined.

(** C5, as stated, fails: under an active suppression window [getId] issues
    no request, though [sendUserData] would. *)
Lemma side_call_counterexample :
  let now := sampleNow + 1000 in
  let w := worldOf suppressedClient in
  fst (getId now (Some client7) None w) = Returned NoClientConsent
  /\ requests (snd (getId now (Some client7) None w)) = []
  /\ requests (snd (sendUserData client7 w)) <> [].
Proof.
  cbv zeta. split; [vm_compute; reflexivity|]. split; [vm_compute; reflexivity|].
  vm_compute. discriminate.
Qed.

Lemma getId_side_call_witness :
  let now := sampleNow + 1000 in
  let w := worldOf storedIdentity in
  getLotameLocalCache now (JStr "7") w
  = (Returned (mkLocalCache (JStr "abc") (Num sampleExpiry) (Num 0)), w)
  /\ fst (getId now (Some client7) None w) = Returned (IdFound (JStr "abc"))
  /\ snd (getId now (Some client7) None w) = snd (sendUserData client7 w)
  /\ length (requests (snd (sendUserData client7 w))) = 1%nat.
Proof.
  cbv zeta.
  assert (Hload : getLotameLocalCache (sampleNow + 1000) (JStr "7") (worldOf storedIdentity)
                  = (Returned (mkLocalCache (JStr "abc") (Num sampleExpiry) (Num 0)),
                     worldOf storedIdentity)) by (vm_compute; reflexivity).
  split; [exact Hload|]. split; [vm_compute; reflexivity|]. split.
  - destruct (getId_side_call (sampleNow + 1000) (Some client7) None _ _ _ Hload)
      as (_ & Hcall & _).
    apply Hcall. vm_compute. reflexivity.
  - vm_compute. reflexivity.
Defined.

(** C6, as stated, fails: the field becomes NaN, not 0, and nothing is
    logged. *)
Lemma malformed_client_expiry_counterexample :
  let w := worldOf malformedSuppression in
  getFromStorage sampleNow (clientExpiryKey (JStr "7")) (storage w) = JStr "soon"
  /\ parseInt "soon" = NaN
  /\ getLotameLocalCache sampleNow (JStr "7") w
     = (Returned (mkLocalCache JNull (Num 0) NaN), w)
  /\ NaN <> Num 0
  /\ logs w = [].
Proof. cbv zeta. repeat split; try (vm_compute; reflexivity). discriminate. Qed.

Lemma malformed_client_expiry_witness :
  let w := worldOf malformedSuppression in
  truthy (params_clientId client7) = true
  /\ getFromStorage sampleNow (clientExpiryKey (params_clientId client7)) (storage w)
     = JStr "soon"
  /\ parseInt "soon" = NaN
  /\ exists cache,
       getLotameLocalCache sampleNow (params_clientId client7) w = (Returned cache, w)
       /\ clientExpiryTimestampMs cache = NaN
       /\ num_lt (Num sampleNow) (clientExpiryTimestampMs cache) = false
       /\ fst (getId sampleNow (Some client7) None w) <> Returned NoClientConsent.
Proof.
  cbv zeta.
  assert (Hraw : getFromStorage sampleNow (clientExpiryKey (params_clientId client7))
                   (storage (worldOf malformedSuppression)) = JStr "soon")
    by (vm_compute; reflexivity).
  split; [reflexivity|]. split; [exact Hraw|]. split; [reflexivity|].
  exact (malformed_client_expiry_loads_NaN sampleNow client7 None
           (worldOf malformedSuppression) "soon" eq_refl Hraw eq_refl).
Defined.

(** C7, as stated, fails: written at ...999 ms, the cookie expires at the
    whole second, 1 ms later; with local storage disabled the read 500 ms
    after the write is absent. *)
Lemma round_trip_counterexample :
  let now := 1700000000999 in
  let st' := saveLotameCache now "K" (JStr "V") (JNum (Num (now + 1000))) emptyStorage in
  cookieJar st' !! "K" = Some (mkCookie "V" (Some 1700000001000))
  /\ getFromStorage (now + 500) "K" (disableLocalStorage st') = JNull
  /\ getFromStorage (now + 500) "K" (disableLocalStorage st') <> JStr "V".
Proof.
  cbv zeta. split; [vm_compute; reflexivity|]. split; [vm_compute; reflexivity|].
  vm_compute. discriminate.
Qed.

Lemma write_read_round_trip_witness :
  let now := sampleNow in
  let st' := saveLotameCache now "K" (JStr "V") (JNum (Num (now + 1000))) emptyStorage in
  0 <= now /\ now + 1000 <= MAX_TIME_VALUE
  /\ getFromStorage (now + 500) "K" st' = JStr "V"
  /\ getFromStorage (now + 500) "K" (disableCookies st') = JStr "V"
  /\ getFromStorage (now + 500) "K" (disableLocalStorage st') = JStr "V"
  /\ getFromStorage (now + 2000) "K" (disableLocalStorage st') = JNull.
Proof.
  cbv zeta.
  assert (Hnow : 0 <= sampleNow) by (unfold sampleNow; lia).
  assert (Hmax : sampleNow + 1000 <= MAX_TIME_VALUE)
    by (unfold sampleNow, MAX_TIME_VALUE; lia).
  destruct (write_read_round_trip sampleNow "K" "V" emptyStorage
              ltac:(discriminate) ltac:(discriminate) Hnow Hmax eq_refl eq_refl)
    as (Hlate & Hboth & Hlocal & Hcookie).
  split; [exact Hnow|]. split; [exact Hmax|]. split; [exact Hboth|].
  split; [exact Hlocal|]. split.
  - rewrite Hcookie. reflexivity.
  - apply Hlate. right. right. reflexivity.
Defined.

(** C8.  The deferred callback checks the snapshot taken by [getId], not the
    cache: built over an empty cache and invoked after a fresh CoreId "abc"
    was stored (a new [getId] returns it synchronously), it calls nobody
    back and issues the /id request. *)
Lemma deferred_callback_stale_snapshot :
  let w0 := worldOf emptyStorage in
  let w1 := worldOf storedIdentity in
  exists callback,
    fst (getId (sampleNow - 1000) None None w0) = Returned (Deferred callback)
    /\ fst (getId (sampleNow + 1000) None None w1) = Returned (IdFound (JStr "abc"))
    /\ fst (resolveIdFunction (sampleNow + 1000) callback w1) = Returned None
    /\ requests (snd (resolveIdFunction (sampleNow + 1000) callback w1))
       = [AjaxGet (mkUrl "https" ID_HOST "/id" None) JUndefined].
Proof.
  cbv zeta. eexists. split; [vm_compute; reflexivity|].
  split; [vm_compute; reflexivity|]. split; vm_compute; reflexivity.
Qed.

Lemma public_operations_never_throw_witness :
  let w := worldOf storedIdentity in
  JSON_parse "<html>Bad Gateway</html>" = Threw (SyntaxError "<html>Bad Gateway</html>")
  /\ exists v w',
       idResponseHandler sampleNow JUndefined "<html>Bad Gateway</html>" w = (Returned v, w')
       /\ v = JUndefined
       /\ storage w' = storage w
       /\ logs w' = [LogError (SyntaxError "<html>Bad Gateway</html>")].
Proof.
  cbv zeta. split; [reflexivity|].
  destruct (public_operations_never_throw sampleNow (worldOf storedIdentity))
    as (_ & _ & Hid & _).
  destruct (Hid JUndefined "<html>Bad Gateway</html>") as (v & w' & Hrun & Hthrow).
  destruct (Hthrow _ eq_refl) as (Hv & Hst & Hlog).
  exists v, w'. split; [exact Hrun|]. split; [exact Hv|]. split; [exact Hst|].
  apply Hlog. discriminate.
Defined.

(** C10, as stated, fails: under an active suppression window the call
    does not take the deferred path. *)
Lemma without_expiry_record_counterexample :
  let now := sampleNow + 1000 in
  let w := worldOf identityWithoutExpirySuppressed in
  getFromStorage now KEY_ID (storage w) = JStr "abc"
  /\ isStr (getFromStorage now KEY_EXPIRY (storage w)) = false
  /\ fst (getId now (Some client7) None w) = Returned NoClientConsent
  /\ forall callback, fst (getId now (Some client7) None w) <> Returned (Deferred callback).
Proof.
  cbv zeta. split; [vm_compute; reflexivity|]. split; [vm_compute; reflexivity|].
  split; [vm_compute; reflexivity|]. intros callback. vm_compute. discriminate.
Qed.

Lemma getId_without_expiry_record_witness :
  let now := sampleNow + 1000 in
  let w := worldOf identityWithoutExpiry in
  0 < now
  /\ getFromStorage now KEY_ID (storage w) = JStr "abc"
  /\ isStr (getFromStorage now KEY_EXPIRY (storage w)) = false
  /\ (forall v, fst (getId now None None w) <> Returned (IdFound v))
  /\ exists callback, fst (getId now None None w) = Returned (Deferred callback).
Proof.
  cbv zeta.
  assert (Hnow : 0 < sampleNow + 1000) by (unfold sampleNow; lia).
  assert (Hid : getFromStorage (sampleNow + 1000) KEY_ID
                  (storage (worldOf identityWithoutExpiry)) = JStr "abc")
    by (vm_compute; reflexivity).
  assert (Hexp : isStr (getFromStorage (sampleNow + 1000) KEY_EXPIRY
                          (storage (worldOf identityWithoutExpiry))) = false)
    by (vm_compute; reflexivity).
  destruct (getId_without_expiry_record (sampleNow + 1000) None None _ _ _ "abc"
              Hnow Hid Hexp (getLotameLocalCache_run _ _ _))
    as (_ & _ & _ & Hnever & Hdeferred & _).
  split; [exact Hnow|]. split; [exact Hid|]. split; [exact Hexp|].
  split; [exact Hnever|]. apply Hdeferred. reflexivity.
Defined.

(** ** Runs of the cache and provider properties *)

Lemma getFromStorage_trusts_entry_without_expiry_witness :
  localStorageEnabled legacyIdentity = true
  /\ localData legacyIdentity !! (KEY_ID +:+ "_exp") = None
  /\ getFromStorage (2 * sampleNow) KEY_ID legacyIdentity = JStr "abc".
Proof.
  split; [reflexivity|]. split; [vm_compute; reflexivity|].
  rewrite (getFromStorage_trusts_entry_without_expiry (2 * sampleNow) KEY_ID
             legacyIdentity eq_refl (fun _ => eq_refl)
             ltac:(left; vm_compute; reflexivity)).
  vm_compute. reflexivity.
Defined.

Lemma getFromStorage_unreadable_expiry_hides_entry_witness :
  getDataFromLocalStorage KEY_ID unreadableCompanion = JStr "abc"
  /\ parseInt "soon" = NaN
  /\ getFromStorage sampleNow KEY_ID unreadableCompanion = JNull.
Proof.
  split; [vm_compute; reflexivity|]. split; [reflexivity|].
  apply (getFromStorage_unreadable_expiry_hides_entry sampleNow KEY_ID "soon"
           unreadableCompanion (fun _ => eq_refl)
           ltac:(vm_compute; reflexivity) ltac:(discriminate) eq_refl).
Defined.

Lemma getFromStorage_prefers_cookie_witness :
  getDataFromLocalStorage KEY_ID cookieOverLocal = JStr "fromLocal"
  /\ getFromStorage sampleNow KEY_ID cookieOverLocal = JStr "fromCookie".
Proof.
  split; [vm_compute; reflexivity|].
  apply (getFromStorage_prefers_cookie sampleNow KEY_ID (mkCookie "fromCookie" None)
           cookieOverLocal eq_refl ltac:(vm_compute; reflexivity) eq_refl).
Defined.

Lemma clearLotameCache_removes_only_the_entry_witness :
  let st' := clearLotameCache (sampleNow + 1000) KEY_ID storedIdentity in
  getFromStorage (sampleNow + 1000) KEY_ID storedIdentity = JStr "abc"
  /\ getFromStorage (sampleNow + 2000) KEY_ID st' = JNull
  /\ localData st' !! (KEY_ID +:+ "_exp") = Some (Z_to_string sampleExpiry)
  /\ getFromStorage (sampleNow + 2000) KEY_PROFILE st' = JStr "p1".
Proof.
  cbv zeta.
  destruct (clearLotameCache_removes_only_the_entry (sampleNow + 1000) KEY_ID
              storedIdentity ltac:(unfold sampleNow; lia) ltac:(discriminate))
    as (Hgone & Hcompanion & Hframe).
  split; [vm_compute; reflexivity|]. split; [apply Hgone|]. split.
  - rewrite Hcompanion. vm_compute. reflexivity.
  - rewrite (Hframe KEY_PROFILE (sampleNow + 2000) ltac:(discriminate)
               ltac:(vm_compute; discriminate)).
    vm_compute. reflexivity.
Defined.

Lemma saveLotameCache_last_write_wins_witness :
  truthy (JStr "new") = true
  /\ saveLotameCache sampleNow KEY_ID (JStr "new") (JNum (Num sampleExpiry))
       (saveLotameCache sampleNow KEY_ID (JStr "old") JUndefined emptyStorage)
     = saveLotameCache sampleNow KEY_ID (JStr "new") (JNum (Num sampleExpiry))
         emptyStorage.
Proof.
  split; [reflexivity|].
  apply (saveLotameCache_last_write_wins sampleNow KEY_ID (JStr "old") JUndefined
           (JStr "new") (JNum (Num sampleExpiry)) emptyStorage eq_refl).
Defined.

Lemma saveLotameCache_default_expiry_witness :
  let st' := saveLotameCache sampleNow KEY_ID (JStr "abc") JUndefined emptyStorage in
  getFromStorage (sampleNow + 7 * 86400000 - 1) KEY_ID st' = JStr "abc"
  /\ getFromStorage (sampleNow + 7 * 86400000) KEY_ID st' = JNull.
Proof.
  cbv zeta.
  destruct (saveLotameCache_default_expiry sampleNow KEY_ID (JStr "abc") emptyStorage
              ltac:(discriminate) eq_refl ltac:(vm_compute; discriminate))
    as [Hexpired Hfresh].
  split.
  - apply (Hfresh eq_refl). unfold DAYS_TO_CACHE, DAY_MS. lia.
  - apply Hexpired. unfold DAYS_TO_CACHE, DAY_MS. lia.
Defined.

Lemma profileId_round_trip_witness :
  let st' := setProfileId sampleNow (JStr "p1") emptyStorage in
  getProfileId (sampleNow + 10 * NINE_MONTHS_MS) st' = JStr "p1"
  /\ getProfileId (sampleNow + 10 * NINE_MONTHS_MS) (disableCookies st') = JStr "p1"
  /\ getProfileId (sampleNow + NINE_MONTHS_MS - 1000) (disableLocalStorage st') = JStr "p1".
Proof.
  cbv zeta.
  destruct (profileId_round_trip sampleNow "p1" emptyStorage ltac:(discriminate))
    as [Hlocal Hcookie].
  split; [apply (Hlocal eq_refl)|]. split; [apply (Hlocal eq_refl)|].
  apply (Hcookie eq_refl). lia.
Defined.

Lemma processResponseIDs_persists_expiry_record_witness :
  let st' := fst (processResponseIDs sampleNow deniedResponse emptyStorage) in
  consentIsErrorFree deniedResponse = false
  /\ getFromStorage (sampleExpiry - 1) KEY_EXPIRY st' = JStr "1700086400000"
  /\ getFromStorage sampleExpiry KEY_EXPIRY st' = JNull.
Proof.
  cbv zeta.
  destruct (processResponseIDs_persists_expiry_record sampleNow sampleExpiry
              deniedResponse emptyStorage (or_introl eq_refl) eq_refl
              ltac:(vm_compute; discriminate) ltac:(vm_compute; discriminate))
    as [Hexpired Hfresh].
  split; [reflexivity|]. split.
  - apply (Hfresh eq_refl). lia.
  - apply Hexpired. lia.
Defined.

Lemma processResponseIDs_without_backends_witness :
  fst (processResponseIDs sampleNow grantResponse noBackends) = noBackends
  /\ snd (processResponseIDs sampleNow grantResponse noBackends) = JStr "abc".
Proof.
  destruct (processResponseIDs_without_backends sampleNow grantResponse noBackends
              eq_refl eq_refl) as [Hsame Hresult].
  split; [exact Hsame|].
  apply (Hresult (or_introl eq_refl) eq_refl eq_refl).
Defined.

Lemma resolved_identity_is_served_from_cache_witness :
  exists w',
    @idResponseHandler safariHost sampleNow JUndefined grantBody (worldOf emptyStorage)
    = (Returned (JStr "abc"), w')
    /\ @getId safariHost (sampleNow + 1000) None None w'
       = (Returned (IdFound (JStr "abc")), w')
    /\ exists callback,
         @getId safariHost sampleExpiry None None w' = (Returned (Deferred callback), w').
Proof.
  destruct (resolved_identity_is_served_from_cache (H := safariHost)
              sampleNow sampleExpiry None None grantBody
              (mkResponseObj (JStr "p1") (JStr "abc") JUndefined
                 (JNum (Num sampleExpiry)) None)
              (worldOf emptyStorage) "p1" "abc"
              eq_refl ltac:(vm_compute; discriminate) ltac:(vm_compute; reflexivity)
              eq_refl eq_refl ltac:(discriminate) eq_refl
              ltac:(vm_compute; discriminate) ltac:(vm_compute; discriminate) eq_refl)
    as (w' & Hrun & Hfresh & Hstale).
  exists w'. split; [exact Hrun|]. split.
  - apply Hfresh. unfold sampleExpiry. lia.
  - apply Hstale. lia.
Defined.

Lemma consent_ends_client_suppression_witness :
  let st' := fst (processResponseIDs (sampleNow + 1000) clientGrantResponse
                    suppressedClient) in
  fst (getId (sampleNow + 2000) (Some client7) None (worldOf suppressedClient))
  = Returned NoClientConsent
  /\ getFromStorage (sampleNow + 2000) (clientExpiryKey (JStr "7")) st' = JNull
  /\ fst (getId (sampleNow + 2000) (Some client7) None (worldOf st'))
     <> Returned NoClientConsent.
Proof.
  cbv zeta.
  destruct (consent_ends_client_suppression (sampleNow + 1000) clientGrantResponse
              suppressedClient ltac:(unfold sampleNow; lia) eq_refl eq_refl
              ltac:(vm_compute; discriminate)) as [Hgone Hserved].
  split; [vm_compute; reflexivity|]. split; [apply Hgone|].
  apply (Hserved (sampleNow + 2000) client7 None [] []
           ltac:(unfold sampleNow; lia) eq_refl).
Defined.

Lemma client_denial_suppresses_until_expiry_witness :
  let st' := fst (processResponseIDs sampleNow clientDeniedResponse storedIdentity) in
  getId (sampleNow + 1000) (Some client7) None (worldOf st')
  = (Returned NoClientConsent, worldOf st')
  /\ fst (getId sampleExpiry (Some client7) None (worldOf st'))
     <> Returned NoClientConsent.
Proof.
  cbv zeta.
  pose proof (client_denial_suppresses_until_expiry sampleNow sampleExpiry
                clientDeniedResponse storedIdentity eq_refl eq_refl eq_refl eq_refl
                ltac:(vm_compute; discriminate) ltac:(vm_compute; discriminate)
                eq_refl) as Hwindow.
  cbv zeta in Hwindow. split.
  - apply (Hwindow (sampleNow + 1000) client7 None [] [] eq_refl).
    unfold sampleExpiry. lia.
  - apply (Hwindow sampleExpiry client7 None [] [] eq_refl); [lia|].
    unfold sampleExpiry, sampleNow. lia.
Defined.

Lemma unreadable_expiry_record_keeps_id_witness :
  let w := worldOf unreadableExpiry in
  getLotameLocalCache (1000 * sampleNow) JUndefined w
  = (Returned (mkLocalCache (JStr "abc") NaN (Num 0)), w)
  /\ fst (getId (1000 * sampleNow) None None w) = Returned (IdFound (JStr "abc")).
Proof.
  cbv zeta.
  assert (Hload : getLotameLocalCache (1000 * sampleNow) JUndefined
                    (worldOf unreadableExpiry)
                  = (Returned (mkLocalCache (JStr "abc") NaN (Num 0)),
                     worldOf unreadableExpiry)) by (vm_compute; reflexivity).
  assert (Hid : getFromStorage (1000 * sampleNow) KEY_ID
                  (storage (worldOf unreadableExpiry)) = JStr "abc")
    by (vm_compute; reflexivity).
  assert (Hrecord : getFromStorage (1000 * sampleNow) KEY_EXPIRY
                      (storage (worldOf unreadableExpiry)) = JStr "never")
    by (vm_compute; reflexivity).
  assert (Hunreadable : parseInt "never" = NaN) by (vm_compute; reflexivity).
  split; [exact Hload|].
  exact (proj2 (unreadable_expiry_record_keeps_id (1000 * sampleNow) None None
                  (worldOf unreadableExpiry) (worldOf unreadableExpiry)
                  (mkLocalCache (JStr "abc") NaN (Num 0)) "abc" "never"
                  Hid ltac:(discriminate) Hrecord Hunreadable Hload eq_refl)).
Defined.

Lemma getId_returns_only_unexpired_stored_id_witness :
  let now := sampleNow + 1000 in
  let w := worldOf storedIdentity in
  fst (getId now None None w) = Returned (IdFound (JStr "abc"))
  /\ JStr "abc" = getFromStorage now KEY_ID storedIdentity
  /\ now <= sampleExpiry.
Proof.
  cbv zeta.
  assert (Hrun : fst (getId (sampleNow + 1000) None None (worldOf storedIdentity))
                 = Returned (IdFound (JStr "abc"))) by (vm_compute; reflexivity).
  destruct (getId_returns_only_unexpired_stored_id (sampleNow + 1000) None None
              (worldOf storedIdentity) (JStr "abc") Hrun)
    as (Hstored & _ & Hexpiry & _).
  split; [exact Hrun|]. split; [exact Hstored|].
  apply (Hexpiry "1700086400000" sampleExpiry);
    vm_compute; reflexivity.
Defined.

Lemma missing_consent_keeps_profile_id_witness :
  let w := worldOf storedIdentity in
  let t := sampleNow + 2000 in
  getProfileId t
    (storage (snd (@idResponseHandler safariHost (sampleNow + 1000) JUndefined
                     deniedBody w)))
  = JStr "p1"
  /\ getProfileId t
       (storage (snd (@dataResponseHandler safariHost (sampleNow + 1000) JUndefined
                        deniedBody w)))
     = JStr "p1".
Proof.
  cbv zeta.
  destruct (missing_consent_keeps_profile_id (H := safariHost) (sampleNow + 1000)
              JUndefined deniedBody
              (mkResponseObj JUndefined JUndefined JUndefined (JNum (Num sampleExpiry))
                 (Some [JNum (Num MISSING_CORE_CONSENT)]))
              [JNum (Num MISSING_CORE_CONSENT)] (worldOf storedIdentity)
              ltac:(vm_compute; discriminate) ltac:(vm_compute; reflexivity)
              eq_refl (or_introl eq_refl) (sampleNow + 2000)) as [Hid Hdata].
  split.
  - rewrite Hid. vm_compute. reflexivity.
  - rewrite Hdata. vm_compute. reflexivity.
Defined.

Lemma getConsentParameters_precedence_witness :
  let w := worldOf consentStorage in
  let consentData := Some (mkConsentData (JBool true) (JStr EmptyString)) in
  exists ps,
    getConsentParameters sampleNow consentData w = (Returned ps, w)
    /\ ("gdpr_applies", JBool true) ∈ ps
    /\ ("gdpr_consent", JStr "CPxyz") ∈ ps
    /\ ("us_privacy", JStr "1YNN") ∈ ps.
Proof.
  cbv zeta.
  destruct (getConsentParameters_precedence sampleNow
              (Some (mkConsentData (JBool true) (JStr EmptyString)))
              (worldOf consentStorage))
    as (ps & Hrun & Happlies & _ & _ & Hsecond & _ & _ & Husp).
  exists ps. split; [exact Hrun|]. split; [|split].
  - apply Happlies. eexists. split; [reflexivity|]. split; reflexivity.
  - apply (Hsecond eq_refl ltac:(vm_compute; reflexivity)
             ltac:(vm_compute; reflexivity)).
    vm_compute. reflexivity.
  - apply (Husp eq_refl). split; vm_compute; reflexivity.
Defined.


Lemma getRequestHost_heuristic_witness :
  @getRequestHost safariHost = ID_HOST_COOKIELESS
  /\ @getRequestHost sampleHost = ID_HOST.
Proof.
  destruct (getRequestHost_heuristic (H := safariHost)) as (Hcookieless & _ & _).
  destruct (getRequestHost_heuristic (H := sampleHost)) as (_ & Hstandard & _).
  split.
  - apply Hcookieless. split.
    + exists "Mozilla/5.0 (iPhone; CPU iPhone OS 17_0 like Mac OS X) Version/17.0 ",
             "/604.1".
      reflexivity.
    + intros Hc. apply contains_occurs in Hc; [|discriminate].
      vm_compute in Hc. discriminate Hc.
  - apply Hstandard. intros [_ Hno]. apply Hno.
    exists "Mozilla/5.0 ", "/120.0 Safari/537.36". reflexivity.
Defined.

Lemma handed_out_ids_decode_witness :
  fst (getId (sampleNow + 1000) None None (worldOf storedIdentity))
  = Returned (IdFound (JStr "abc"))
  /\ decode (JStr "abc") = Some ("lotamePanoramaId", JStr "abc")
  /\ exists v,
       fst (@idResponseHandler safariHost sampleNow JUndefined deniedBody
              (worldOf storedIdentity)) = Returned v
       /\ decode v = None.
Proof.
  assert (Hrun : fst (getId (sampleNow + 1000) None None (worldOf storedIdentity))
                 = Returned (IdFound (JStr "abc"))) by (vm_compute; reflexivity).
  destruct (handed_out_ids_decode (sampleNow + 1000) (worldOf storedIdentity))
    as (Hsync & _ & _).
  destruct (handed_out_ids_decode (H := safariHost) sampleNow (worldOf storedIdentity))
    as (_ & _ & Hcallback).
  split; [exact Hrun|]. split; [exact (proj2 (Hsync None None (JStr "abc") Hrun))|].
  destruct (Hcallback JUndefined deniedBody) as (v & Hv & [[_ Hnone] | [Hstr _]]).
  - exists v. split; [exact Hv|exact Hnone].
  - exfalso. revert Hv Hstr. vm_compute. intros [= <-]. discriminate.
Defined.

Lemma getId_throws_on_unguarded_read_witness :
  let w := worldOf storedIdentity in
  let now := sampleNow + 1000 in
  let e := URIError "URI malformed" in
  Throwing.getId malformedIdCookie now None None w = (Threw e, w)
  /\ exists r w',
       Throwing.getId malformedExpiryCookie now None None w = (Returned r, w')
       /\ storage w' = storage w
       /\ logs w' = [LogError e].
Proof.
  cbv zeta.
  destruct (getId_throws_on_unguarded_read malformedIdCookie (sampleNow + 1000)
              None None (worldOf storedIdentity) eq_refl) as [Hthrown _].
  destruct (getId_throws_on_unguarded_read malformedExpiryCookie (sampleNow + 1000)
              None None (worldOf storedIdentity) eq_refl) as [_ Hcaught].
  split.
  - apply (Hthrown (URIError "URI malformed") eq_refl).
  - apply (Hcaught (URIError "URI malformed") eq_refl eq_refl (or_introl eq_refl)
             eq_refl).
Defined.
